(** * Transfer-learning helpers of TransferLearning/TrainModels.py

    A shallow embedding of [set_parameter_requires_grad], [initialize_model]
    and [train_model], and the properties of the three functions.

    The numeric framework the script drives (model zoo, layers, autograd,
    optimizer, loss) is not part of the script: it enters as the fields of
    two interfaces, [Torchvision] for the model zoo and [Torch] for the
    training loop.  Python floats and double tensors are binary64 values,
    here the primitive floats of the standard library. *)

From Stdlib Require Import ZArith Floats.
From stdpp Require Import base option list strings gmap.

Local Open Scope Z_scope.
#[local] Set Warnings "-inexact-float".

(** ** Python outcomes *)

(** The exceptions the three functions raise, themselves or through the
    calls they make.  [exit()] raises [SystemExit]; a missing attribute or
    [Sequential] index of a module is reported as [AttributeError]; a layer
    constructor given a negative dimension raises [RuntimeError]; unpacking
    one tensor into two names, and [len] of a dataset whose [__len__] is
    negative, raise [ValueError]; a pair of outputs where a tensor is
    taken raises [TypeError] in torch's argument parser. *)
Inductive exn : Set :=
| SystemExit
| KeyError
| ZeroDivisionError
| AttributeError
| RuntimeError
| ValueError
| TypeError.

Inductive outcome (A : Type) : Type :=
| Return (a : A)
| Raise (e : exn).
Arguments Return {A} a.
Arguments Raise {A} e.

#[global] Instance outcome_ret : MRet outcome := fun _ a => Return a.
#[global] Instance outcome_bind : MBind outcome := fun _ _ k r =>
  match r with
  | Return a => k a
  | Raise e => Raise e
  end.

(** ** Modules and their parameters *)

(** A parameter tensor as [model.parameters()] yields it: its values and its
    [requires_grad] flag. *)
Record param (tensor : Type) : Type := Param {
  data : tensor;
  requires_grad : bool
}.
Arguments Param {tensor} data requires_grad.
Arguments data {tensor} p.
Arguments requires_grad {tensor} p.

(** What the script reads of a layer: [in_features] exists on [nn.Linear]
    only. *)
Inductive layer_kind : Set :=
| Linear (in_features out_features : Z)
| Conv2d (in_channels out_channels : Z) (kernel_size stride : Z * Z)
| Other (name : string).

Record layer (tensor : Type) : Type := Layer {
  kind : layer_kind;
  params : list (param tensor)
}.
Arguments Layer {tensor} kind params.
Arguments kind {tensor} l.
Arguments params {tensor} l.

(** A model object: its submodules by dotted path (["fc"], ["classifier.6"],
    ["AuxLogits.fc"]) and its plain integer attributes ([num_classes]). *)
Record nn_Module (tensor : Type) : Type := NnModule {
  modules : gmap string (layer tensor);
  attrs : gmap string Z
}.
Arguments NnModule {tensor} modules attrs.
Arguments modules {tensor} n.
Arguments attrs {tensor} n.

(** The constructors of [torchvision.models] the script calls. *)
Inductive arch : Set :=
| resnet18
| alexnet
| vgg11_bn
| squeezenet1_0
| densenet121
| inception_v3.

#[global] Instance arch_eq_dec : EqDecision arch.
Proof. solve_decision. Defined.

(** The model zoo and the layer constructors' initial values.  A
    constructor initialises its parameters at random: it reads the state of
    torch's default random generator and leaves it advanced. *)
Class Torchvision : Type := {
  tensor : Type;
  (** the state of the default random generator *)
  generator : Type;
  (** [models.resnet18(pretrained=b)] and its five siblings *)
  models : arch -> bool -> generator -> nn_Module tensor * generator;
  (** the values a new layer of this shape is initialised with *)
  init_params : layer_kind -> generator -> list tensor * generator
}.

Section Initialize.
Context `{TV : Torchvision}.

(** *** set_parameter_requires_grad *)

Definition freeze_param (p : param tensor) : param tensor :=
  Param (data p) false.

Definition freeze_layer (l : layer tensor) : layer tensor :=
  Layer (kind l) (freeze_param <$> params l).

(** [for param in model.parameters(): param.requires_grad = False], under
    [if feature_extracting]. *)
Definition set_parameter_requires_grad (m : nn_Module tensor) (feature_extracting : bool)
  : nn_Module tensor :=
  if feature_extracting
  then NnModule (freeze_layer <$> modules m) (attrs m)
  else m.

(** *** Construction *)

(** A computation that reads and advances the random generator and may
    raise. *)
Definition I (A : Type) : Type := generator -> outcome A * generator.

Definition iret {A : Type} (a : A) : I A := fun g => (Return a, g).

Definition ibind {A B : Type} (m : I A) (k : A -> I B) : I B :=
  fun g =>
    match m g with
    | (Return a, g1) => k a g1
    | (Raise e, g1) => (Raise e, g1)
    end.

Definition ilift {A : Type} (r : outcome A) : I A := fun g => (r, g).

Notation "x <- m ;; k" := (ibind m (fun x => k))
  (at level 100, m at level 99, k at level 200, right associativity).

(** [models.<arch>(pretrained=b)] *)
Definition fetch (a : arch) (pretrained : bool) : I (nn_Module tensor) :=
  fun g => let '(m, g1) := models a pretrained g in (Return m, g1).

(** *** Layer constructors *)

(** A constructor allocates its parameters first: a negative dimension
    makes the allocation raise. *)
Definition dims_ok (k : layer_kind) : bool :=
  match k with
  | Linear i o => (0 <=? i) && (0 <=? o)
  | Conv2d i o (kh, kw) _ => (0 <=? i) && (0 <=? o) && (0 <=? kh) && (0 <=? kw)
  | Other _ => true
  end.

(** A layer of shape [k] with the parameter values [vals], each requiring
    gradients as the parameters of a new layer do. *)
Definition trainable (k : layer_kind) (vals : list tensor) : layer tensor :=
  Layer k ((fun t => Param t true) <$> vals).

(** [nn.Linear(...)] and [nn.Conv2d(...)]: the constructor refuses a
    negative dimension with [RuntimeError]; otherwise it draws the initial
    values of its parameters from the generator, and they require
    gradients. *)
Definition new_layer (k : layer_kind) : I (layer tensor) :=
  fun g =>
    if dims_ok k
    then let '(vals, g1) := init_params k g in (Return (trainable k vals), g1)
    else (Raise RuntimeError, g).

Definition nn_Linear (in_features out_features : Z) : I (layer tensor) :=
  new_layer (Linear in_features out_features).

Definition nn_Conv2d (in_channels out_channels : Z) (kernel_size stride : Z * Z)
  : I (layer tensor) :=
  new_layer (Conv2d in_channels out_channels kernel_size stride).

(** *** Attribute access *)

(** [model.<path>.in_features] *)
Definition in_features_at (path : string) (m : nn_Module tensor) : outcome Z :=
  match modules m !! path with
  | Some l =>
      match kind l with
      | Linear num_ftrs _ => Return num_ftrs
      | _ => Raise AttributeError
      end
  | None => Raise AttributeError
  end.

(** [model.<path> = l], an attribute assignment *)
Definition set_module (path : string) (l : layer tensor) (m : nn_Module tensor)
  : nn_Module tensor :=
  NnModule (<[path := l]> (modules m)) (attrs m).

(** [model.classifier[i] = l]: the slot has to exist. *)
Definition set_item (path : string) (l : layer tensor) (m : nn_Module tensor)
  : outcome (nn_Module tensor) :=
  match modules m !! path with
  | Some _ => Return (set_module path l m)
  | None => Raise AttributeError
  end.

Definition set_attr (name : string) (v : Z) (m : nn_Module tensor) : nn_Module tensor :=
  NnModule (modules m) (<[name := v]> (attrs m)).

(** *** initialize_model *)

Definition invalid_model_name : string := "Invalid model name, exiting...".

(** A branch that prints nothing. *)
Definition silent {A : Type} (m : I A) (g : generator)
  : list string * outcome A * generator :=
  let '(r, g1) := m g in ([], r, g1).

(** The result is what was printed, either [(model_ft, input_size)] or the
    exception raised, and the generator as the call leaves it.  The right
    side of an assignment is evaluated before its target: the new layer is
    constructed before the slot it goes to is looked up. *)
Definition initialize_model (model_name : string) (num_classes : Z)
    (feature_extract use_pretrained : bool) (g : generator)
  : list string * outcome (nn_Module tensor * Z) * generator :=
  if String.eqb model_name "resnet" then
    silent (model_ft <- fetch resnet18 use_pretrained ;;
            let model_ft := set_parameter_requires_grad model_ft feature_extract in
            num_ftrs <- ilift (in_features_at "fc" model_ft) ;;
            fc <- nn_Linear num_ftrs num_classes ;;
            let model_ft := set_module "fc" fc model_ft in
            iret (model_ft, 224)) g
  else if String.eqb model_name "alexnet" then
    silent (model_ft <- fetch alexnet use_pretrained ;;
            let model_ft := set_parameter_requires_grad model_ft feature_extract in
            num_ftrs <- ilift (in_features_at "classifier.6" model_ft) ;;
            l <- nn_Linear num_ftrs num_classes ;;
            model_ft <- ilift (set_item "classifier.6" l model_ft) ;;
            iret (model_ft, 224)) g
  else if String.eqb model_name "vgg" then
    silent (model_ft <- fetch vgg11_bn use_pretrained ;;
            let model_ft := set_parameter_requires_grad model_ft feature_extract in
            num_ftrs <- ilift (in_features_at "classifier.6" model_ft) ;;
            l <- nn_Linear num_ftrs num_classes ;;
            model_ft <- ilift (set_item "classifier.6" l model_ft) ;;
            iret (model_ft, 224)) g
  else if String.eqb model_name "squeezenet" then
    silent (model_ft <- fetch squeezenet1_0 use_pretrained ;;
            let model_ft := set_parameter_requires_grad model_ft feature_extract in
            l <- nn_Conv2d 512 num_classes (1, 1) (1, 1) ;;
            model_ft <- ilift (set_item "classifier.1" l model_ft) ;;
            let model_ft := set_attr "num_classes" num_classes model_ft in
            iret (model_ft, 224)) g
  else if String.eqb model_name "densenet" then
    silent (model_ft <- fetch densenet121 use_pretrained ;;
            let model_ft := set_parameter_requires_grad model_ft feature_extract in
            num_ftrs <- ilift (in_features_at "classifier" model_ft) ;;
            l <- nn_Linear num_ftrs num_classes ;;
            let model_ft := set_module "classifier" l model_ft in
            iret (model_ft, 224)) g
  else if String.eqb model_name "inception" then
    silent (model_ft <- fetch inception_v3 use_pretrained ;;
            let model_ft := set_parameter_requires_grad model_ft feature_extract in
            num_ftrs <- ilift (in_features_at "AuxLogits.fc" model_ft) ;;
            l <- nn_Linear num_ftrs num_classes ;;
            let model_ft := set_module "AuxLogits.fc" l model_ft in
            num_ftrs <- ilift (in_features_at "fc" model_ft) ;;
            l <- nn_Linear num_ftrs num_classes ;;
            let model_ft := set_module "fc" l model_ft in
            iret (model_ft, 299)) g
  else
    ([invalid_model_name], Raise SystemExit, g).

End Initialize.

(** ** The training loop *)

(** Integers become doubles by rounding to nearest, ties to even: Python's
    [float * int] and [float / int], and [tensor.double()] on an integer
    tensor. *)
Definition Z2f (z : Z) : float := SF2Prim (binary_normalize prec emax z 0 false).

(** [a > b] on doubles *)
Definition fgt (a b : float) : bool := PrimFloat.ltb b a.

(** [running_corrects] starts as the Python integer [0] and becomes a tensor
    with the first [+= torch.sum(...)]; only a tensor has [.double()].  The
    count itself is an unbounded integer. *)
Inductive count : Set :=
| PyInt (n : Z)
| Tensor (n : Z).

Definition count_value (c : count) : Z :=
  match c with
  | PyInt n => n
  | Tensor n => n
  end.

Definition count_add (c : count) (k : Z) : count := Tensor (count_value c + k).

Definition is_tensor (c : count) : bool :=
  match c with
  | PyInt _ => false
  | Tensor _ => true
  end.

Definition double (c : count) : outcome float :=
  match c with
  | PyInt _ => Raise AttributeError
  | Tensor n => Return (Z2f n)
  end.

(** [x / n] for a Python float [x] and a Python integer [n] *)
Definition py_div (x : float) (n : Z) : outcome float :=
  if n =? 0 then Raise ZeroDivisionError else Return (x / Z2f n)%float.

(** [len(d)] for an object whose [__len__] gives [n]: [len] refuses a
    negative length. *)
Definition py_len (n : Z) : outcome Z :=
  if n <? 0 then Raise ValueError else Return n.

(** What the loop prints; a number is kept as the value that is formatted. *)
Inductive message : Set :=
| MsgEpoch (epoch : nat) (last : Z)
| MsgRule
| MsgPhase (phase : string) (epoch_loss epoch_acc : float)
| MsgBlank
| MsgComplete
| MsgBest (best_acc : float).

(** The framework objects [train_model] is handed, as the operations it
    calls on them. *)
Class Torch : Type := {
  (** the contents of [model.state_dict()]: parameters and buffers *)
  weights : Type;
  (** the gradients accumulated on the parameters *)
  grads : Type;
  (** the optimizer's own state *)
  optim : Type;
  device : Type;
  inputs : Type;
  labels : Type;
  outputs : Type;
  preds : Type;
  loss : Type;
  inputs_to : inputs -> device -> inputs;
  labels_to : labels -> device -> labels;
  (** [inputs.size(0)] *)
  size0 : inputs -> Z;
  (** [model(inputs)]: the final outputs, by [model.training] *)
  forward : bool -> weights -> inputs -> outputs;
  (** the auxiliary outputs an Inception model adds in training mode *)
  forward_aux : weights -> inputs -> outputs;
  (** whether [model(inputs)], by [model.training], is the pair of the
      final and the auxiliary outputs rather than the final outputs alone *)
  returns_aux : bool -> weights -> inputs -> bool;
  (** what a pair of outputs raises where a tensor is taken, in the
      criterion or at the latest in [torch.max]: [TypeError] from torch's
      argument parser *)
  pair_error : exn;
  (** the buffers a forward pass in training mode leaves behind; a forward
      pass in evaluation mode leaves the state as it is *)
  forward_buffers : weights -> inputs -> weights;
  (** [torch.max(outputs, 1)], its indices *)
  max1 : outputs -> preds;
  (** [torch.sum(preds == labels.data)] *)
  count_eq : preds -> labels -> Z;
  loss_add : loss -> loss -> loss;
  (** a Python float times a loss *)
  loss_scale : float -> loss -> loss;
  loss_item : loss -> float;
  zero_grad : grads -> grads;
  (** [loss.backward()] adds to the gradients *)
  backward : loss -> grads -> grads;
  (** [optimizer.step()] *)
  step : optim -> grads -> weights -> optim * weights
}.

Section Train.
Context `{T : Torch}.

(** The calls that change or configure the framework's state, and the lines
    printed, in program order.  [SetGradEnabled mode] is the entry of a
    [with torch.set_grad_enabled(mode)] block: the forward pass of the batch
    and, in the training phase, its backward pass and optimizer step run
    inside the block. *)
Inductive event : Type :=
| Print (m : message)
| ModelTrain
| ModelEval
| ZeroGrad
| SetGradEnabled (mode : bool)
| Backward (l : loss)
| Step
| LoadStateDict (w : weights).

(** A computation that logs events and may raise. *)
Definition W (A : Type) : Type := list event * outcome A.

Definition wret {A : Type} (a : A) : W A := ([], Return a).

Definition wbind {A B : Type} (m : W A) (k : A -> W B) : W B :=
  match m with
  | (t, Return a) => let '(t', r) := k a in (t ++ t', r)
  | (t, Raise e) => (t, Raise e)
  end.

Definition tell (t : list event) : W unit := (t, Return tt).

Definition lift {A : Type} (r : outcome A) : W A := ([], r).

Notation "x <- m ;; k" := (wbind m (fun x => k))
  (at level 100, m at level 99, k at level 200, right associativity).
Notation "m ;;; k" := (wbind m (fun _ => k))
  (at level 100, k at level 200, right associativity).

(** [for x in xs: s = body(x, s)] *)
Fixpoint for_each {A S : Type} (xs : list A) (body : A -> S -> W S) (s : S) : W S :=
  match xs with
  | [] => wret s
  | x :: xs => s1 <- body x s ;; for_each xs body s1
  end.

(** The model object: its state dict, the gradients on its parameters and
    its mode. *)
Record net : Type := Net {
  wts : weights;
  grad : grads;
  training : bool
}.

(** A data loader: the batches its [n]-th traversal yields (a loader may
    shuffle), counted over all traversals of the run, and the length of
    its dataset. *)
Record loader : Type := Loader {
  batches : nat -> list (inputs * labels);
  dataset_len : Z
}.

(** The variables of [train_model] that live across phases. *)
Record state : Type := State {
  model : net;
  optimizer : optim;
  passes : nat;
  val_acc_history : list float;
  best_model_wts : weights;
  best_acc : float
}.

Section Loop.
Variable dataloaders : gmap string loader.
Variable criterion : outputs -> labels -> loss.
Variable dev : device.
Variables train_name val_name : string.
Variable is_inception : bool.

(** Lines 63-71: the loss of one batch.  [outputs, aux_outputs =
    model(inputs)] unpacks a pair, as an Inception model in training mode
    returns it, and raises [ValueError] on the final outputs alone;
    [outputs = model(inputs)] takes whatever the model returns, and a pair
    makes the criterion or, after it, [torch.max] raise. *)
Definition batch_loss (is_train : bool) (m : net) (x : inputs) (y : labels)
  : outcome loss :=
  let pair := returns_aux (training m) (wts m) x in
  if is_inception && is_train then
    if pair then
      let outputs := forward (training m) (wts m) x in
      let aux_outputs := forward_aux (wts m) x in
      let loss1 := criterion outputs y in
      let loss2 := criterion aux_outputs y in
      Return (loss_add loss1 (loss_scale 0.4%float loss2))
    else Raise ValueError
  else
    if pair then Raise pair_error
    else
      let outputs := forward (training m) (wts m) x in
      Return (criterion outputs y).

(** Lines 50-82: one batch.  The accumulator is the state with
    [running_loss] and [running_corrects]. *)
Definition run_batch (phase : string) (b : inputs * labels)
    (acc : state * float * count) : W (state * float * count) :=
  let '(s, running_loss, running_corrects) := acc in
  let is_train := String.eqb phase train_name in
  let x := inputs_to (fst b) dev in
  let y := labels_to (snd b) dev in
  let m := model s in
  let g := zero_grad (grad m) in
  tell [ZeroGrad; SetGradEnabled is_train] ;;;
  l <- lift (batch_loss is_train m x y) ;;
  let outputs := forward (training m) (wts m) x in
  let w := if training m then forward_buffers (wts m) x else wts m in
  let p := max1 outputs in
  s1 <- (if is_train then
           let g := backward l g in
           let '(o, w) := step (optimizer s) g w in
           tell [Backward l; Step] ;;;
           wret (State (Net w g (training m)) o (passes s) (val_acc_history s)
                       (best_model_wts s) (best_acc s))
         else
           wret (State (Net w g (training m)) (optimizer s) (passes s)
                       (val_acc_history s) (best_model_wts s) (best_acc s))) ;;
  let running_loss := (running_loss + loss_item l * Z2f (size0 x))%float in
  let running_corrects := count_add running_corrects (count_eq p y) in
  wret (s1, running_loss, running_corrects).

(** Lines 90-94: keep the best validation accuracy with a copy of the
    weights, and record the accuracy. *)
Definition record_accuracy (phase : string) (epoch_acc : float) (s : state) : state :=
  let is_val := String.eqb phase val_name in
  let s := if is_val && fgt epoch_acc (best_acc s)
           then State (model s) (optimizer s) (passes s) (val_acc_history s)
                      (wts (model s)) epoch_acc
           else s in
  if is_val
  then State (model s) (optimizer s) (passes s)
             (val_acc_history s ++ [epoch_acc])
             (best_model_wts s) (best_acc s)
  else s.

(** [model.train()] or [model.eval()], and the start of a traversal of a
    loader.  The length of the dataset is read twice, the second time to
    the same value. *)
Definition enter_phase (is_train : bool) (s : state) : state :=
  State (Net (wts (model s)) (grad (model s)) is_train) (optimizer s)
        (S (passes s)) (val_acc_history s) (best_model_wts s) (best_acc s).

(** Lines 40-94: one phase of one epoch. *)
Definition run_phase (phase : string) (s : state) : W state :=
  let is_train := String.eqb phase train_name in
  tell [if is_train then ModelTrain else ModelEval] ;;;
  ld <- lift (match dataloaders !! phase with
              | Some ld => Return ld
              | None => Raise KeyError
              end) ;;
  r <- for_each (batches ld (passes s)) (run_batch phase)
                (enter_phase is_train s, 0%float, PyInt 0) ;;
  let '(s, running_loss, running_corrects) := r in
  n <- lift (py_len (dataset_len ld)) ;;
  epoch_loss <- lift (py_div running_loss n) ;;
  corrects <- lift (double running_corrects) ;;
  let epoch_acc := (corrects / Z2f n)%float in
  tell [Print (MsgPhase phase epoch_loss epoch_acc)] ;;;
  wret (record_accuracy phase epoch_acc s).

(** Lines 35-96: one epoch. *)
Definition run_epoch (num_epochs : Z) (epoch : nat) (s : state) : W state :=
  tell [Print (MsgEpoch epoch (num_epochs - 1)); Print MsgRule] ;;;
  s <- for_each [train_name; val_name] run_phase s ;;
  tell [Print MsgBlank] ;;;
  wret s.

(** [model.load_state_dict(w)] *)
Definition load_state_dict (w : weights) (m : net) : net :=
  Net w (grad m) (training m).

Definition init_state (m : net) (o : optim) : state :=
  State m o 0 [] (wts m) 0%float.

Definition run_epochs (num_epochs : Z) (epochs : list nat) (s : state) : W state :=
  for_each epochs (run_epoch num_epochs) s.

Definition train_model (m : net) (o : optim) (num_epochs : Z) : W (net * list float) :=
  s <- run_epochs num_epochs (seq 0 (Z.to_nat num_epochs)) (init_state m o) ;;
  tell [Print MsgComplete; Print (MsgBest (best_acc s));
        LoadStateDict (best_model_wts s)] ;;;
  wret (load_state_dict (best_model_wts s) (model s), val_acc_history s).

(** *** Vocabulary of the properties of the loop *)

(** The per-sample loss sum and the number of correct predictions of one
    batch for a model in evaluation mode with weights [w]. *)
Definition eval_loss (w : weights) (b : inputs * labels) : float :=
  let x := inputs_to (fst b) dev in
  let y := labels_to (snd b) dev in
  (loss_item (criterion (forward false w x) y) * Z2f (size0 x))%float.

Definition eval_corrects (w : weights) (b : inputs * labels) : Z :=
  let x := inputs_to (fst b) dev in
  let y := labels_to (snd b) dev in
  count_eq (max1 (forward false w x)) y.

(** Their running sums over the batches of a traversal, in order. *)
Definition loss_sum (w : weights) (bs : list (inputs * labels)) : float :=
  fold_left (fun r b => (r + eval_loss w b)%float) bs 0%float.

Definition corrects_sum (w : weights) (bs : list (inputs * labels)) : Z :=
  fold_left (fun n b => n + eval_corrects w b) bs 0.

(** Loss and accuracy of weights [w] over the [n]-th traversal of [ld]:
    the sums divided by the size of the dataset. *)
Definition val_loss (w : weights) (ld : loader) (n : nat) : float :=
  (loss_sum w (batches ld n) / Z2f (dataset_len ld))%float.

Definition val_accuracy (w : weights) (ld : loader) (n : nat) : float :=
  (Z2f (corrects_sum w (batches ld n)) / Z2f (dataset_len ld))%float.

(** A phase has data: its loader is in the dictionary, every traversal
    yields a batch, and the dataset is not empty. *)
Definition loader_ok (phase : string) : Prop :=
  exists ld, dataloaders !! phase = Some ld
             /\ 0 < dataset_len ld
             /\ forall n, batches ld n <> [].

(** The model returns what the loop unpacks: the pair of the final and the
    auxiliary outputs in training mode when [is_inception] is set, as an
    Inception model with its auxiliary classifier does, and the final
    outputs alone otherwise. *)
Definition outputs_match : Prop :=
  forall (mode : bool) (w : weights) (x : inputs),
    returns_aux mode w x = is_inception && mode.

(** What a batch leaves alone: the traversal count, the recorded
    accuracies, the best pair and the mode of the model. *)
Definition bookkeeping (s : state) : nat * list float * weights * float * bool :=
  (passes s, val_acc_history s, best_model_wts s, best_acc s, training (model s)).

(** An event that enables gradient tracking, runs a backward pass or steps
    the optimizer. *)
Definition updates (e : event) : bool :=
  match e with
  | Backward _ | Step | SetGradEnabled true => true
  | _ => false
  end.

(** A trace without such events. *)
Definition quiet (t : list event) : Prop := Forall (fun e => updates e = false) t.

(** The epochs announced in a trace, and the (loss, accuracy) reports of
    a phase in it. *)
Definition epoch_of (e : event) : option nat :=
  match e with
  | Print (MsgEpoch k _) => Some k
  | _ => None
  end.

Definition report_of (phase : string) (e : event) : option (float * float) :=
  match e with
  | Print (MsgPhase p l a) => if String.eqb p phase then Some (l, a) else None
  | _ => None
  end.

Definition epochs_printed (t : list event) : list nat := omap epoch_of t.

Definition reports (phase : string) (t : list event) : list (float * float) :=
  omap (report_of phase) t.

Definition is_print (e : event) : bool :=
  match e with
  | Print _ => true
  | _ => false
  end.

(** The run of the first [k] epochs of [train_model m o num_epochs], and
    the weights of the model after them. *)
Definition state_after (m : net) (o : optim) (num_epochs : Z) (k : nat) : W state :=
  run_epochs num_epochs (seq 0 k) (init_state m o).

Definition weights_after (m : net) (o : optim) (num_epochs : Z) (k : nat) : weights :=
  match snd (state_after m o num_epochs k) with
  | Return s => wts (model s)
  | Raise _ => wts m
  end.

(** The loss of the Inception special case: the final loss plus 0.4 times
    the auxiliary loss. *)
Definition combined_loss (m : net) (x : inputs) (y : labels) : loss :=
  loss_add (criterion (forward (training m) (wts m) x) y)
           (loss_scale 0.4%float (criterion (forward_aux (wts m) x) y)).

(** The loss on the final outputs alone. *)
Definition final_loss (m : net) (x : inputs) (y : labels) : loss :=
  criterion (forward (training m) (wts m) x) y.

(** One batch of the training phase that does not raise, on the model,
    the optimizer state and the two running sums. *)
Definition train_batch (acc : net * optim * float * Z) (b : inputs * labels)
  : net * optim * float * Z :=
  let '(m, o, rl, n) := acc in
  let x := inputs_to (fst b) dev in
  let y := labels_to (snd b) dev in
  let l := (if is_inception then combined_loss else final_loss) m x y in
  let g := backward l (zero_grad (grad m)) in
  let w := if training m then forward_buffers (wts m) x else wts m in
  (Net (snd (step o g w)) g (training m),
   fst (step o g w),
   (rl + loss_item l * Z2f (size0 x))%float,
   n + count_eq (max1 (forward (training m) (wts m) x)) y).

(** A training traversal from model [m] and optimizer state [o]. *)
Definition train_pass (m : net) (o : optim) (bs : list (inputs * labels))
  : net * optim * float * Z :=
  fold_left train_batch bs (m, o, 0%float, 0).

(** Loss and accuracy of a training traversal: its running sums divided by
    the size of the dataset. *)
Definition train_loss (m : net) (o : optim) (ld : loader) (n : nat) : float :=
  let '(_, _, rl, _) := train_pass m o (batches ld n) in
  (rl / Z2f (dataset_len ld))%float.

Definition train_accuracy (m : net) (o : optim) (ld : loader) (n : nat) : float :=
  let '(_, _, _, rc) := train_pass m o (batches ld n) in
  (Z2f rc / Z2f (dataset_len ld))%float.

(** The model, in training mode, and the optimizer state that the training
    phase of epoch [k] of [train_model m o num_epochs] starts from. *)
Definition model_entering (m : net) (o : optim) (num_epochs : Z) (k : nat) : net :=
  match snd (state_after m o num_epochs k) with
  | Return s => Net (wts (model s)) (grad (model s)) true
  | Raise _ => m
  end.

Definition optimizer_entering (m : net) (o : optim) (num_epochs : Z) (k : nat)
  : optim :=
  match snd (state_after m o num_epochs k) with
  | Return s => optimizer s
  | Raise _ => o
  end.

(** *** The properties themselves *)

(** The best accuracy is the maximum of 0.0 and the recorded accuracies:
    none of them exceeds it, and it is 0.0 or one of them. *)
Definition best_is_max (s : state) : Prop :=
  Forall (fun a => fgt a (best_acc s) = false) (val_acc_history s)
  /\ (best_acc s = 0%float \/ In (best_acc s) (val_acc_history s)).

(** Where the best weights come from, [k] epochs into
    [train_model m o num_epochs]: they are the initial weights, the best
    accuracy is still 0.0 and no recorded accuracy exceeds it; or they are
    the weights the model had at the end of an epoch [j < k] whose recorded
    accuracy is the best one. *)
Definition best_snapshot (m : net) (o : optim) (num_epochs : Z) (k : nat) (s : state)
  : Prop :=
  (best_acc s = 0%float
   /\ best_model_wts s = wts m
   /\ Forall (fun a => fgt a 0%float = false) (val_acc_history s))
  \/ (exists j t_j s_j,
        (j < k)%nat
        /\ state_after m o num_epochs (S j) = (t_j, Return s_j)
        /\ val_acc_history s !! j = Some (best_acc s)
        /\ best_model_wts s = wts (model s_j)).

(** What [train_model] does after its last epoch: it reports the best
    accuracy, loads the best weights and returns the model that carries
    them, with the recorded accuracies. *)
Definition returns_best (m : net) (o : optim) (num_epochs : Z) (t : list event)
    (s : state) : Prop :=
  train_model m o num_epochs
  = (t ++ [Print MsgComplete; Print (MsgBest (best_acc s));
           LoadStateDict (best_model_wts s)],
     Return (Net (best_model_wts s) (grad (model s)) (training (model s)),
             val_acc_history s)).

(** The invariant of the best pair, at every number [k] of epochs the run
    gets through. *)
Definition best_invariant (m : net) (o : optim) (num_epochs : Z) : Prop :=
  forall k t s,
    state_after m o num_epochs k = (t, Return s) ->
    length (val_acc_history s) = k
    /\ best_is_max s
    /\ best_snapshot m o num_epochs k s
    /\ (k = Z.to_nat num_epochs -> returns_best m o num_epochs t s).

(** [train_model m o num_epochs] runs its epochs and returns: it
    announces epochs [0 .. num_epochs - 1] in order and returns one
    accuracy per epoch, entry [k] being the accuracy, over the validation
    traversal of epoch [k], of the weights the model has at the end of
    that epoch; the validation report of epoch [k] carries that accuracy
    and the loss sum over the same traversal divided by the dataset size,
    and its training report the two running sums of the training
    traversal divided by the size of the training dataset. *)
Definition runs_all_epochs (m : net) (o : optim) (num_epochs : Z) : Prop :=
  exists t mdl hist,
    train_model m o num_epochs = (t, Return (mdl, hist))
    /\ length hist = Z.to_nat num_epochs
    /\ epochs_printed t = seq 0 (Z.to_nat num_epochs)
    /\ (forall vld, dataloaders !! val_name = Some vld ->
         hist = map (fun k => val_accuracy (weights_after m o num_epochs (S k))
                                           vld (2 * k + 1))
                    (seq 0 (Z.to_nat num_epochs))
         /\ reports val_name t
            = map (fun k => (val_loss (weights_after m o num_epochs (S k))
                                      vld (2 * k + 1),
                             val_accuracy (weights_after m o num_epochs (S k))
                                          vld (2 * k + 1)))
                  (seq 0 (Z.to_nat num_epochs)))
    /\ (forall tld, dataloaders !! train_name = Some tld ->
         reports train_name t
         = map (fun k => (train_loss (model_entering m o num_epochs k)
                                     (optimizer_entering m o num_epochs k)
                                     tld (2 * k),
                          train_accuracy (model_entering m o num_epochs k)
                                         (optimizer_entering m o num_epochs k)
                                         tld (2 * k)))
               (seq 0 (Z.to_nat num_epochs))).

(** The events of [n] batches outside the training phase: each clears the
    gradients and runs with gradient tracking disabled, and nothing else. *)
Definition eval_batches (n : nat) : list event :=
  concat (replicate n [ZeroGrad; SetGradEnabled false]).

(** The order of an epoch that starts in state [s]: after the two header
    lines the training phase runs, in training mode; if it returns, the
    validation phase runs on the state it left, in evaluation mode and
    without any backward pass, optimizer step or enabled gradient
    tracking: its trace is the switch to evaluation mode, then for each
    batch it gets to the clearing of the gradients and the entry of a block
    with gradient tracking disabled, then at most its report, and when it
    returns it has got to every batch of its traversal; if it returns the
    epoch ends with a blank line, the weights and the optimizer being what
    the training phase left. *)
Definition epoch_discipline (num_epochs : Z) (epoch : nat) (s : state) : Prop :=
  let hdr := [Print (MsgEpoch epoch (num_epochs - 1)); Print MsgRule] in
  exists t1 r1,
    run_phase train_name s = (t1, r1)
    /\ head t1 = Some ModelTrain
    /\ match r1 with
       | Raise e => run_epoch num_epochs epoch s = (hdr ++ t1, Raise e)
       | Return s1 =>
           exists t2 r2,
             run_phase val_name s1 = (t2, r2)
             /\ head t2 = Some ModelEval
             /\ quiet t2
             /\ (exists n rest,
                   t2 = ModelEval :: eval_batches n ++ rest
                   /\ Forall (fun e => is_print e = true) rest
                   /\ forall vld s2,
                        dataloaders !! val_name = Some vld ->
                        r2 = Return s2 ->
                        n = length (batches vld (passes s1)) /\ (0 < n)%nat)
             /\ match r2 with
                | Raise e =>
                    run_epoch num_epochs epoch s = (hdr ++ t1 ++ t2, Raise e)
                | Return s2 =>
                    run_epoch num_epochs epoch s
                    = (hdr ++ t1 ++ t2 ++ [Print MsgBlank], Return s2)
                    /\ wts (model s2) = wts (model s1)
                    /\ optimizer s2 = optimizer s1
                end
       end.

(** What one batch of phase [phase] does, [l] being the loss of the branch
    it takes and [pair] whether that branch unpacks a pair.  When the model
    returns what the branch takes, the batch adds [l] times the batch size
    to the running loss, and to the running corrects the matches of the
    predictions taken from the final outputs, and a backward pass starts
    from [l]; otherwise it raises inside the block it has entered, before
    any backward pass or optimizer step. *)
Definition batch_adds (phase : string) (pair : bool)
    (l : net -> inputs -> labels -> loss) : Prop :=
  forall (b : inputs * labels) (s : state) (rl : float) (rc : count),
    let x := inputs_to (fst b) dev in
    let y := labels_to (snd b) dev in
    if Bool.eqb (returns_aux (training (model s)) (wts (model s)) x) pair
    then
      exists evs s',
        run_batch phase b (s, rl, rc)
        = (evs,
           Return (s',
                   (rl + loss_item (l (model s) x y) * Z2f (size0 x))%float,
                   count_add rc (count_eq (max1 (forward (training (model s))
                                                         (wts (model s)) x)) y)))
        /\ (forall l', In (Backward l') evs -> l' = l (model s) x y)
    else
      exists e,
        run_batch phase b (s, rl, rc)
        = ([ZeroGrad; SetGradEnabled (String.eqb phase train_name)], Raise e).

(** The loss rule of the loop: in the training phase the combined loss
    when [is_inception] is set and the final loss otherwise, the loss the
    backward pass starts from; in the validation phase the final loss. *)
Definition loss_rule : Prop :=
  batch_adds train_name is_inception
             (if is_inception then combined_loss else final_loss)
  /\ (forall b s rl rc,
        returns_aux (training (model s)) (wts (model s)) (inputs_to (fst b) dev)
        = is_inception ->
        In (Backward ((if is_inception then combined_loss else final_loss)
                        (model s) (inputs_to (fst b) dev) (labels_to (snd b) dev)))
           (fst (run_batch train_name b (s, rl, rc))))
  /\ batch_adds val_name false final_loss.

(** The best accuracy is 0.0 or above it. *)
Definition best_nonneg (s : state) : Prop :=
  best_acc s = 0%float \/ fgt (best_acc s) 0%float = true.

(** The best pair is still the initial one, or some recorded accuracy
    exceeds 0.0. *)
Definition initial_or_exceeded (w0 : weights) (s : state) : Prop :=
  (best_acc s = 0%float /\ best_model_wts s = w0)
  \/ Exists (fun a => fgt a 0%float = true) (val_acc_history s).

End Loop.
End Train.


(** ** A small framework to run the functions on *)

(** A zoo of two-layer backbones: one feature layer and the head (for
    Inception two heads) the script replaces. *)
Module SmallZoo.

Definition features : layer Z := Layer (Other "features") [Param 7 true; Param 8 true].

Definition head (k : layer_kind) (b : bool) : layer Z :=
  Layer k [Param (if b then 1 else 2) true].

Definition backbone (a : arch) (b : bool) : nn_Module Z :=
  match a with
  | resnet18 =>
      NnModule (<["conv1" := features]> (<["fc" := head (Linear 512 1000) b]> ∅)) ∅
  | alexnet | vgg11_bn =>
      NnModule (<["features.0" := features]>
                  (<["classifier.6" := head (Linear 4096 1000) b]> ∅)) ∅
  | squeezenet1_0 =>
      NnModule (<["features.0" := features]>
                  (<["classifier.1" := head (Conv2d 512 1000 (1, 1) (1, 1)) b]> ∅))
               (<["num_classes" := 1000]> ∅)
  | densenet121 =>
      NnModule (<["features.conv0" := features]>
                  (<["classifier" := head (Linear 1024 1000) b]> ∅)) ∅
  | inception_v3 =>
      NnModule (<["Conv2d_1a_3x3" := features]>
                  (<["AuxLogits.fc" := head (Linear 768 1000) b]>
                     (<["fc" := head (Linear 2048 1000) b]> ∅))) ∅
  end.

(** The generator is a counter: a backbone takes ten numbers of it, a new
    layer two, which are its initial values. *)
#[export] Instance zoo : Torchvision := {|
  tensor := Z;
  generator := Z;
  models := fun a b g => (backbone a b, g + 10);
  init_params := fun _ g => ([g; g + 1], g + 2)
|}.

End SmallZoo.

(** A one-parameter model: the weight is an integer, the model predicts its
    weight, every optimizer step adds one to it, and a loss is a double.
    With [aux] the model has an auxiliary classifier: in training mode it
    returns the pair of its outputs. *)
Module Counter.

Definition framework (aux : bool) : Torch := {|
  weights := Z;
  grads := Z;
  optim := Z;
  device := unit;
  inputs := Z;
  labels := Z;
  outputs := Z;
  preds := Z;
  loss := float;
  inputs_to := fun x _ => x;
  labels_to := fun y _ => y;
  size0 := fun _ => 1;
  forward := fun _ w _ => w;
  forward_aux := fun w _ => w + 1;
  returns_aux := fun mode _ _ => aux && mode;
  pair_error := TypeError;
  forward_buffers := fun w _ => w;
  max1 := fun o => o;
  count_eq := fun p y => if p =? y then 1 else 0;
  loss_add := PrimFloat.add;
  loss_scale := PrimFloat.mul;
  loss_item := fun l => l;
  zero_grad := fun _ => 0;
  backward := fun _ g => g + 1;
  step := fun o _ w => (o + 1, w + 1)
|}.

#[export] Instance torch : Torch := framework false.

Definition inception : Torch := framework true.

(** The loss is the distance of the output from the label. *)
Definition criterion (o y : Z) : float := Z2f (Z.abs (o - y)).

(** One batch per traversal, labelled [y]. *)
Definition one_batch (y : Z) : loader := Loader (fun _ => [(0, y)]) 1.

(** A loader whose traversals yield nothing, over a dataset of [n] items. *)
Definition no_batch (n : Z) : loader := Loader (fun _ => []) n.

Definition net0 : net := Net 0 0 false.

(** The model is right on the training data and, after one step, on the
    validation data. *)
Definition loaders : gmap string loader :=
  <["train" := one_batch 0]> (<["val" := one_batch 1]> ∅).

(** One loader, used under one name for both phases. *)
Definition same_name_loaders : gmap string loader :=
  <["val" := one_batch 0]> ∅.

(** A validation loader that yields no batch: a batch size above the size
    of the dataset with incomplete batches dropped. *)
Definition no_batch_loaders : gmap string loader :=
  <["train" := one_batch 0]> (<["val" := no_batch 3]> ∅).

(** A validation loader over an empty dataset. *)
Definition empty_dataset_loaders : gmap string loader :=
  <["train" := one_batch 0]> (<["val" := no_batch 0]> ∅).

(** No validation loader. *)
Definition no_val_loaders : gmap string loader :=
  <["train" := one_batch 0]> ∅.

(** Labels the model does not reach in one epoch. *)
Definition never_right_loaders : gmap string loader :=
  <["train" := one_batch 5]> (<["val" := one_batch 5]> ∅).

End Counter.

(** ** Vocabulary of the properties *)

Section InitializeVocabulary.
Context `{TV : Torchvision}.

(** The six names [initialize_model] recognises. *)
Definition model_names : list string :=
  ["resnet"; "alexnet"; "vgg"; "squeezenet"; "densenet"; "inception"].

(** The backbone that goes with a name. *)
Definition backbone_of (model_name : string) : option arch :=
  if String.eqb model_name "resnet" then Some resnet18
  else if String.eqb model_name "alexnet" then Some alexnet
  else if String.eqb model_name "vgg" then Some vgg11_bn
  else if String.eqb model_name "squeezenet" then Some squeezenet1_0
  else if String.eqb model_name "densenet" then Some densenet121
  else if String.eqb model_name "inception" then Some inception_v3
  else None.

(** The name that selects a backbone. *)
Definition name_of (a : arch) : string :=
  match a with
  | resnet18 => "resnet"
  | alexnet => "alexnet"
  | vgg11_bn => "vgg"
  | squeezenet1_0 => "squeezenet"
  | densenet121 => "densenet"
  | inception_v3 => "inception"
  end.

(** Where a backbone keeps its classification head: the final layer, for
    Inception the auxiliary and the primary one, for SqueezeNet the
    convolution of the classifier. *)
Definition head_paths (a : arch) : list string :=
  match a with
  | resnet18 => ["fc"]
  | alexnet | vgg11_bn => ["classifier.6"]
  | squeezenet1_0 => ["classifier.1"]
  | densenet121 => ["classifier"]
  | inception_v3 => ["AuxLogits.fc"; "fc"]
  end.

Definition input_size_of (a : arch) : Z :=
  match a with
  | inception_v3 => 299
  | _ => 224
  end.

(** The shape of the head that replaces a layer of shape [old]: a linear
    layer of the same input width, for SqueezeNet a 1x1 convolution over 512
    channels; [num_classes] outputs either way. *)
Definition head_kind (a : arch) (num_classes : Z) (old : layer_kind) : option layer_kind :=
  match a, old with
  | squeezenet1_0, _ => Some (Conv2d 512 num_classes (1, 1) (1, 1))
  | _, Linear num_ftrs _ => Some (Linear num_ftrs num_classes)
  | _, _ => None
  end.

(** The output dimension of a layer. *)
Definition out_dim (k : layer_kind) : option Z :=
  match k with
  | Linear _ o => Some o
  | Conv2d _ o _ _ => Some o
  | Other _ => None
  end.

(** The backbone has what the script reads of it: a layer at each head
    path, linear and of a width a constructor accepts wherever its
    [in_features] is read. *)
Definition head_ok (a : arch) (m : nn_Module tensor) : bool :=
  forallb (fun p => match modules m !! p with
                    | Some old =>
                        match head_kind a 0 (kind old) with
                        | Some k => dims_ok k
                        | None => false
                        end
                    | None => false
                    end) (head_paths a).

(** The backbone a call fetches when the generator is in state [g]. *)
Definition fetched (a : arch) (up : bool) (g : generator) : nn_Module tensor :=
  fst (models a up g).

(** The zoo's backbones have their heads. *)
Definition zoo_ok : Prop := forall a up g, head_ok a (fetched a up g) = true.

(** Every parameter of the layer has [requires_grad] equal to [b]. *)
Definition all_requires_grad (b : bool) (l : layer tensor) : Prop :=
  Forall (fun q => requires_grad q = b) (params l).

(** [l'] is [l] frozen: the same shape and the same parameter values in
    the same order, none of them requiring gradients. *)
Definition frozen_copy (l l' : layer tensor) : Prop :=
  kind l' = kind l
  /\ data <$> params l' = data <$> params l
  /\ all_requires_grad false l'.

(** The exit check: an unrecognised name prints the error line and exits;
    a recognised one returns a model and an input size, printing nothing. *)
Definition exits_on_unknown (model_name : string) (nc : Z) (fe up : bool)
    (g : generator) : Prop :=
  (model_name ∉ model_names ->
   fst (initialize_model model_name nc fe up g)
   = ([invalid_model_name], Raise SystemExit))
  /\ (model_name ∈ model_names ->
      exists m input_size,
        fst (initialize_model model_name nc fe up g)
        = ([], Return (m, input_size))).

(** [initialize_model model_name nc fe up] returns the backbone [a] with
    its head replaced: at each head path a newly initialised layer of [nc]
    outputs, of the shape [head_kind] gives for the old layer there;
    elsewhere the layers of the backbone, frozen if [fe]; the attribute
    [num_classes] set for SqueezeNet and the attributes of the backbone
    otherwise; and the input size of [a]. *)
Definition replaces_head (model_name : string) (a : arch) (nc : Z) (fe up : bool)
    (g : generator) : Prop :=
  exists m g',
    initialize_model model_name nc fe up g = ([], Return (m, input_size_of a), g')
    /\ (forall p, p ∈ head_paths a ->
         exists old k g0,
           modules (fetched a up g) !! p = Some old
           /\ head_kind a nc (kind old) = Some k
           /\ out_dim k = Some nc
           /\ modules m !! p = Some (trainable k (fst (init_params k g0))))
    /\ (forall p, p ∉ head_paths a ->
         modules m !! p
         = modules (set_parameter_requires_grad (fetched a up g) fe) !! p)
    /\ (forall x, attrs m !! x
                  = if bool_decide (a = squeezenet1_0 /\ x = "num_classes")
                    then Some nc
                    else attrs (fetched a up g) !! x).

(** The freeze-features step for backbone [a].  The freeze keeps the
    attributes and turns every layer of the backbone into its frozen copy.
    When the call with [feature_extract] true returns, the model has new
    layers at the head paths, the frozen copy of the backbone's layer at
    every other path, and [requires_grad] true on exactly the parameters
    of the layers at the head paths.  When the call with [feature_extract]
    false returns, every layer away from the head paths is the backbone's
    own.  Both calls return when the backbone has its heads and
    [num_classes] is not negative. *)
Definition freezes_backbone (model_name : string) (a : arch) (nc : Z) (up : bool)
    (g : generator) : Prop :=
  let bb := fetched a up g in
  (attrs (set_parameter_requires_grad bb true) = attrs bb
   /\ forall p,
        option_Forall2 frozen_copy
          (modules bb !! p)
          (modules (set_parameter_requires_grad bb true) !! p))
  /\ (forall t m input_size g',
        initialize_model model_name nc true up g = (t, Return (m, input_size), g') ->
        (forall p, p ∈ head_paths a ->
           exists k g0, modules m !! p = Some (trainable k (fst (init_params k g0))))
        /\ (forall p, p ∉ head_paths a ->
              option_Forall2 frozen_copy (modules bb !! p) (modules m !! p))
        /\ (forall p l q,
              modules m !! p = Some l -> q ∈ params l ->
              (requires_grad q = true <-> p ∈ head_paths a)))
  /\ (forall t m input_size g',
        initialize_model model_name nc false up g = (t, Return (m, input_size), g') ->
        forall p, p ∉ head_paths a -> modules m !! p = modules bb !! p)
  /\ (head_ok a bb = true -> 0 <= nc ->
      forall fe, exists m g',
        initialize_model model_name nc fe up g
        = ([], Return (m, input_size_of a), g')).

(** [use_pretrained] changes the backbone fetched and nothing else,
    whatever the generator states [g1] and [g2] of the two calls: an
    unrecognised name exits the same way for both values; for a recognised
    name and a negative [nc] both calls raise [RuntimeError] from the layer
    constructor; otherwise both return the same input size, put new layers
    of [nc] outputs at the same head paths, of equal shape whenever the old
    heads of the two backbones have the same shape, keep every other layer
    of their own backbone, and treat the attributes alike. *)
Definition same_but_backbone (model_name : string) (nc : Z) (fe : bool)
    (g1 g2 : generator) : Prop :=
  (model_name ∉ model_names ->
   fst (initialize_model model_name nc fe true g1)
   = ([invalid_model_name], Raise SystemExit)
   /\ fst (initialize_model model_name nc fe false g2)
      = ([invalid_model_name], Raise SystemExit))
  /\ (forall a, backbone_of model_name = Some a ->
      (nc < 0 ->
       fst (initialize_model model_name nc fe true g1) = ([], Raise RuntimeError)
       /\ fst (initialize_model model_name nc fe false g2) = ([], Raise RuntimeError))
      /\ (0 <= nc ->
          exists m1 m2,
            fst (initialize_model model_name nc fe true g1)
            = ([], Return (m1, input_size_of a))
            /\ fst (initialize_model model_name nc fe false g2)
               = ([], Return (m2, input_size_of a))
            /\ (forall p, p ∈ head_paths a ->
                 exists k1 k2 v1 v2,
                   modules m1 !! p = Some (trainable k1 v1)
                   /\ modules m2 !! p = Some (trainable k2 v2)
                   /\ out_dim k1 = Some nc /\ out_dim k2 = Some nc
                   /\ (kind <$> modules (fetched a true g1) !! p
                       = kind <$> modules (fetched a false g2) !! p -> k1 = k2))
            /\ (forall p, p ∉ head_paths a ->
                 modules m1 !! p
                 = modules (set_parameter_requires_grad (fetched a true g1) fe) !! p
                 /\ modules m2 !! p
                    = modules (set_parameter_requires_grad (fetched a false g2) fe) !! p)
            /\ (forall x,
                  attrs m1 !! x
                  = (if bool_decide (a = squeezenet1_0 /\ x = "num_classes")
                     then Some nc else attrs (fetched a true g1) !! x)
                  /\ attrs m2 !! x
                     = (if bool_decide (a = squeezenet1_0 /\ x = "num_classes")
                        then Some nc else attrs (fetched a false g2) !! x)))).

End InitializeVocabulary.

(** ** Further vocabulary *)

Section MoreVocabulary.
Context `{T : Torch}.
Variable dataloaders : gmap string loader.

(** The [n]-th traversal of the run can be done by phase [phase]: its
    loader is in the dictionary, the dataset is not empty and the traversal
    yields a batch. *)
Definition traversal_ready (phase : string) (n : nat) : Prop :=
  exists ld, dataloaders !! phase = Some ld
             /\ 0 < dataset_len ld
             /\ batches ld n <> [].

(** What the [n]-th traversal of the run raises when phase [phase] makes
    it and the model returns what the loop unpacks: [KeyError] for a
    missing loader, [ValueError] for a dataset of negative length,
    [ZeroDivisionError] for an empty dataset, [AttributeError] for a
    traversal without a batch, in this order of precedence. *)
Definition traversal_error (phase : string) (n : nat) : option exn :=
  match dataloaders !! phase with
  | None => Some KeyError
  | Some ld =>
      if dataset_len ld <? 0 then Some ValueError
      else if dataset_len ld =? 0 then Some ZeroDivisionError
      else match batches ld n with
           | [] => Some AttributeError
           | _ :: _ => None
           end
  end.

Definition is_load (e : event) : bool :=
  match e with
  | LoadStateDict _ => true
  | _ => false
  end.

Definition is_step (e : event) : bool :=
  match e with
  | Step => true
  | _ => false
  end.

Definition is_backward (e : event) : bool :=
  match e with
  | Backward _ => true
  | _ => false
  end.

Definition is_zero_grad (e : event) : bool :=
  match e with
  | ZeroGrad => true
  | _ => false
  end.

(** How many events of a trace satisfy [f]. *)
Definition count_events (f : event -> bool) (t : list event) : nat :=
  length (List.filter f t).

(** The number of batches of the traversals [first, first + 2, ...] of a
    loader, one per epoch, over [k] epochs. *)
Definition batches_of (ld : loader) (first k : nat) : nat :=
  sum_list_with (fun j => length (batches ld (2 * j + first))) (seq 0 k).

(** Two states that the training phase cannot tell apart: the same
    weights, optimizer state and traversal count, and gradients that are
    the same once cleared. *)
Definition same_training (s1 s2 : state) : Prop :=
  wts (model s1) = wts (model s2)
  /\ optimizer s1 = optimizer s2
  /\ passes s1 = passes s2
  /\ zero_grad (grad (model s1)) = zero_grad (grad (model s2)).

Section Schedule.
Variables train_name val_name : string.

(** Traversal [i] of the run belongs to the training phase when [i] is
    even and to the validation phase when it is odd. *)
Definition schedule_error (i : nat) : option exn :=
  traversal_error (if Nat.even i then train_name else val_name) i.

(** [e] is the error of the first traversal, among the [2 * k] of [k]
    epochs, that has one. *)
Definition first_error (k : nat) (e : exn) : Prop :=
  exists i, (i < 2 * k)%nat
            /\ schedule_error i = Some e
            /\ forall j, (j < i)%nat -> schedule_error j = None.

End Schedule.
End MoreVocabulary.

(** * Properties *)

(** ** Doubles *)

Lemma SFltb_irrefl (x : spec_float) : SFltb x x = false.
Proof.
  unfold SFltb, SFcompare.
  destruct x as [s | [|] | | [|] m e]; try reflexivity;
    rewrite Z.compare_refl, Pos.compare_cont_refl; reflexivity.
Qed.

Lemma SFltb_finite_trans (s1 s2 s3 : bool) (m1 m2 m3 : positive) (e1 e2 e3 : Z) :
  SFltb (S754_finite s1 m1 e1) (S754_finite s2 m2 e2) = true ->
  SFltb (S754_finite s2 m2 e2) (S754_finite s3 m3 e3) = true ->
  SFltb (S754_finite s1 m1 e1) (S754_finite s3 m3 e3) = true.
Proof.
  unfold SFltb, SFcompare.
  change (Pos.compare_cont Eq) with Pos.compare.
  destruct s1, s2, s3; try discriminate; try reflexivity;
    destruct (Z.compare_spec e1 e2), (Z.compare_spec e2 e3), (Z.compare_spec e1 e3);
    try discriminate; try reflexivity; try (exfalso; lia); subst;
    destruct (Pos.compare_spec m1 m2), (Pos.compare_spec m2 m3), (Pos.compare_spec m1 m3);
    simpl; try discriminate; try reflexivity; exfalso; lia.
Qed.

Lemma SFltb_trans (x y z : spec_float) :
  SFltb x y = true -> SFltb y z = true -> SFltb x z = true.
Proof.
  destruct x as [sx | sx | | sx mx ex], y as [sy | sy | | sy my ey],
    z as [sz | sz | | sz mz ez];
    try apply SFltb_finite_trans;
    unfold SFltb, SFcompare;
    repeat match goal with b : bool |- _ => destruct b end;
    try discriminate; try reflexivity.
Qed.

(** [>] on doubles is a strict order, NaN included. *)
Lemma fgt_irrefl (a : float) : fgt a a = false.
Proof. unfold fgt. rewrite ltb_spec. apply SFltb_irrefl. Qed.

Lemma fgt_trans (a b c : float) : fgt a b = true -> fgt b c = true -> fgt a c = true.
Proof.
  unfold fgt. rewrite !ltb_spec. intros Hab Hbc.
  exact (SFltb_trans _ _ _ Hbc Hab).
Qed.

(** ** set_parameter_requires_grad and initialize_model *)

Section InitializeFacts.
Context `{TV : Torchvision}.

Lemma backbone_of_names (model_name : string) :
  backbone_of model_name = None <-> model_name ∉ model_names.
Proof.
  unfold backbone_of, model_names.
  rewrite !not_elem_of_cons.
  destruct (String.eqb_spec model_name "resnet");
    [split; [discriminate | tauto] |].
  destruct (String.eqb_spec model_name "alexnet");
    [split; [discriminate | tauto] |].
  destruct (String.eqb_spec model_name "vgg");
    [split; [discriminate | tauto] |].
  destruct (String.eqb_spec model_name "squeezenet");
    [split; [discriminate | tauto] |].
  destruct (String.eqb_spec model_name "densenet");
    [split; [discriminate | tauto] |].
  destruct (String.eqb_spec model_name "inception");
    [split; [discriminate | tauto] |].
  split; [intros _ | reflexivity].
  repeat split; try assumption. apply not_elem_of_nil.
Qed.

Lemma freeze_lookup (m : nn_Module tensor) (fe : bool) (p : string) :
  modules (set_parameter_requires_grad m fe) !! p
  = (if fe then freeze_layer else id) <$> modules m !! p.
Proof.
  destruct fe; simpl.
  - apply lookup_fmap.
  - destruct (modules m !! p); reflexivity.
Qed.

Lemma freeze_attrs (m : nn_Module tensor) (fe : bool) :
  attrs (set_parameter_requires_grad m fe) = attrs m.
Proof. destruct fe; reflexivity. Qed.

Lemma in_features_at_freeze (m : nn_Module tensor) (fe : bool) (p : string) :
  in_features_at p (set_parameter_requires_grad m fe) = in_features_at p m.
Proof.
  unfold in_features_at. rewrite freeze_lookup.
  destruct (modules m !! p) as [l|]; [|reflexivity].
  destruct fe; reflexivity.
Qed.

Lemma backbone_of_Some (model_name : string) (a : arch) :
  backbone_of model_name = Some a <-> model_name = name_of a.
Proof.
  unfold backbone_of.
  split.
  - repeat match goal with
           | |- context [String.eqb model_name ?s] =>
               destruct (String.eqb_spec model_name s) as [-> | ?]
           end; intros [= <-]; reflexivity.
  - intros ->. destruct a; reflexivity.
Qed.

(** The shape of a new head is one the constructor accepts exactly when
    [num_classes] is not negative, the old head being one the script can
    read. *)
Lemma head_kind_dims (a : arch) (nc : Z) (old k0 : layer_kind) :
  head_kind a 0 old = Some k0 -> dims_ok k0 = true ->
  exists k, head_kind a nc old = Some k /\ dims_ok k = (0 <=? nc).
Proof.
  destruct a, old; cbn; intros [= <-]; cbn; rewrite ?andb_true_r;
    intros H; eexists; (split; [reflexivity|]); cbn;
    rewrite ?H, ?andb_true_r; reflexivity.
Qed.

Lemma head_ok_lookup (a : arch) (m : nn_Module tensor) (nc : Z) (p : string) :
  head_ok a m = true -> p ∈ head_paths a ->
  exists old k,
    modules m !! p = Some old
    /\ head_kind a nc (kind old) = Some k
    /\ dims_ok k = (0 <=? nc).
Proof.
  unfold head_ok. rewrite forallb_forall. intros H Hp.
  specialize (H p). rewrite <- list_elem_of_In in H. specialize (H Hp).
  destruct (modules m !! p) as [old|]; [|discriminate].
  destruct (head_kind a 0 (kind old)) as [k0|] eqn:Hk0; [|discriminate].
  destruct (head_kind_dims a nc _ _ Hk0 H) as (k & Hk & Hd). eauto.
Qed.

Lemma in_features_at_head (a : arch) (m : nn_Module tensor) (fe : bool) (nc : Z)
    (p : string) (old : layer tensor) (k : layer_kind) :
  a <> squeezenet1_0 ->
  modules m !! p = Some old ->
  head_kind a nc (kind old) = Some k ->
  exists num_ftrs,
    in_features_at p (set_parameter_requires_grad m fe) = Return num_ftrs
    /\ k = Linear num_ftrs nc.
Proof.
  intros Ha Hold Hk. rewrite in_features_at_freeze. unfold in_features_at.
  rewrite Hold.
  destruct a, (kind old); simpl in Hk; try discriminate; try congruence;
    injection Hk as <-; eauto.
Qed.

Lemma set_item_freeze (m : nn_Module tensor) (fe : bool) (p : string)
    (old l : layer tensor) :
  modules m !! p = Some old ->
  set_item p l (set_parameter_requires_grad m fe)
  = Return (set_module p l (set_parameter_requires_grad m fe)).
Proof.
  intros Hold. unfold set_item. rewrite freeze_lookup, Hold. reflexivity.
Qed.

(** A constructor draws the values of its layer, or raises. *)
Lemma new_layer_spec (k : layer_kind) (g : generator) :
  new_layer k g
  = if dims_ok k
    then (Return (trainable k (fst (init_params k g))), snd (init_params k g))
    else (Raise RuntimeError, g).
Proof.
  unfold new_layer. destruct (dims_ok k); [|reflexivity].
  destruct (init_params k g). reflexivity.
Qed.

Lemma fetch_spec (a : arch) (up : bool) (g : generator) :
  fetch a up g = (Return (fetched a up g), snd (models a up g)).
Proof. unfold fetch, fetched. destruct (models a up g). reflexivity. Qed.

(** What [initialize_model] does for a recognised name, the backbone
    having its heads: with a negative [num_classes] the first constructor
    raises; otherwise the call returns the frozen (or untouched) backbone
    with new layers at the head paths. *)
Lemma initialize_model_returns (a : arch) (nc : Z) (fe up : bool) (g : generator) :
  head_ok a (fetched a up g) = true ->
  if 0 <=? nc
  then
    exists m g',
      initialize_model (name_of a) nc fe up g = ([], Return (m, input_size_of a), g')
      /\ (forall p, p ∈ head_paths a ->
           exists old k g0,
             modules (fetched a up g) !! p = Some old
             /\ head_kind a nc (kind old) = Some k
             /\ modules m !! p = Some (trainable k (fst (init_params k g0))))
      /\ (forall p, p ∉ head_paths a ->
           modules m !! p
           = modules (set_parameter_requires_grad (fetched a up g) fe) !! p)
      /\ attrs m = match a with
                   | squeezenet1_0 => <["num_classes" := nc]> (attrs (fetched a up g))
                   | _ => attrs (fetched a up g)
                   end
  else
    fst (initialize_model (name_of a) nc fe up g) = ([], Raise RuntimeError).
Proof.
  intros Hok.
  assert (Hhead := fun p => head_ok_lookup a (fetched a up g) nc p Hok).
  destruct a; cbn [name_of head_paths input_size_of] in *;
    unfold initialize_model; cbn [String.eqb Ascii.eqb Bool.eqb];
    unfold silent, ibind, ilift, iret, nn_Linear, nn_Conv2d;
    rewrite fetch_spec.
  - (* resnet *)
    destruct (Hhead "fc") as (old & k & Hold & Hk & Hd); [set_solver|].
    destruct (in_features_at_head resnet18 _ fe _ _ _ _ ltac:(discriminate) Hold Hk)
      as (i & Hi & ->).
    rewrite Hi, new_layer_spec, Hd.
    destruct (0 <=? nc); [|reflexivity].
    eexists _, _; split; [reflexivity|]. cbn. repeat split.
    + intros p ->%list_elem_of_singleton. exists old, (Linear i nc).
      eexists. rewrite lookup_insert_eq. auto.
    + intros p Hp%not_elem_of_cons. apply lookup_insert_ne. intuition congruence.
    + apply freeze_attrs.
  - (* alexnet *)
    destruct (Hhead "classifier.6") as (old & k & Hold & Hk & Hd); [set_solver|].
    destruct (in_features_at_head alexnet _ fe _ _ _ _ ltac:(discriminate) Hold Hk)
      as (i & Hi & ->).
    rewrite Hi, new_layer_spec, Hd.
    destruct (0 <=? nc); [|reflexivity].
    rewrite (set_item_freeze _ _ _ _ _ Hold).
    eexists _, _; split; [reflexivity|]. cbn. repeat split.
    + intros p ->%list_elem_of_singleton. exists old, (Linear i nc).
      eexists. rewrite lookup_insert_eq. auto.
    + intros p Hp%not_elem_of_cons. apply lookup_insert_ne. intuition congruence.
    + apply freeze_attrs.
  - (* vgg *)
    destruct (Hhead "classifier.6") as (old & k & Hold & Hk & Hd); [set_solver|].
    destruct (in_features_at_head vgg11_bn _ fe _ _ _ _ ltac:(discriminate) Hold Hk)
      as (i & Hi & ->).
    rewrite Hi, new_layer_spec, Hd.
    destruct (0 <=? nc); [|reflexivity].
    rewrite (set_item_freeze _ _ _ _ _ Hold).
    eexists _, _; split; [reflexivity|]. cbn. repeat split.
    + intros p ->%list_elem_of_singleton. exists old, (Linear i nc).
      eexists. rewrite lookup_insert_eq. auto.
    + intros p Hp%not_elem_of_cons. apply lookup_insert_ne. intuition congruence.
    + apply freeze_attrs.
  - (* squeezenet *)
    destruct (Hhead "classifier.1") as (old & k & Hold & Hk & Hd); [set_solver|].
    cbn in Hk. injection Hk as <-.
    rewrite new_layer_spec, Hd.
    destruct (0 <=? nc); [|reflexivity].
    rewrite (set_item_freeze _ _ _ _ _ Hold).
    eexists _, _; split; [reflexivity|]. cbn. repeat split.
    + intros p ->%list_elem_of_singleton. exists old. eexists _, _.
      rewrite lookup_insert_eq. auto.
    + intros p Hp%not_elem_of_cons. apply lookup_insert_ne. intuition congruence.
    + rewrite freeze_attrs. reflexivity.
  - (* densenet *)
    destruct (Hhead "classifier") as (old & k & Hold & Hk & Hd); [set_solver|].
    destruct (in_features_at_head densenet121 _ fe _ _ _ _ ltac:(discriminate) Hold Hk)
      as (i & Hi & ->).
    rewrite Hi, new_layer_spec, Hd.
    destruct (0 <=? nc); [|reflexivity].
    eexists _, _; split; [reflexivity|]. cbn. repeat split.
    + intros p ->%list_elem_of_singleton. exists old, (Linear i nc).
      eexists. rewrite lookup_insert_eq. auto.
    + intros p Hp%not_elem_of_cons. apply lookup_insert_ne. intuition congruence.
    + apply freeze_attrs.
  - (* inception *)
    destruct (Hhead "AuxLogits.fc") as (old1 & k1 & Hold1 & Hk1 & Hd1); [set_solver|].
    destruct (Hhead "fc") as (old2 & k2 & Hold2 & Hk2 & Hd2); [set_solver|].
    destruct (in_features_at_head inception_v3 _ fe _ _ _ _ ltac:(discriminate) Hold1 Hk1)
      as (i1 & Hi1 & ->).
    destruct (in_features_at_head inception_v3 _ fe _ _ _ _ ltac:(discriminate) Hold2 Hk2)
      as (i2 & Hi2 & ->).
    rewrite Hi1, new_layer_spec, Hd1.
    destruct (0 <=? nc); [|reflexivity].
    assert (Hfc : forall l, in_features_at "fc"
              (set_module "AuxLogits.fc" l
                 (set_parameter_requires_grad (fetched inception_v3 up g) fe))
            = Return i2).
    { intros l. rewrite <- Hi2. unfold in_features_at, set_module. cbn.
      rewrite lookup_insert_ne by discriminate. reflexivity. }
    rewrite Hfc, new_layer_spec, Hd2.
    eexists _, _; split; [reflexivity|]. cbn. repeat split.
    + intros p [-> | ->%list_elem_of_singleton]%elem_of_cons.
      * exists old1, (Linear i1 nc). eexists.
        rewrite lookup_insert_ne by discriminate. rewrite lookup_insert_eq. auto.
      * exists old2, (Linear i2 nc). eexists. rewrite lookup_insert_eq. auto.
    + intros p (Hp1 & Hp2%not_elem_of_cons)%not_elem_of_cons.
      rewrite !lookup_insert_ne by intuition congruence. reflexivity.
    + apply freeze_attrs.
Qed.

Lemma trainable_requires_grad (k : layer_kind) (vals : list tensor) :
  all_requires_grad true (trainable k vals).
Proof.
  unfold all_requires_grad, trainable. cbn.
  apply Forall_fmap, Forall_forall. reflexivity.
Qed.

Lemma freeze_layer_requires_grad (l : layer tensor) :
  all_requires_grad false (freeze_layer l).
Proof.
  unfold all_requires_grad, freeze_layer. cbn.
  apply Forall_fmap, Forall_forall. reflexivity.
Qed.

Lemma freeze_layer_frozen_copy (l : layer tensor) : frozen_copy l (freeze_layer l).
Proof.
  split; [reflexivity|]. split; [|apply freeze_layer_requires_grad].
  unfold freeze_layer. cbn. rewrite <- list_fmap_compose.
  apply list_fmap_ext. intros i q _. reflexivity.
Qed.

Lemma freeze_frozen_copy (m : nn_Module tensor) (p : string) :
  option_Forall2 frozen_copy
    (modules m !! p) (modules (set_parameter_requires_grad m true) !! p).
Proof.
  rewrite freeze_lookup. destruct (modules m !! p) as [l|]; cbn; constructor.
  apply freeze_layer_frozen_copy.
Qed.

Lemma head_kind_out_dim (a : arch) (nc : Z) (old k : layer_kind) :
  head_kind a nc old = Some k -> out_dim k = Some nc.
Proof.
  destruct a, old; simpl; intros [= <-]; reflexivity.
Qed.

Lemma initialize_model_invalid (model_name : string) (nc : Z) (fe up : bool)
    (g : generator) :
  model_name ∉ model_names ->
  initialize_model model_name nc fe up g
  = ([invalid_model_name], Raise SystemExit, g).
Proof.
  unfold model_names. rewrite !not_elem_of_cons. intros (? & ? & ? & ? & ? & ? & _).
  unfold initialize_model.
  repeat match goal with
         | H : model_name <> ?s |- context [String.eqb model_name ?s] =>
             destruct (String.eqb_spec model_name s); [contradiction|]
         end.
  reflexivity.
Qed.

(** A call for a recognised name prints nothing. *)
Lemma initialize_model_silent (a : arch) (nc : Z) (fe up : bool) (g : generator) :
  fst (fst (initialize_model (name_of a) nc fe up g)) = [].
Proof.
  destruct a; cbn [name_of]; unfold initialize_model;
    cbn [String.eqb Ascii.eqb Bool.eqb]; unfold silent;
    match goal with |- context [let '(_, _) := ?c in _] => destruct c end;
    reflexivity.
Qed.

(** The steps of a branch raise [AttributeError] or [RuntimeError] only. *)
Lemma in_features_at_raises (p : string) (m : nn_Module tensor) (e : exn) :
  in_features_at p m = Raise e -> e = AttributeError.
Proof.
  unfold in_features_at. destruct (modules m !! p) as [l|]; [|congruence].
  destruct (kind l); congruence.
Qed.

Lemma set_item_raises (p : string) (l : layer tensor) (m : nn_Module tensor)
    (e : exn) :
  set_item p l m = Raise e -> e = AttributeError.
Proof. unfold set_item. destruct (modules m !! p); congruence. Qed.

Lemma new_layer_raises (k : layer_kind) (g g' : generator) (e : exn) :
  new_layer k g = (Raise e, g') -> e = RuntimeError.
Proof. rewrite new_layer_spec. destruct (dims_ok k); congruence. Qed.

Lemma new_layer_returns (k : layer_kind) (g g' : generator) (l : layer tensor) :
  new_layer k g = (Return l, g') ->
  dims_ok k = true /\ l = trainable k (fst (init_params k g)).
Proof. rewrite new_layer_spec. destruct (dims_ok k); [|discriminate]. intros [= <- _]. auto. Qed.

(** A call for a recognised name never takes the exit path. *)
Lemma initialize_model_no_exit (a : arch) (nc : Z) (fe up : bool) (g : generator)
    (e : exn) :
  snd (fst (initialize_model (name_of a) nc fe up g)) = Raise e ->
  e = AttributeError \/ e = RuntimeError.
Proof.
  destruct a; cbn [name_of]; unfold initialize_model;
    cbn [String.eqb Ascii.eqb Bool.eqb];
    unfold silent, ibind, ilift, iret, nn_Linear, nn_Conv2d;
    rewrite fetch_spec;
    repeat match goal with
           | |- context [in_features_at ?p ?m] =>
               let H := fresh "Hi" in
               destruct (in_features_at p m) as [?|?] eqn:H;
               [|apply in_features_at_raises in H; cbn; intros [= <-]; auto]
           | |- context [new_layer ?k ?g0] =>
               let H := fresh "Hn" in
               destruct (new_layer k g0) as [[?|?] ?] eqn:H;
               [|apply new_layer_raises in H; cbn; intros [= <-]; auto]
           | |- context [set_item ?p ?l ?m] =>
               let H := fresh "Hs" in
               destruct (set_item p l m) as [?|?] eqn:H;
               [|apply set_item_raises in H; cbn; intros [= <-]; auto]
           end;
    cbn; discriminate.
Qed.

#[local] Ltac finish_dims :=
  cbn in *; rewrite ?andb_true_iff, ?Z.leb_le in *; intuition lia.

(** A call for a recognised name that returns found the heads it reads
    and was given a [num_classes] that is not negative. *)
Lemma initialize_model_returns_head_ok (a : arch) (nc : Z) (fe up : bool)
    (g : generator) (r : nn_Module tensor * Z) :
  snd (fst (initialize_model (name_of a) nc fe up g)) = Return r ->
  head_ok a (fetched a up g) = true /\ 0 <= nc.
Proof.
  destruct a; cbn [name_of]; unfold initialize_model;
    cbn [String.eqb Ascii.eqb Bool.eqb];
    unfold silent, ibind, ilift, iret, nn_Linear, nn_Conv2d;
    rewrite fetch_spec; unfold head_ok; cbn [head_paths forallb];
    rewrite ?in_features_at_freeze.
  - unfold in_features_at.
    destruct (modules (fetched resnet18 up g) !! "fc") as [old|]; [|discriminate].
    destruct (kind old); try discriminate.
    rewrite new_layer_spec. cbn [head_kind].
    destruct (dims_ok (Linear _ nc)) eqn:Hd; [|discriminate]. intros _.
    finish_dims.
  - unfold in_features_at.
    destruct (modules (fetched alexnet up g) !! "classifier.6") as [old|];
      [|discriminate].
    destruct (kind old); try discriminate.
    rewrite new_layer_spec. cbn [head_kind].
    destruct (dims_ok (Linear _ nc)) eqn:Hd; [|discriminate]. intros _.
    finish_dims.
  - unfold in_features_at.
    destruct (modules (fetched vgg11_bn up g) !! "classifier.6") as [old|];
      [|discriminate].
    destruct (kind old); try discriminate.
    rewrite new_layer_spec. cbn [head_kind].
    destruct (dims_ok (Linear _ nc)) eqn:Hd; [|discriminate]. intros _.
    finish_dims.
  - rewrite new_layer_spec.
    destruct (dims_ok (Conv2d 512 nc (1, 1) (1, 1))) eqn:Hd; [|discriminate].
    unfold set_item. rewrite freeze_lookup.
    destruct (modules (fetched squeezenet1_0 up g) !! "classifier.1") as [old|];
      [|discriminate].
    intros _. finish_dims.
  - unfold in_features_at.
    destruct (modules (fetched densenet121 up g) !! "classifier") as [old|];
      [|discriminate].
    destruct (kind old); try discriminate.
    rewrite new_layer_spec. cbn [head_kind].
    destruct (dims_ok (Linear _ nc)) eqn:Hd; [|discriminate]. intros _.
    finish_dims.
  - destruct (in_features_at "AuxLogits.fc" (fetched inception_v3 up g))
      as [i1 | e1] eqn:H1; [|discriminate].
    rewrite new_layer_spec.
    destruct (dims_ok (Linear i1 nc)) eqn:Hd1; [|discriminate].
    unfold in_features_at at 1. unfold set_module at 1. cbn [modules].
    rewrite lookup_insert_ne by discriminate. rewrite freeze_lookup.
    unfold in_features_at in H1.
    destruct (modules (fetched inception_v3 up g) !! "AuxLogits.fc") as [old1|];
      [|discriminate].
    destruct (modules (fetched inception_v3 up g) !! "fc") as [old2|];
      [|discriminate].
    assert (Hk : kind ((if fe then freeze_layer else id) old2) = kind old2)
      by (destruct fe; reflexivity).
    cbn [fmap option_fmap option_map]. rewrite Hk.
    destruct (kind old1); try discriminate. injection H1 as ->.
    destruct (kind old2) as [in_features ?| |]; try discriminate.
    rewrite new_layer_spec.
    destruct (dims_ok (Linear in_features nc)) eqn:Hd2; [|discriminate]. intros _.
    finish_dims.
Qed.

(** C10: [set_parameter_requires_grad] with [feature_extracting] false
    returns the model as it was; with either value the attributes, the
    layers' kinds and the parameters' values stay, and a parameter's
    [requires_grad] is true afterwards only if it was true before. *)
Theorem set_parameter_requires_grad_frame (m : nn_Module tensor) :
  set_parameter_requires_grad m false = m
  /\ forall (fe : bool) (p : string),
       attrs (set_parameter_requires_grad m fe) = attrs m
       /\ option_Forall2
            (fun l l' =>
               kind l' = kind l
               /\ Forall2 (fun q q' =>
                             data q' = data q
                             /\ (requires_grad q' = true -> requires_grad q = true))
                          (params l) (params l'))
            (modules m !! p)
            (modules (set_parameter_requires_grad m fe) !! p).
Proof.
  split; [reflexivity|]. intros fe p. split; [apply freeze_attrs|].
  rewrite freeze_lookup.
  destruct (modules m !! p) as [l|]; cbn; constructor.
  destruct fe; cbn.
  - split; [reflexivity|].
    apply Forall2_fmap_r, Forall_Forall2_diag, Forall_forall.
    intros q _. cbn. split; [reflexivity | discriminate].
  - split; [reflexivity|].
    apply Forall_Forall2_diag, Forall_forall. auto.
Qed.

(** C2, amended: [initialize_model] takes its exit path on exactly the
    names outside the six it recognises.  For such a name it prints the
    error line and raises [SystemExit], returning no model and leaving the
    generator alone; for each of the six it prints nothing and never
    raises [SystemExit]; and when [num_classes] is not negative the exit
    check is as stated: the six names return a model and an input size. *)
Theorem initialize_model_exit (Hzoo : zoo_ok) (model_name : string) (nc : Z)
    (fe up : bool) (g : generator) :
  (model_name ∉ model_names ->
   initialize_model model_name nc fe up g
   = ([invalid_model_name], Raise SystemExit, g))
  /\ (model_name ∈ model_names ->
      fst (fst (initialize_model model_name nc fe up g)) = []
      /\ snd (fst (initialize_model model_name nc fe up g)) <> Raise SystemExit)
  /\ (0 <= nc -> exits_on_unknown model_name nc fe up g).
Proof.
  split; [apply initialize_model_invalid|]. split.
  - intros Hin.
    destruct (backbone_of model_name) as [a|] eqn:Ha;
      [|apply backbone_of_names in Ha; contradiction].
    apply backbone_of_Some in Ha as ->.
    split; [apply initialize_model_silent|].
    intros He. apply initialize_model_no_exit in He. destruct He; discriminate.
  - intros Hnc. split.
    + intros Hout. rewrite initialize_model_invalid by exact Hout. reflexivity.
    + intros Hin.
      destruct (backbone_of model_name) as [a|] eqn:Ha;
        [|apply backbone_of_names in Ha; contradiction].
      apply backbone_of_Some in Ha as ->.
      pose proof (initialize_model_returns a nc fe up g (Hzoo a up g)) as Hret.
      destruct (Z.leb_spec 0 nc); [|lia].
      destruct Hret as (m & g' & -> & _). eauto.
Qed.

(** C3, amended: for a recognised name and a [num_classes] that is not
    negative, [initialize_model] returns the backbone of that name with,
    at each head path, a newly initialised layer of [num_classes] outputs
    (linear with the old head's input width; for SqueezeNet the 1x1
    convolution over 512 channels, and the attribute [num_classes] set),
    every other layer being the backbone's, and the input size of the
    backbone. *)
Theorem initialize_model_replaces_head (Hzoo : zoo_ok) (model_name : string)
    (a : arch) (nc : Z) (fe up : bool) (g : generator) :
  backbone_of model_name = Some a ->
  0 <= nc ->
  replaces_head model_name a nc fe up g.
Proof.
  intros ->%backbone_of_Some Hnc. unfold replaces_head.
  pose proof (initialize_model_returns a nc fe up g (Hzoo a up g)) as Hret.
  destruct (Z.leb_spec 0 nc); [|lia].
  destruct Hret as (m & g' & Hm & Hheads & Hrest & Hattrs).
  exists m, g'. split; [exact Hm|]. split; [|split; [exact Hrest|]].
  - intros p Hp. destruct (Hheads p Hp) as (old & k & g0 & Hold & Hk & Hnew).
    exists old, k, g0. eauto using head_kind_out_dim.
  - intros x. rewrite Hattrs. case_bool_decide as Hx.
    + destruct Hx as [-> ->]. apply lookup_insert_eq.
    + destruct a; try reflexivity.
      apply lookup_insert_ne. intros <-. apply Hx. auto.
Qed.

(** C5: the freeze turns every layer of the backbone into its frozen copy,
    the same parameter values with [requires_grad] false on each, and
    keeps the attributes.  When the call with [feature_extract] true
    returns, the layers at the head paths are new ones, every other layer
    is the frozen copy of the backbone's, and [requires_grad] is true on
    exactly the parameters of the layers at the head paths; when the call
    with [feature_extract] false returns, every layer away from the head
    paths is the backbone's own, flags included.  Both calls return when
    the backbone has its heads and [num_classes] is not negative. *)
Theorem initialize_model_freezes (model_name : string) (a : arch) (nc : Z)
    (up : bool) (g : generator) :
  backbone_of model_name = Some a ->
  freezes_backbone model_name a nc up g.
Proof.
  intros ->%backbone_of_Some. unfold freezes_backbone. cbn zeta.
  assert (Hcall : forall fe t m input_size g',
            initialize_model (name_of a) nc fe up g = (t, Return (m, input_size), g') ->
            (forall p, p ∈ head_paths a ->
               exists k g0, modules m !! p = Some (trainable k (fst (init_params k g0))))
            /\ (forall p, p ∉ head_paths a ->
                  modules m !! p
                  = modules (set_parameter_requires_grad (fetched a up g) fe) !! p)).
  { intros fe t m input_size g' Hrun.
    destruct (initialize_model_returns_head_ok a nc fe up g (m, input_size))
      as (Hok & Hnc); [rewrite Hrun; reflexivity|].
    pose proof (initialize_model_returns a nc fe up g Hok) as Hret.
    destruct (Z.leb_spec 0 nc); [|lia].
    destruct Hret as (m' & g'' & Hm & Hheads & Hrest & _).
    rewrite Hrun in Hm. injection Hm as _ <- _ _. split; [|exact Hrest].
    intros p Hp. destruct (Hheads p Hp) as (old & k & g0 & _ & _ & Hnew). eauto. }
  split; [split; [apply freeze_attrs | apply freeze_frozen_copy]|].
  split; [|split].
  - intros t m input_size g' Hrun.
    destruct (Hcall true t m input_size g' Hrun) as (Hheads & Hrest).
    split; [exact Hheads|]. split.
    + intros p Hp. rewrite (Hrest p Hp). apply freeze_frozen_copy.
    + intros p l q Hl Hq.
      destruct (decide (p ∈ head_paths a)) as [Hp | Hp].
      * destruct (Hheads p Hp) as (k & g0 & Hnew).
        rewrite Hnew in Hl. injection Hl as <-.
        pose proof (trainable_requires_grad k (fst (init_params k g0))) as Hall.
        unfold all_requires_grad in Hall. rewrite Forall_forall in Hall.
        split; [intros _; exact Hp | intros _; apply Hall, Hq].
      * rewrite (Hrest p Hp), freeze_lookup in Hl.
        destruct (modules (fetched a up g) !! p) as [l0|]; [|discriminate].
        injection Hl as <-.
        pose proof (freeze_layer_requires_grad l0) as Hall.
        unfold all_requires_grad in Hall. rewrite Forall_forall in Hall.
        rewrite (Hall q Hq). split; [discriminate | contradiction].
  - intros t m input_size g' Hrun.
    destruct (Hcall false t m input_size g' Hrun) as (_ & Hrest). exact Hrest.
  - intros Hok Hnc fe.
    pose proof (initialize_model_returns a nc fe up g Hok) as Hret.
    destruct (Z.leb_spec 0 nc); [|lia].
    destruct Hret as (m & g' & Hm & _). eauto.
Qed.

(** C7: [use_pretrained] changes the backbone fetched and nothing else: an
    unrecognised name exits the same way for both values; for a recognised
    name and a negative [num_classes] both calls raise [RuntimeError] from
    the layer constructor; otherwise both calls return the same input
    size, replace the layers at the same head paths by new layers of
    [num_classes] outputs, of equal shape whenever the two backbones' old
    heads have the same shape, keep every other layer of their own
    backbone, and treat the attributes alike. *)
Theorem initialize_model_use_pretrained (Hzoo : zoo_ok) (model_name : string)
    (nc : Z) (fe : bool) (g1 g2 : generator) :
  same_but_backbone model_name nc fe g1 g2.
Proof.
  unfold same_but_backbone. split.
  - intros Hn. rewrite !initialize_model_invalid by exact Hn. split; reflexivity.
  - intros a ->%backbone_of_Some.
    pose proof (initialize_model_returns a nc fe true g1 (Hzoo a true g1)) as Hret1.
    pose proof (initialize_model_returns a nc fe false g2 (Hzoo a false g2)) as Hret2.
    destruct (Z.leb_spec 0 nc) as [Hnc | Hnc];
      (split; [intros Hneg | intros Hpos]); try lia; [|auto].
    destruct Hret1 as (m1 & g1' & Hm1 & Hheads1 & Hrest1 & Hattrs1).
    destruct Hret2 as (m2 & g2' & Hm2 & Hheads2 & Hrest2 & Hattrs2).
    exists m1, m2. rewrite Hm1, Hm2. split; [reflexivity|]. split; [reflexivity|].
    split; [|split].
    + intros p Hp.
      destruct (Hheads1 p Hp) as (old1 & k1 & ga & Hold1 & Hk1 & Hnew1).
      destruct (Hheads2 p Hp) as (old2 & k2 & gb & Hold2 & Hk2 & Hnew2).
      exists k1, k2. eexists _, _. split; [exact Hnew1|]. split; [exact Hnew2|].
      split; [eauto using head_kind_out_dim|].
      split; [eauto using head_kind_out_dim|].
      rewrite Hold1, Hold2. cbn. intros [= Hkind].
      rewrite Hkind in Hk1. congruence.
    + intros p Hp. split; [apply Hrest1, Hp | apply Hrest2, Hp].
    + intros x. rewrite Hattrs1, Hattrs2.
      case_bool_decide as Hx.
      * destruct Hx as [-> ->]. rewrite !lookup_insert_eq. auto.
      * destruct a; try (split; reflexivity).
        rewrite !lookup_insert_ne; [auto | |]; intros <-; apply Hx; auto.
Qed.

(** ** Further properties of the initialisation *)

Lemma freeze_layer_twice (l : layer tensor) :
  freeze_layer (freeze_layer l) = freeze_layer l.
Proof.
  unfold freeze_layer. cbn. f_equal. rewrite <- list_fmap_compose.
  apply list_fmap_ext. intros i q _. reflexivity.
Qed.

(** X8: two calls of [set_parameter_requires_grad] in a row act as one call
    with the disjunction of their flags: a second freeze changes nothing,
    and a call with [False] after a freeze does not unfreeze anything. *)
Theorem set_parameter_requires_grad_twice (m : nn_Module tensor) (a b : bool) :
  set_parameter_requires_grad (set_parameter_requires_grad m a) b
  = set_parameter_requires_grad m (a || b).
Proof.
  destruct a, b; try reflexivity.
  unfold set_parameter_requires_grad. cbn. f_equal.
  rewrite <- map_fmap_compose. apply map_fmap_ext.
  intros p l _. apply freeze_layer_twice.
Qed.

(** X9: for a recognised name [initialize_model] prints nothing, and it
    returns a model, with the input size of the backbone, exactly when the
    backbone fetched has a layer at each head path, linear wherever its
    [in_features] is read, and [num_classes] is not negative; otherwise it
    raises, [AttributeError] or the [RuntimeError] of the layer
    constructor, and returns nothing. *)
Theorem initialize_model_returns_iff (model_name : string) (a : arch) (nc : Z)
    (fe up : bool) (g : generator) :
  backbone_of model_name = Some a ->
  fst (fst (initialize_model model_name nc fe up g)) = []
  /\ ((exists m, snd (fst (initialize_model model_name nc fe up g))
                 = Return (m, input_size_of a))
      <-> head_ok a (fetched a up g) = true /\ 0 <= nc)
  /\ (forall e, snd (fst (initialize_model model_name nc fe up g)) = Raise e ->
                e = AttributeError \/ e = RuntimeError).
Proof.
  intros ->%backbone_of_Some.
  split; [apply initialize_model_silent|]. split; [split|].
  - intros [m Hm]. eapply initialize_model_returns_head_ok, Hm.
  - intros [Hok Hnc].
    pose proof (initialize_model_returns a nc fe up g Hok) as Hret.
    destruct (Z.leb_spec 0 nc); [|lia].
    destruct Hret as (m & g' & -> & _). eauto.
  - intros e. apply initialize_model_no_exit.
Qed.

(** X10: a call of [initialize_model] that returns a model for a
    recognised name adds no submodule to the backbone and removes none: the
    model has a layer at exactly the paths of the backbone fetched. *)
Theorem initialize_model_keeps_paths (model_name : string) (a : arch) (nc : Z)
    (fe up : bool) (g g' : generator) (t : list string) (m : nn_Module tensor)
    (input_size : Z) :
  backbone_of model_name = Some a ->
  initialize_model model_name nc fe up g = (t, Return (m, input_size), g') ->
  dom (modules m) = dom (modules (fetched a up g)).
Proof.
  intros ->%backbone_of_Some Hrun.
  destruct (initialize_model_returns_head_ok a nc fe up g (m, input_size))
    as (Hok & Hnc); [rewrite Hrun; reflexivity|].
  pose proof (initialize_model_returns a nc fe up g Hok) as Hret.
  destruct (Z.leb_spec 0 nc); [|lia].
  destruct Hret as (m' & g'' & Hm & Hheads & Hrest & _).
  rewrite Hrun in Hm. injection Hm as _ <- _ _.
  apply set_eq. intros p. rewrite !elem_of_dom.
  destruct (decide (p ∈ head_paths a)) as [Hp | Hp].
  - destruct (Hheads p Hp) as (old & k & g0 & -> & _ & ->). split; eauto.
  - rewrite (Hrest p Hp), freeze_lookup.
    destruct (modules (fetched a up g) !! p); cbn; split; intros [x Hx]; eauto;
      discriminate.
Qed.

(** X11: [feature_extract] decides the [requires_grad] flags of the layers
    away from the head and nothing else.  For a recognised name and one
    state of the random generator, the call with [True] returns exactly
    when the call with [False] does and raises the same exception when it
    raises, both leave the generator in the same state, and when they
    return they give the same input size, the same attributes and the same
    new layers at the head paths, and every other layer of the first is
    the frozen copy of the layer the second has there. *)
Theorem initialize_model_feature_extract (model_name : string) (a : arch)
    (nc : Z) (up : bool) (g : generator) :
  backbone_of model_name = Some a ->
  snd (initialize_model model_name nc true up g)
  = snd (initialize_model model_name nc false up g)
  /\ match snd (fst (initialize_model model_name nc true up g)),
           snd (fst (initialize_model model_name nc false up g)) with
     | Return (m1, size1), Return (m2, size2) =>
         size1 = size2
         /\ attrs m1 = attrs m2
         /\ (forall p, p ∈ head_paths a -> modules m1 !! p = modules m2 !! p)
         /\ (forall p, p ∉ head_paths a ->
               modules m1 !! p = freeze_layer <$> modules m2 !! p)
     | Raise e1, Raise e2 => e1 = e2
     | _, _ => False
     end.
Proof.
  intros ->%backbone_of_Some.
  destruct a; cbn [name_of head_paths]; unfold initialize_model;
    cbn [String.eqb Ascii.eqb Bool.eqb];
    unfold silent, ibind, ilift, iret, nn_Linear, nn_Conv2d;
    rewrite !fetch_spec, ?in_features_at_freeze;
    change (set_parameter_requires_grad (fetched ?b up g) false)
      with (fetched b up g).
  - destruct (in_features_at "fc" _) as [i | e]; [|cbn; auto].
    rewrite !new_layer_spec. destruct (dims_ok _); [|cbn; auto].
    cbn. repeat split.
    + intros p ->%list_elem_of_singleton. rewrite !lookup_insert_eq. reflexivity.
    + intros p Hp%not_elem_of_cons.
      rewrite !lookup_insert_ne by intuition congruence. apply lookup_fmap.
  - destruct (in_features_at "classifier.6" _) as [i | e]; [|cbn; auto].
    rewrite !new_layer_spec. destruct (dims_ok _); [|cbn; auto].
    unfold set_item. rewrite freeze_lookup.
    destruct (modules (fetched alexnet up g) !! "classifier.6"); [|cbn; auto].
    cbn. repeat split.
    + intros p ->%list_elem_of_singleton. rewrite !lookup_insert_eq. reflexivity.
    + intros p Hp%not_elem_of_cons.
      rewrite !lookup_insert_ne by intuition congruence. apply lookup_fmap.
  - destruct (in_features_at "classifier.6" _) as [i | e]; [|cbn; auto].
    rewrite !new_layer_spec. destruct (dims_ok _); [|cbn; auto].
    unfold set_item. rewrite freeze_lookup.
    destruct (modules (fetched vgg11_bn up g) !! "classifier.6"); [|cbn; auto].
    cbn. repeat split.
    + intros p ->%list_elem_of_singleton. rewrite !lookup_insert_eq. reflexivity.
    + intros p Hp%not_elem_of_cons.
      rewrite !lookup_insert_ne by intuition congruence. apply lookup_fmap.
  - rewrite !new_layer_spec. destruct (dims_ok _); [|cbn; auto].
    unfold set_item. rewrite freeze_lookup.
    destruct (modules (fetched squeezenet1_0 up g) !! "classifier.1"); [|cbn; auto].
    cbn. repeat split.
    + intros p ->%list_elem_of_singleton. rewrite !lookup_insert_eq. reflexivity.
    + intros p Hp%not_elem_of_cons.
      rewrite !lookup_insert_ne by intuition congruence. apply lookup_fmap.
  - destruct (in_features_at "classifier" _) as [i | e]; [|cbn; auto].
    rewrite !new_layer_spec. destruct (dims_ok _); [|cbn; auto].
    cbn. repeat split.
    + intros p ->%list_elem_of_singleton. rewrite !lookup_insert_eq. reflexivity.
    + intros p Hp%not_elem_of_cons.
      rewrite !lookup_insert_ne by intuition congruence. apply lookup_fmap.
  - destruct (in_features_at "AuxLogits.fc" _) as [i1 | e]; [|cbn; auto].
    rewrite !new_layer_spec. destruct (dims_ok (Linear i1 nc)); [|cbn; auto].
    unfold in_features_at, set_module. cbn [modules].
    rewrite !lookup_insert_ne by discriminate. rewrite freeze_lookup.
    destruct (modules (fetched inception_v3 up g) !! "fc") as [old2|]; [|cbn; auto].
    cbn [fmap option_fmap option_map freeze_layer kind].
    destruct (kind old2) as [i2 ?| |]; [|cbn; auto..].
    rewrite !new_layer_spec. destruct (dims_ok (Linear i2 nc)); [|cbn; auto].
    cbn. repeat split.
    + intros p [-> | ->%list_elem_of_singleton]%elem_of_cons.
      * rewrite !(lookup_insert_ne _ "fc") by discriminate.
        rewrite !lookup_insert_eq. reflexivity.
      * rewrite !lookup_insert_eq. reflexivity.
    + intros p (Hp1 & Hp2%not_elem_of_cons)%not_elem_of_cons.
      rewrite !lookup_insert_ne by intuition congruence. apply lookup_fmap.
Qed.

End InitializeFacts.

(** ** train_model *)

Section TrainFacts.
Context `{T : Torch}.

Lemma wbind_return {A B : Type} (t : list event) (a : A) (k : A -> W B) :
  wbind (t, Return a) k = (t ++ fst (k a), snd (k a)).
Proof. unfold wbind. destruct (k a). reflexivity. Qed.

Lemma wbind_raise {A B : Type} (t : list event) (e : exn) (k : A -> W B) :
  wbind (t, Raise e) k = (t, Raise e).
Proof. reflexivity. Qed.

Lemma wbind_assoc {A B C : Type} (m : W A) (k : A -> W B) (h : B -> W C) :
  wbind (wbind m k) h = wbind m (fun a => wbind (k a) h).
Proof.
  destruct m as [t [a | e]]; [|reflexivity].
  cbn. destruct (k a) as [t1 [b | e]]; cbn.
  - destruct (h b) as [t2 r]. rewrite app_assoc. reflexivity.
  - reflexivity.
Qed.

Lemma for_each_app {A S : Type} (xs ys : list A) (body : A -> S -> W S) (s : S) :
  for_each (xs ++ ys) body s = wbind (for_each xs body s) (for_each ys body).
Proof.
  revert s. induction xs as [|x xs IH]; intros s; cbn.
  - destruct (for_each ys body s). reflexivity.
  - rewrite wbind_assoc.
    destruct (body x s) as [t [s1 | e]]; [|reflexivity].
    cbn. rewrite IH. reflexivity.
Qed.

Lemma for_each_snoc {A S : Type} (xs : list A) (x : A) (body : A -> S -> W S) (s : S) :
  for_each (xs ++ [x]) body s = wbind (for_each xs body s) (body x).
Proof.
  rewrite for_each_app.
  destruct (for_each xs body s) as [t [s1 | e]]; [|reflexivity].
  cbn. destruct (body x s1) as [t1 [s2 | e]]; cbn; rewrite ?app_nil_r; reflexivity.
Qed.

Lemma for_each_cons_inv {A S : Type} (x : A) (xs : list A) (body : A -> S -> W S)
    (s s' : S) (t : list event) :
  for_each (x :: xs) body s = (t, Return s') ->
  exists t1 s1 t2,
    body x s = (t1, Return s1)
    /\ for_each xs body s1 = (t2, Return s')
    /\ t = t1 ++ t2.
Proof.
  cbn [for_each]. destruct (body x s) as [t1 [s1 | e]]; [|discriminate].
  rewrite wbind_return. destruct (for_each xs body s1) as [t2 r] eqn:Hrest.
  cbn [fst snd]. intros [= <- ->]. exists t1, s1, t2. auto.
Qed.

Lemma for_each_trace {A S : Type} (P : event -> Prop) (xs : list A)
    (body : A -> S -> W S) (s : S) :
  (forall x s0, Forall P (fst (body x s0))) ->
  Forall P (fst (for_each xs body s)).
Proof.
  intros Hbody. revert s. induction xs as [|x xs IH]; intros s.
  - constructor.
  - cbn [for_each]. specialize (Hbody x s).
    destruct (body x s) as [t [s1 | e]]; [|exact Hbody].
    rewrite wbind_return. cbn [fst] in *. apply Forall_app. auto.
Qed.

Section LoopFacts.
Variable dataloaders : gmap string loader.
Variable criterion : outputs -> labels -> loss.
Variable dev : device.
Variables train_name val_name : string.
Variable is_inception : bool.

#[local] Abbreviation run_batch := (run_batch criterion dev train_name is_inception).
#[local] Abbreviation batch_loss := (batch_loss criterion is_inception).
#[local] Abbreviation run_phase := (run_phase dataloaders criterion dev train_name val_name is_inception).
#[local] Abbreviation run_epoch := (run_epoch dataloaders criterion dev train_name val_name is_inception).
#[local] Abbreviation run_epochs := (run_epochs dataloaders criterion dev train_name val_name is_inception).
#[local] Abbreviation train_model := (train_model dataloaders criterion dev train_name val_name is_inception).
#[local] Abbreviation record_accuracy := (record_accuracy val_name).
#[local] Abbreviation eval_loss := (eval_loss criterion dev).
#[local] Abbreviation eval_corrects := (eval_corrects dev).
#[local] Abbreviation loss_sum := (loss_sum criterion dev).
#[local] Abbreviation corrects_sum := (corrects_sum dev).
#[local] Abbreviation val_loss := (val_loss criterion dev).
#[local] Abbreviation val_accuracy := (val_accuracy dev).
#[local] Abbreviation best_snapshot :=
  (best_snapshot dataloaders criterion dev train_name val_name is_inception).
#[local] Abbreviation returns_best :=
  (returns_best dataloaders criterion dev train_name val_name is_inception).
#[local] Abbreviation best_invariant :=
  (best_invariant dataloaders criterion dev train_name val_name is_inception).
#[local] Abbreviation runs_all_epochs :=
  (runs_all_epochs dataloaders criterion dev train_name val_name is_inception).
#[local] Abbreviation epoch_discipline :=
  (epoch_discipline dataloaders criterion dev train_name val_name is_inception).
#[local] Abbreviation combined_loss := (combined_loss criterion).
#[local] Abbreviation final_loss := (final_loss criterion).
#[local] Abbreviation batch_adds := (batch_adds criterion dev train_name is_inception).
#[local] Abbreviation loss_rule := (loss_rule criterion dev train_name val_name is_inception).
#[local] Abbreviation initial_or_exceeded := (@initial_or_exceeded T).
#[local] Abbreviation train_batch := (train_batch criterion dev is_inception).
#[local] Abbreviation train_pass := (train_pass criterion dev is_inception).
#[local] Abbreviation train_loss := (train_loss criterion dev is_inception).
#[local] Abbreviation train_accuracy := (train_accuracy criterion dev is_inception).
#[local] Abbreviation model_entering :=
  (model_entering dataloaders criterion dev train_name val_name is_inception).
#[local] Abbreviation optimizer_entering :=
  (optimizer_entering dataloaders criterion dev train_name val_name is_inception).
#[local] Abbreviation state_after :=
  (state_after dataloaders criterion dev train_name val_name is_inception).
#[local] Abbreviation weights_after :=
  (weights_after dataloaders criterion dev train_name val_name is_inception).
#[local] Abbreviation loader_ok := (loader_ok dataloaders).
#[local] Abbreviation outputs_match := (outputs_match is_inception).

(** One batch: when the model returns what the branch of the batch takes,
    what the batch adds to the running sums and does to the state;
    otherwise the exception it raises inside the block it has entered. *)
Lemma run_batch_spec (phase : string) (b : inputs * labels) (s : state)
    (rl : float) (rc : count) :
  let is_train := String.eqb phase train_name in
  let x := inputs_to (fst b) dev in
  let y := labels_to (snd b) dev in
  let m := model s in
  let l := (if is_inception && is_train then combined_loss else final_loss) m x y in
  let w := if training m then forward_buffers (wts m) x else wts m in
  let g := zero_grad (grad m) in
  let s1 := if is_train
            then State (Net (snd (step (optimizer s) (backward l g) w))
                            (backward l g) (training m))
                       (fst (step (optimizer s) (backward l g) w))
                       (passes s) (val_acc_history s) (best_model_wts s) (best_acc s)
            else State (Net w g (training m)) (optimizer s)
                       (passes s) (val_acc_history s) (best_model_wts s) (best_acc s) in
  run_batch phase b (s, rl, rc)
  = if Bool.eqb (returns_aux (training m) (wts m) x) (is_inception && is_train)
    then ([ZeroGrad; SetGradEnabled is_train]
            ++ (if is_train then [Backward l; Step] else []),
          Return (s1,
                  (rl + loss_item l * Z2f (size0 x))%float,
                  count_add rc (count_eq (max1 (forward (training m) (wts m) x)) y)))
    else ([ZeroGrad; SetGradEnabled is_train],
          Raise (if is_inception && is_train then ValueError else pair_error)).
Proof.
  cbn zeta. unfold run_batch, batch_loss, combined_loss, final_loss.
  destruct (returns_aux _ _ _), is_inception, (String.eqb phase train_name); cbn;
    try destruct (step _ _ _) as [o w]; reflexivity.
Qed.

(** A batch that returns. *)
Lemma run_batch_inv (phase : string) (b : inputs * labels) (s : state)
    (rl : float) (rc : count) (t : list event) (r : state * float * count) :
  run_batch phase b (s, rl, rc) = (t, Return r) ->
  let is_train := String.eqb phase train_name in
  let x := inputs_to (fst b) dev in
  let y := labels_to (snd b) dev in
  let m := model s in
  let l := (if is_inception && is_train then combined_loss else final_loss) m x y in
  let w := if training m then forward_buffers (wts m) x else wts m in
  let g := zero_grad (grad m) in
  let s1 := if is_train
            then State (Net (snd (step (optimizer s) (backward l g) w))
                            (backward l g) (training m))
                       (fst (step (optimizer s) (backward l g) w))
                       (passes s) (val_acc_history s) (best_model_wts s) (best_acc s)
            else State (Net w g (training m)) (optimizer s)
                       (passes s) (val_acc_history s) (best_model_wts s) (best_acc s) in
  returns_aux (training m) (wts m) x = is_inception && is_train
  /\ t = [ZeroGrad; SetGradEnabled is_train]
         ++ (if is_train then [Backward l; Step] else [])
  /\ r = (s1,
          (rl + loss_item l * Z2f (size0 x))%float,
          count_add rc (count_eq (max1 (forward (training m) (wts m) x)) y)).
Proof.
  rewrite run_batch_spec. cbn zeta.
  destruct (Bool.eqb _ _) eqn:Hshape; [|discriminate].
  apply Bool.eqb_prop in Hshape. intros [= <- <-]. auto.
Qed.

(** The batches of a traversal print nothing. *)
Lemma batches_no_print (phase : string) (bs : list (inputs * labels))
    (acc : state * float * count) :
  Forall (fun e => is_print e = false) (fst (for_each bs (run_batch phase) acc)).
Proof.
  apply for_each_trace. intros b [[s rl] rc]. rewrite run_batch_spec. cbn zeta.
  destruct (Bool.eqb _ _), (String.eqb phase train_name); repeat constructor.
Qed.

(** The batches of a traversal that returns leave the bookkeeping alone;
    after one batch [running_corrects] is a tensor. *)
Lemma batches_inv (phase : string) (bs : list (inputs * labels)) (s s' : state)
    (rl rl' : float) (rc rc' : count) (evs : list event) :
  for_each bs (run_batch phase) (s, rl, rc) = (evs, Return (s', rl', rc')) ->
  bookkeeping s' = bookkeeping s
  /\ (bs <> [] -> is_tensor rc' = true)
  /\ Forall (fun e => is_print e = false) evs.
Proof.
  intros Heq.
  pose proof (batches_no_print phase bs (s, rl, rc)) as Hnp.
  rewrite Heq in Hnp. cbn [fst] in Hnp.
  split; [|split; [|exact Hnp]]; clear Hnp.
  - revert s rl rc evs Heq. induction bs as [|b bs IH]; intros s rl rc evs Heq.
    + cbn in Heq. injection Heq as _ <- _ _. reflexivity.
    + apply for_each_cons_inv in Heq.
      destruct Heq as (t1 & acc1 & t2 & Hb & Hrest & _).
      apply run_batch_inv in Hb. cbn zeta in Hb. destruct Hb as (_ & _ & ->).
      apply IH in Hrest. rewrite Hrest.
      destruct (String.eqb phase train_name); reflexivity.
  - intros Hne.
    assert (Hkeep : forall bs0 s0 rl0 rc0 evs0,
              for_each bs0 (run_batch phase) (s0, rl0, rc0)
              = (evs0, Return (s', rl', rc')) ->
              is_tensor rc0 = true -> is_tensor rc' = true).
    { induction bs0 as [|b0 bs0 IH]; intros s0 rl0 rc0 evs0 Heq0 Ht.
      - cbn in Heq0. injection Heq0 as _ _ _ <-. exact Ht.
      - apply for_each_cons_inv in Heq0.
        destruct Heq0 as (t1 & acc1 & t2 & Hb & Hrest & _).
        apply run_batch_inv in Hb. cbn zeta in Hb. destruct Hb as (_ & _ & ->).
        eapply IH; [exact Hrest | reflexivity]. }
    destruct bs as [|b bs]; [contradiction|].
    apply for_each_cons_inv in Heq.
    destruct Heq as (t1 & acc1 & t2 & Hb & Hrest & _).
    apply run_batch_inv in Hb. cbn zeta in Hb. destruct Hb as (_ & _ & ->).
    eapply Hkeep; [exact Hrest | reflexivity].
Qed.

(** When the model returns what the loop unpacks, and is in the mode of
    the phase, the batches of a traversal never raise. *)
Lemma batches_return (phase : string) (bs : list (inputs * labels)) (s : state)
    (rl : float) (rc : count) :
  outputs_match ->
  training (model s) = String.eqb phase train_name ->
  exists evs s' rl' rc',
    for_each bs (run_batch phase) (s, rl, rc) = (evs, Return (s', rl', rc')).
Proof.
  intros Hmatch. revert s rl rc. induction bs as [|b bs IH]; intros s rl rc Hmode.
  - eexists _, _, _, _. reflexivity.
  - cbn [for_each]. rewrite run_batch_spec. cbn zeta.
    rewrite Hmatch, Hmode, Bool.eqb_reflx.
    match goal with
    | |- context [Return (?s0, ?rl0, ?rc0)] =>
        set (s1 := s0); set (rl1 := rl0); set (rc1 := rc0)
    end.
    destruct (IH s1 rl1 rc1) as (evs & s' & rl' & rc' & Heq).
    { subst s1. destruct (String.eqb phase train_name); reflexivity. }
    rewrite wbind_return, Heq. cbn [fst snd]. eauto.
Qed.

(** Outside the training phase, with the model in evaluation mode, the
    batches leave weights and optimizer alone, emit no update, and
    accumulate the sums of [eval_loss] and [eval_corrects]. *)
Lemma batches_eval (phase : string) (bs : list (inputs * labels)) (s s' : state)
    (rl rl' : float) (rc rc' : count) (evs : list event) :
  String.eqb phase train_name = false ->
  training (model s) = false ->
  for_each bs (run_batch phase) (s, rl, rc) = (evs, Return (s', rl', rc')) ->
  quiet evs
  /\ wts (model s') = wts (model s)
  /\ optimizer s' = optimizer s
  /\ rl' = fold_left (fun r b => (r + eval_loss (wts (model s)) b)%float) bs rl
  /\ count_value rc'
     = fold_left (fun n b => n + eval_corrects (wts (model s)) b) bs
                 (count_value rc).
Proof.
  intros Hphase. revert s rl rc evs.
  induction bs as [|b bs IH]; intros s rl rc evs Hmode Heq.
  - cbn in Heq. injection Heq as <- <- <- <-. repeat split. constructor.
  - destruct s as [[w g mode] o n h bw ba]. cbn in Hmode. subst mode.
    apply for_each_cons_inv in Heq.
    destruct Heq as (t1 & acc1 & t2 & Hb & Hrest & ->).
    apply run_batch_inv in Hb. cbn zeta in Hb.
    rewrite Hphase, andb_false_r in Hb. cbn in Hb. destruct Hb as (_ & -> & ->).
    apply IH in Hrest; [|reflexivity].
    destruct Hrest as (Hq & Hw & Ho & Hrl & Hrc). cbn in Hw, Ho, Hrl, Hrc.
    split; [|split; [exact Hw|split; [exact Ho|split]]].
    + repeat constructor. exact Hq.
    + cbn [fold_left]. rewrite Hrl. reflexivity.
    + cbn [fold_left]. rewrite Hrc. reflexivity.
Qed.

(** A phase in terms of its batches. *)
Lemma run_phase_unfold (phase : string) (s : state) :
  run_phase phase s
  = let is_train := String.eqb phase train_name in
    let mode := if is_train then ModelTrain else ModelEval in
    match dataloaders !! phase with
    | None => ([mode], Raise KeyError)
    | Some ld =>
        match for_each (batches ld (passes s)) (run_batch phase)
                       (enter_phase is_train s, 0%float, PyInt 0) with
        | (evs, Return (s1, rl, rc)) =>
            if dataset_len ld <? 0 then (mode :: evs, Raise ValueError)
            else if dataset_len ld =? 0 then (mode :: evs, Raise ZeroDivisionError)
            else match rc with
                 | PyInt _ => (mode :: evs, Raise AttributeError)
                 | Tensor n =>
                     let acc := (Z2f n / Z2f (dataset_len ld))%float in
                     (mode :: evs
                        ++ [Print (MsgPhase phase (rl / Z2f (dataset_len ld))%float acc)],
                      Return (record_accuracy phase acc s1))
                 end
        | (evs, Raise e) => (mode :: evs, Raise e)
        end
    end.
Proof.
  unfold run_phase. cbn zeta.
  destruct (dataloaders !! phase) as [ld|]; [|reflexivity].
  cbn [lift wbind tell app].
  destruct (for_each _ _ _) as [evs [[[s1 rl] rc] | e]]; [|reflexivity].
  unfold py_len, py_div. destruct (dataset_len ld <? 0);
    [cbn; rewrite ?app_nil_r; reflexivity|].
  cbn [lift wbind app]. destruct (dataset_len ld =? 0);
    [cbn; rewrite ?app_nil_r; reflexivity|].
  destruct rc as [n | n]; cbn; rewrite ?app_nil_r; reflexivity.
Qed.

(** A phase that returns had a loader with a non-empty dataset and at
    least one batch; it logs its mode, the events of its batches and its
    report, and records the accuracy it reports. *)
Lemma run_phase_inv (phase : string) (s s' : state) (t : list event) :
  run_phase phase s = (t, Return s') ->
  let is_train := String.eqb phase train_name in
  exists ld evs s1 rl n,
    dataloaders !! phase = Some ld
    /\ 0 < dataset_len ld
    /\ batches ld (passes s) <> []
    /\ for_each (batches ld (passes s)) (run_batch phase)
                (enter_phase is_train s, 0%float, PyInt 0)
       = (evs, Return (s1, rl, Tensor n))
    /\ t = (if is_train then ModelTrain else ModelEval) :: evs
           ++ [Print (MsgPhase phase (rl / Z2f (dataset_len ld))%float
                               (Z2f n / Z2f (dataset_len ld))%float)]
    /\ s' = record_accuracy phase (Z2f n / Z2f (dataset_len ld))%float s1.
Proof.
  rewrite run_phase_unfold. cbn zeta.
  destruct (dataloaders !! phase) as [ld|]; [|discriminate].
  destruct (for_each _ _ _) as [evs [[[s1 rl] rc] | e]] eqn:Hloop; [|discriminate].
  destruct (Z.ltb_spec (dataset_len ld) 0) as [|Hneg]; [discriminate|].
  destruct (Z.eqb_spec (dataset_len ld) 0) as [|Hlen]; [discriminate|].
  destruct rc as [n | n]; [discriminate|].
  intros [= <- <-]. exists ld, evs, s1, rl, n.
  repeat split; try assumption; [lia|].
  intros Hnil. rewrite Hnil in Hloop. discriminate.
Qed.

(** A phase with data returns, the model returning what the loop
    unpacks. *)
Lemma run_phase_returns (phase : string) (s : state) :
  outputs_match ->
  loader_ok phase -> exists t s', run_phase phase s = (t, Return s').
Proof.
  intros Hmatch (ld & Hld & Hlen & Hbs).
  rewrite run_phase_unfold. cbn zeta. rewrite Hld.
  destruct (batches_return phase (batches ld (passes s))
              (enter_phase (String.eqb phase train_name) s) 0%float (PyInt 0)
              Hmatch eq_refl)
    as (evs & s1 & rl & rc & Hloop).
  rewrite Hloop. apply batches_inv in Hloop. destruct Hloop as (_ & Htensor & _).
  destruct (Z.ltb_spec (dataset_len ld) 0) as [|_]; [lia|].
  destruct (Z.eqb_spec (dataset_len ld) 0) as [|_]; [lia|].
  specialize (Htensor (Hbs _)). destruct rc as [n | n]; [discriminate|].
  eauto.
Qed.

(** Recording touches the history and the best pair only. *)
Lemma record_accuracy_frame (phase : string) (acc : float) (s : state) :
  model (record_accuracy phase acc s) = model s
  /\ optimizer (record_accuracy phase acc s) = optimizer s
  /\ passes (record_accuracy phase acc s) = passes s.
Proof.
  unfold record_accuracy.
  destruct (String.eqb phase val_name), (fgt acc (best_acc s)); repeat split.
Qed.

Lemma record_accuracy_other (phase : string) (acc : float) (s : state) :
  String.eqb phase val_name = false -> record_accuracy phase acc s = s.
Proof. unfold record_accuracy. intros ->. reflexivity. Qed.

Lemma record_accuracy_val (acc : float) (s : state) :
  val_acc_history (record_accuracy val_name acc s) = val_acc_history s ++ [acc]
  /\ (best_model_wts (record_accuracy val_name acc s),
      best_acc (record_accuracy val_name acc s))
     = (if fgt acc (best_acc s)
        then (wts (model s), acc)
        else (best_model_wts s, best_acc s)).
Proof.
  unfold record_accuracy. rewrite String.eqb_refl.
  destruct (fgt acc (best_acc s)); split; reflexivity.
Qed.

(** Outside the training phase the events of the batches are those of
    [eval_batches]: one clearing of the gradients and one block without
    gradient tracking for each batch the traversal gets to, which is every
    batch when it returns. *)
Lemma batches_eval_events (phase : string) (bs : list (inputs * labels))
    (acc : state * float * count) :
  String.eqb phase train_name = false ->
  exists n,
    fst (for_each bs (run_batch phase) acc) = eval_batches n
    /\ forall acc', snd (for_each bs (run_batch phase) acc) = Return acc' ->
                    n = length bs.
Proof.
  intros Hphase. revert acc. induction bs as [|b bs IH]; intros [[s rl] rc].
  - exists 0%nat. split; reflexivity.
  - cbn [for_each]. rewrite run_batch_spec. cbn zeta. rewrite Hphase.
    destruct (Bool.eqb _ _).
    + rewrite wbind_return.
      match goal with
      | |- context [for_each bs _ ?a] => destruct (IH a) as (n & Hev & Hlen)
      end.
      exists (S n). cbn [fst snd]. rewrite Hev. split; [reflexivity|].
      intros acc' Hret. cbn [length]. f_equal. eapply Hlen, Hret.
    + exists 1%nat. split; [reflexivity | discriminate].
Qed.

Lemma eval_batches_quiet (n : nat) : quiet (eval_batches n).
Proof.
  induction n as [|n IH]; [constructor|].
  change (eval_batches (S n)) with (ZeroGrad :: SetGradEnabled false :: eval_batches n).
  repeat constructor. exact IH.
Qed.

(** The trace of a phase other than the training phase: the switch to
    evaluation mode, the events of its batches, none of them an update, and
    at most its report. *)
Lemma run_phase_eval_trace (phase : string) (s : state) :
  String.eqb phase train_name = false ->
  head (fst (run_phase phase s)) = Some ModelEval
  /\ quiet (fst (run_phase phase s))
  /\ exists n rest,
       fst (run_phase phase s) = ModelEval :: eval_batches n ++ rest
       /\ Forall (fun e => is_print e = true) rest
       /\ forall ld s',
            dataloaders !! phase = Some ld ->
            snd (run_phase phase s) = Return s' ->
            n = length (batches ld (passes s)) /\ (0 < n)%nat.
Proof.
  intros Hphase.
  enough (Hshape : exists n rest,
            fst (run_phase phase s) = ModelEval :: eval_batches n ++ rest
            /\ Forall (fun e => is_print e = true) rest
            /\ forall ld s',
                 dataloaders !! phase = Some ld ->
                 snd (run_phase phase s) = Return s' ->
                 n = length (batches ld (passes s)) /\ (0 < n)%nat).
  { destruct Hshape as (n & rest & Ht & Hrest & Hlen).
    split; [rewrite Ht; reflexivity|]. split; [|eauto].
    rewrite Ht. constructor; [reflexivity|]. apply Forall_app.
    split; [apply eval_batches_quiet|].
    eapply Forall_impl; [exact Hrest|]. intros [] He; try discriminate; reflexivity. }
  rewrite run_phase_unfold. cbn zeta. rewrite Hphase.
  destruct (dataloaders !! phase) as [ld|];
    [|exists 0%nat, []; split; [reflexivity|]; split; [constructor | discriminate]].
  destruct (batches_eval_events phase (batches ld (passes s))
              (enter_phase false s, 0%float, PyInt 0) Hphase) as (n & Hev & Hlen).
  destruct (for_each _ _ _) as [evs [[[s1 rl] rc] | e]] eqn:Hloop;
    cbn [fst snd] in Hev, Hlen; subst evs.
  - destruct (dataset_len ld <? 0);
      [exists n, []; rewrite app_nil_r; split; [reflexivity|];
       split; [constructor | discriminate]|].
    destruct (dataset_len ld =? 0);
      [exists n, []; rewrite app_nil_r; split; [reflexivity|];
       split; [constructor | discriminate]|].
    destruct rc as [c | c];
      [exists n, []; rewrite app_nil_r; split; [reflexivity|];
       split; [constructor | discriminate]|].
    eexists n, [_]. split; [reflexivity|]. split; [repeat constructor|].
    intros ld' s' [= <-] _. rewrite (Hlen _ eq_refl). split; [reflexivity|].
    destruct (batches ld (passes s)); [discriminate | cbn; lia].
  - exists n, []. rewrite app_nil_r. split; [reflexivity|].
    split; [constructor | discriminate].
Qed.

(** What such a phase returns: the state it entered with, in evaluation
    mode, one traversal later, with the gradients it cleared and the
    accuracy of its weights recorded; and it reports loss and accuracy of
    those weights. *)
Lemma run_phase_eval_inv (phase : string) (s s' : state) (t : list event) :
  String.eqb phase train_name = false ->
  run_phase phase s = (t, Return s') ->
  exists ld g,
    dataloaders !! phase = Some ld
    /\ In (Print (MsgPhase phase (val_loss (wts (model s)) ld (passes s))
                          (val_accuracy (wts (model s)) ld (passes s)))) t
    /\ s' = record_accuracy phase (val_accuracy (wts (model s)) ld (passes s))
              (State (Net (wts (model s)) g false) (optimizer s) (S (passes s))
                     (val_acc_history s) (best_model_wts s) (best_acc s)).
Proof.
  intros Hphase Hrun. apply run_phase_inv in Hrun. cbn zeta in Hrun.
  rewrite Hphase in Hrun.
  destruct Hrun as (ld & evs & s1 & rl & n & Hld & Hlen & Hbs & Hloop & -> & ->).
  destruct (batches_inv _ _ _ _ _ _ _ _ _ Hloop) as (Hbk & _ & _).
  apply batches_eval in Hloop; [|exact Hphase|reflexivity].
  destruct Hloop as (_ & Hw & Ho & -> & Hn). cbn in Hw, Ho, Hn.
  exists ld, (grad (model s1)). split; [exact Hld|].
  unfold val_loss, val_accuracy, loss_sum, corrects_sum. rewrite <- Hn.
  split.
  - right. apply in_or_app. right. left. reflexivity.
  - f_equal. destruct s1 as [[w1 g1 mode1] o1 n1 h1 bw1 ba1].
    cbn in *. injection Hbk as -> -> -> -> ->. subst. reflexivity.
Qed.

(** An epoch in terms of its two phases. *)
Lemma run_epoch_unfold (num_epochs : Z) (epoch : nat) (s : state) :
  run_epoch num_epochs epoch s
  = let hdr := [Print (MsgEpoch epoch (num_epochs - 1)); Print MsgRule] in
    match run_phase train_name s with
    | (t1, Raise e) => (hdr ++ t1, Raise e)
    | (t1, Return s1) =>
        match run_phase val_name s1 with
        | (t2, Raise e) => (hdr ++ t1 ++ t2, Raise e)
        | (t2, Return s2) => (hdr ++ t1 ++ t2 ++ [Print MsgBlank], Return s2)
        end
    end.
Proof.
  unfold run_epoch. cbn [for_each tell wbind wret].
  destruct (run_phase train_name s) as [t1 [s1 | e]]; [|reflexivity].
  cbn [for_each tell wbind wret app fst snd].
  destruct (run_phase val_name s1) as [t2 [s2 | e]];
    cbn [for_each tell wbind wret app fst snd];
    rewrite ?app_nil_r, <- ?app_assoc; reflexivity.
Qed.

Lemma epochs_printed_app (t1 t2 : list event) :
  epochs_printed (t1 ++ t2) = epochs_printed t1 ++ epochs_printed t2.
Proof. apply omap_app. Qed.

Lemma reports_app (phase : string) (t1 t2 : list event) :
  reports phase (t1 ++ t2) = reports phase t1 ++ reports phase t2.
Proof. apply omap_app. Qed.

Lemma no_print_silent (phase : string) (t : list event) :
  Forall (fun e => is_print e = false) t ->
  epochs_printed t = [] /\ reports phase t = [].
Proof.
  induction 1 as [|e t He _ [IH1 IH2]]; [split; reflexivity|].
  unfold epochs_printed, reports in *. cbn. rewrite IH1, IH2.
  destruct e; try discriminate; split; reflexivity.
Qed.

(** Any phase that returns has recorded one accuracy on a state whose
    bookkeeping is the one it entered with. *)
Lemma run_phase_record (phase : string) (s s' : state) (t : list event) :
  run_phase phase s = (t, Return s') ->
  exists acc l s1 evs,
    s' = record_accuracy phase acc s1
    /\ bookkeeping s1
       = (S (passes s), val_acc_history s, best_model_wts s, best_acc s,
          String.eqb phase train_name)
    /\ t = (if String.eqb phase train_name then ModelTrain else ModelEval)
           :: evs ++ [Print (MsgPhase phase l acc)]
    /\ Forall (fun e => is_print e = false) evs.
Proof.
  intros Hrun. apply run_phase_inv in Hrun. cbn zeta in Hrun.
  destruct Hrun as (ld & evs & s1 & rl & n & _ & _ & _ & Hloop & -> & ->).
  destruct (batches_inv _ _ _ _ _ _ _ _ _ Hloop) as (Hbk & _ & Hnp).
  eexists _, _, s1, evs. repeat split; assumption.
Qed.

(** With two distinct phase names, an epoch that returns has trained, then
    measured the weights it ends with on the validation loader, recorded
    that accuracy and kept the best pair; it announces itself and reports
    the validation loss and accuracy once. *)
Lemma run_epoch_inv (num_epochs : Z) (epoch : nat) (s s' : state) (t : list event) :
  train_name <> val_name ->
  run_epoch num_epochs epoch s = (t, Return s') ->
  exists ld,
    dataloaders !! val_name = Some ld
    /\ passes s' = S (S (passes s))
    /\ val_acc_history s'
       = val_acc_history s ++ [val_accuracy (wts (model s')) ld (S (passes s))]
    /\ (best_model_wts s', best_acc s')
       = (if fgt (val_accuracy (wts (model s')) ld (S (passes s))) (best_acc s)
          then (wts (model s'), val_accuracy (wts (model s')) ld (S (passes s)))
          else (best_model_wts s, best_acc s))
    /\ epochs_printed t = [epoch]
    /\ reports val_name t
       = [(val_loss (wts (model s')) ld (S (passes s)),
           val_accuracy (wts (model s')) ld (S (passes s)))].
Proof.
  intros Hne. rewrite run_epoch_unfold. cbn zeta.
  destruct (run_phase train_name s) as [t1 [s1 | e]] eqn:Htrain; [|discriminate].
  destruct (run_phase val_name s1) as [t2 [s2 | e]] eqn:Hval; [|discriminate].
  intros [= <- <-].
  assert (Hvt : String.eqb val_name train_name = false).
  { apply String.eqb_neq. congruence. }
  assert (Htv : String.eqb train_name val_name = false).
  { apply String.eqb_neq. congruence. }
  apply run_phase_record in Htrain.
  destruct Htrain as (acc1 & l1 & s0 & evs1 & -> & Hbk1 & -> & Hnp1).
  rewrite record_accuracy_other in Hval by exact Htv.
  pose proof Hval as Hrec. apply run_phase_record in Hrec.
  destruct Hrec as (acc2 & l2 & s0' & evs2 & _ & _ & Ht2 & Hnp2).
  apply run_phase_eval_inv in Hval; [|exact Hvt].
  destruct Hval as (ld & g & Hld & Hin & ->).
  destruct (record_accuracy_frame val_name
              (val_accuracy (wts (model s0)) ld (passes s0))
              (State (Net (wts (model s0)) g false) (optimizer s0) (S (passes s0))
                     (val_acc_history s0) (best_model_wts s0) (best_acc s0)))
    as (Hmodel & _ & Hpasses).
  destruct (record_accuracy_val
              (val_accuracy (wts (model s0)) ld (passes s0))
              (State (Net (wts (model s0)) g false) (optimizer s0) (S (passes s0))
                     (val_acc_history s0) (best_model_wts s0) (best_acc s0)))
    as (Hhist & Hbest).
  unfold bookkeeping in Hbk1. injection Hbk1 as Hp Hh Hbw Hba _.
  exists ld. rewrite Hmodel, Hpasses, Hhist, Hbest. cbn.
  rewrite Hp, Hh, Hbw, Hba.
  split; [exact Hld|]. split; [reflexivity|]. split; [reflexivity|].
  split; [reflexivity|].
  destruct (no_print_silent val_name evs1 Hnp1) as [He1 Hr1].
  destruct (no_print_silent val_name evs2 Hnp2) as [He2 Hr2].
  rewrite Hvt in Ht2.
  split.
  - rewrite Ht2, String.eqb_refl. cbn. rewrite !omap_app. cbn.
    rewrite !omap_app.
    fold (epochs_printed evs1) (epochs_printed evs2). rewrite He1, He2. reflexivity.
  - rewrite Ht2 in Hin |- *.
    destruct Hin as [Hin | Hin]; [discriminate|].
    apply in_app_or in Hin. destruct Hin as [Hin | [Hin | []]].
    + rewrite Forall_forall in Hnp2. rewrite <- list_elem_of_In in Hin.
      apply Hnp2 in Hin. discriminate.
    + injection Hin as -> ->.
      rewrite String.eqb_refl. cbn. rewrite !omap_app. cbn. rewrite !omap_app.
      fold (reports val_name evs1) (reports val_name evs2). rewrite Hr1, Hr2.
      cbn. rewrite Htv, String.eqb_refl. rewrite Hp. reflexivity.
Qed.

Lemma run_epoch_returns (num_epochs : Z) (epoch : nat) (s : state) :
  outputs_match -> loader_ok train_name -> loader_ok val_name ->
  exists t s', run_epoch num_epochs epoch s = (t, Return s').
Proof.
  intros Hmatch Htrain Hval. rewrite run_epoch_unfold. cbn zeta.
  destruct (run_phase_returns train_name s Hmatch Htrain) as (t1 & s1 & ->).
  destruct (run_phase_returns val_name s1 Hmatch Hval) as (t2 & s2 & ->).
  eauto.
Qed.

Lemma run_epochs_returns (num_epochs : Z) (epochs : list nat) (s : state) :
  outputs_match -> loader_ok train_name -> loader_ok val_name ->
  exists t s', run_epochs num_epochs epochs s = (t, Return s').
Proof.
  intros Hmatch Htrain Hval. revert s.
  induction epochs as [|e es IH]; intros s.
  - exists [], s. reflexivity.
  - unfold run_epochs. cbn [for_each].
    destruct (run_epoch_returns num_epochs e s Hmatch Htrain Hval) as (t1 & s1 & ->).
    destruct (IH s1) as (t2 & s2 & Hrest). unfold run_epochs in Hrest.
    rewrite wbind_return, Hrest. eauto.
Qed.

Lemma state_after_S (m : net) (o : optim) (num_epochs : Z) (k : nat) :
  state_after m o num_epochs (S k)
  = wbind (state_after m o num_epochs k) (run_epoch num_epochs k).
Proof.
  unfold state_after, run_epochs. rewrite seq_S. apply for_each_snoc.
Qed.

(** A run of [k + 1] epochs that returns is a run of [k] epochs that
    returns, followed by epoch [k]. *)
Lemma state_after_S_inv (m : net) (o : optim) (num_epochs : Z) (k : nat)
    (t : list event) (s' : state) :
  state_after m o num_epochs (S k) = (t, Return s') ->
  exists t1 s t2,
    state_after m o num_epochs k = (t1, Return s)
    /\ run_epoch num_epochs k s = (t2, Return s')
    /\ t = t1 ++ t2.
Proof.
  rewrite state_after_S.
  destruct (state_after m o num_epochs k) as [t1 [s | e]]; [|discriminate].
  rewrite wbind_return.
  destruct (run_epoch num_epochs k s) as [t2 [s2 | e]] eqn:Hepoch; [|discriminate].
  cbn [fst snd]. intros [= <- <-]. exists t1, s, t2. auto.
Qed.

(** With two distinct phase names, after [k] epochs: two traversals per
    epoch, one recorded accuracy per epoch, each the accuracy of the
    weights the model had at the end of its epoch, and the matching
    announcements and validation reports in the trace. *)
Lemma state_after_inv (m : net) (o : optim) (num_epochs : Z) (k : nat)
    (t : list event) (s : state) :
  train_name <> val_name ->
  state_after m o num_epochs k = (t, Return s) ->
  passes s = (2 * k)%nat
  /\ length (val_acc_history s) = k
  /\ epochs_printed t = seq 0 k
  /\ forall vld, dataloaders !! val_name = Some vld ->
       val_acc_history s
       = map (fun j => val_accuracy (weights_after m o num_epochs (S j)) vld (2 * j + 1))
             (seq 0 k)
       /\ reports val_name t
          = map (fun j => (val_loss (weights_after m o num_epochs (S j)) vld (2 * j + 1),
                           val_accuracy (weights_after m o num_epochs (S j)) vld (2 * j + 1)))
                (seq 0 k).
Proof.
  intros Hne. revert t s. induction k as [|k IH]; intros t s Hrun.
  - cbn in Hrun. injection Hrun as <- <-. repeat split.
  - pose proof Hrun as Hfull.
    apply state_after_S_inv in Hrun.
    destruct Hrun as (t1 & s1 & t2 & Hk & Hepoch & ->).
    destruct (IH t1 s1 Hk) as (Hp & Hlen & Hep & Hall).
    apply run_epoch_inv in Hepoch; [|exact Hne].
    destruct Hepoch as (ld & Hld & Hp' & Hh' & _ & Hep' & Hrep').
    assert (Hw : weights_after m o num_epochs (S k) = wts (model s)).
    { unfold weights_after. rewrite Hfull. reflexivity. }
    split; [lia|]. split; [rewrite Hh', length_app; cbn; lia|].
    split; [rewrite epochs_printed_app, Hep, Hep', seq_S; reflexivity|].
    intros vld Hvld. rewrite Hld in Hvld. injection Hvld as <-.
    destruct (Hall ld Hld) as (Hhist & Hreps).
    rewrite seq_S, !map_app. cbn [map]. change (0 + k)%nat with k.
    replace (2 * k + 1)%nat with (S (passes s1)) by lia.
    rewrite Hw. split.
    + rewrite Hh', Hhist. reflexivity.
    + rewrite reports_app, Hreps, Hrep'. reflexivity.
Qed.

(** [train_model] in terms of the run of its epochs. *)
Lemma train_model_unfold (m : net) (o : optim) (num_epochs : Z) :
  train_model m o num_epochs
  = match state_after m o num_epochs (Z.to_nat num_epochs) with
    | (t, Return s) =>
        (t ++ [Print MsgComplete; Print (MsgBest (best_acc s));
               LoadStateDict (best_model_wts s)],
         Return (Net (best_model_wts s) (grad (model s)) (training (model s)),
                 val_acc_history s))
    | (t, Raise e) => (t, Raise e)
    end.
Proof.
  unfold train_model, state_after.
  destruct (run_epochs _ _ _) as [t [s | e]]; [|reflexivity]. reflexivity.
Qed.

(** In the training phase the batches compute what [train_batch] folds. *)
Lemma batches_train (bs : list (inputs * labels)) (s s' : state)
    (rl rl' : float) (rc rc' : count) (evs : list event) :
  for_each bs (run_batch train_name) (s, rl, rc) = (evs, Return (s', rl', rc')) ->
  (model s', optimizer s', rl', count_value rc')
  = fold_left train_batch bs (model s, optimizer s, rl, count_value rc).
Proof.
  revert s rl rc evs. induction bs as [|b bs IH]; intros s rl rc evs Heq.
  - cbn in Heq. injection Heq as _ <- <- <-. reflexivity.
  - apply for_each_cons_inv in Heq.
    destruct Heq as (t1 & acc1 & t2 & Hb & Hrest & _).
    apply run_batch_inv in Hb. cbn zeta in Hb.
    rewrite String.eqb_refl, andb_true_r in Hb. destruct Hb as (_ & _ & ->).
    apply IH in Hrest. rewrite Hrest. reflexivity.
Qed.

(** The report of a training phase that returns. *)
Lemma run_phase_train_report (s s' : state) (t : list event) :
  run_phase train_name s = (t, Return s') ->
  exists ld evs,
    dataloaders !! train_name = Some ld
    /\ Forall (fun e => is_print e = false) evs
    /\ t = ModelTrain :: evs
           ++ [Print (MsgPhase train_name
                        (train_loss (Net (wts (model s)) (grad (model s)) true)
                                    (optimizer s) ld (passes s))
                        (train_accuracy (Net (wts (model s)) (grad (model s)) true)
                                        (optimizer s) ld (passes s)))].
Proof.
  intros Hrun. apply run_phase_inv in Hrun. cbn zeta in Hrun.
  rewrite String.eqb_refl in Hrun.
  destruct Hrun as (ld & evs & s1 & rl & n & Hld & _ & _ & Hloop & -> & _).
  destruct (batches_inv _ _ _ _ _ _ _ _ _ Hloop) as (_ & _ & Hnp).
  apply batches_train in Hloop. cbn in Hloop.
  exists ld, evs. split; [exact Hld|]. split; [exact Hnp|].
  unfold train_loss, train_accuracy, train_pass. rewrite <- Hloop. reflexivity.
Qed.

Lemma run_epoch_train_report (num_epochs : Z) (epoch : nat) (s s' : state)
    (t : list event) :
  train_name <> val_name ->
  run_epoch num_epochs epoch s = (t, Return s') ->
  exists ld,
    dataloaders !! train_name = Some ld
    /\ reports train_name t
       = [(train_loss (Net (wts (model s)) (grad (model s)) true)
                      (optimizer s) ld (passes s),
           train_accuracy (Net (wts (model s)) (grad (model s)) true)
                          (optimizer s) ld (passes s))].
Proof.
  intros Hne. rewrite run_epoch_unfold. cbn zeta.
  destruct (run_phase train_name s) as [t1 [s1 | e]] eqn:Htrain; [|discriminate].
  destruct (run_phase val_name s1) as [t2 [s2 | e]] eqn:Hval; [|discriminate].
  intros [= <- <-].
  assert (Hvt : String.eqb val_name train_name = false).
  { apply String.eqb_neq. congruence. }
  apply run_phase_train_report in Htrain.
  destruct Htrain as (ld & evs1 & Hld & Hnp1 & ->).
  apply run_phase_record in Hval.
  destruct Hval as (acc2 & l2 & s0 & evs2 & _ & _ & -> & Hnp2).
  rewrite Hvt.
  destruct (no_print_silent train_name evs1 Hnp1) as [_ Hr1].
  destruct (no_print_silent train_name evs2 Hnp2) as [_ Hr2].
  exists ld. split; [exact Hld|].
  cbn. rewrite !omap_app. cbn. rewrite !omap_app.
  fold (reports train_name evs1) (reports train_name evs2). rewrite Hr1, Hr2.
  cbn. rewrite Hvt, String.eqb_refl. reflexivity.
Qed.

(** The training reports of the first [k] epochs. *)
Lemma state_after_train_reports (m : net) (o : optim) (num_epochs : Z) (k : nat)
    (t : list event) (s : state) (tld : loader) :
  train_name <> val_name ->
  dataloaders !! train_name = Some tld ->
  state_after m o num_epochs k = (t, Return s) ->
  reports train_name t
  = map (fun j => (train_loss (model_entering m o num_epochs j)
                              (optimizer_entering m o num_epochs j) tld (2 * j),
                   train_accuracy (model_entering m o num_epochs j)
                                  (optimizer_entering m o num_epochs j) tld (2 * j)))
        (seq 0 k).
Proof.
  intros Hne Htld. revert t s. induction k as [|k IH]; intros t s Hrun.
  - cbn in Hrun. injection Hrun as <- <-. reflexivity.
  - apply state_after_S_inv in Hrun.
    destruct Hrun as (t1 & s1 & t2 & Hk & Hepoch & ->).
    destruct (state_after_inv m o num_epochs k t1 s1 Hne Hk) as (Hp & _).
    apply run_epoch_train_report in Hepoch; [|exact Hne].
    destruct Hepoch as (ld & Hld & Hrep). rewrite Htld in Hld. injection Hld as <-.
    rewrite reports_app, (IH t1 s1 Hk), Hrep, seq_S, map_app. cbn [map].
    change (0 + k)%nat with k.
    unfold model_entering, optimizer_entering. rewrite Hk. cbn [snd].
    rewrite Hp. reflexivity.
Qed.

(** C4, amended: when the run has an epoch to do, the two phase names
    differ, each phase has a loader with a non-empty dataset that yields a
    batch on every traversal, and the model returns what the loop unpacks
    (auxiliary outputs exactly in training mode with [is_inception] set),
    [train_model] runs epochs [0 .. num_epochs - 1] and returns the model
    with one accuracy per epoch in epoch order, entry [k] being the number
    of correct predictions over the validation traversal of epoch [k]
    divided by the size of the validation dataset; the validation report of
    the epoch carries the running loss sum divided by that size, and its
    training report the running sums of the training traversal divided by
    the size of the training dataset. *)
Theorem train_model_runs_all_epochs (m : net) (o : optim) (num_epochs : Z) :
  (0 < num_epochs ->
   train_name <> val_name /\ loader_ok train_name /\ loader_ok val_name
   /\ outputs_match) ->
  runs_all_epochs m o num_epochs.
Proof.
  intros Hpre. unfold runs_all_epochs. rewrite train_model_unfold.
  destruct (Z.to_nat num_epochs) as [|k] eqn:Hn.
  - cbn. eexists _, _, _. split; [reflexivity|]. repeat split.
  - destruct Hpre as (Hne & Htrain & Hval & Hmatch); [lia|].
    destruct (run_epochs_returns num_epochs (seq 0 (S k)) (init_state m o)
                Hmatch Htrain Hval)
      as (t & s & Hrun).
    change (state_after m o num_epochs (S k) = (t, Return s)) in Hrun.
    rewrite Hrun.
    destruct (state_after_inv m o num_epochs (S k) t s Hne Hrun)
      as (_ & Hlen & Hep & Hall).
    eexists _, _, _. split; [reflexivity|]. split; [exact Hlen|].
    split; [|split].
    + rewrite epochs_printed_app, Hep. cbn. rewrite app_nil_r. reflexivity.
    + intros vld Hvld. destruct (Hall vld Hvld) as (Hhist & Hrep).
      split; [exact Hhist|].
      rewrite reports_app, Hrep. cbn. rewrite app_nil_r. reflexivity.
    + intros tld Htld.
      rewrite reports_app,
        (state_after_train_reports m o num_epochs (S k) t s tld Hne Htld Hrun).
      cbn. rewrite app_nil_r. reflexivity.
Qed.

(** C6, amended: when the two phase names differ, every epoch runs its
    training phase first, in training mode, and then its validation phase,
    in evaluation mode; the validation phase runs each of its batches in a
    block with gradient tracking disabled, has no backward pass, no
    optimizer step and no enabled gradient tracking, and it leaves the
    weights and the optimizer as the training phase left them. *)
Theorem validation_phase_is_quiet (num_epochs : Z) (epoch : nat) (s : state) :
  train_name <> val_name ->
  epoch_discipline num_epochs epoch s.
Proof.
  intros Hne. unfold epoch_discipline. cbn zeta. rewrite run_epoch_unfold. cbn zeta.
  assert (Hvt : String.eqb val_name train_name = false).
  { apply String.eqb_neq. congruence. }
  destruct (run_phase train_name s) as [t1 r1] eqn:Htrain.
  exists t1, r1. split; [reflexivity|]. split.
  - rewrite run_phase_unfold in Htrain. cbn zeta in Htrain.
    rewrite String.eqb_refl in Htrain.
    destruct (dataloaders !! train_name) as [ld|]; [|injection Htrain as <- _; reflexivity].
    destruct (for_each _ _ _) as [evs [[[s1 rl] rc] | e]];
      [|injection Htrain as <- _; reflexivity].
    destruct (dataset_len ld <? 0); [injection Htrain as <- _; reflexivity|].
    destruct (dataset_len ld =? 0); [injection Htrain as <- _; reflexivity|].
    destruct rc; injection Htrain as <- _; reflexivity.
  - destruct r1 as [s1 | e]; [|reflexivity].
    destruct (run_phase val_name s1) as [t2 r2] eqn:Hval.
    exists t2, r2. split; [reflexivity|].
    destruct (run_phase_eval_trace val_name s1 Hvt) as (Hhead & Hquiet & Hshape).
    rewrite Hval in Hhead, Hquiet, Hshape. cbn [fst snd] in Hhead, Hquiet, Hshape.
    split; [exact Hhead|]. split; [exact Hquiet|]. split; [exact Hshape|].
    destruct r2 as [s2 | e]; [|reflexivity].
    split; [reflexivity|].
    apply run_phase_eval_inv in Hval; [|exact Hvt].
    destruct Hval as (ld & g & _ & _ & ->).
    match goal with
    | |- context [record_accuracy val_name ?a ?s0] =>
        destruct (record_accuracy_frame val_name a s0) as (-> & -> & _)
    end.
    split; reflexivity.
Qed.

(** C9, amended: when the two phase names differ, a batch of the training
    phase adds the combined loss [loss1 + 0.4 * loss2] to the running loss
    when [is_inception] is set and the loss of the final outputs otherwise,
    and starts the backward pass from that loss; a batch of the validation
    phase adds the loss of the final outputs; in both phases the
    predictions counted are those of the final outputs.  This is for a
    model that returns what the branch of the batch takes, the pair with
    the auxiliary outputs for the combined loss and the final outputs alone
    otherwise; on any other model the batch raises before it adds
    anything or runs a backward pass. *)
Theorem loss_rule_holds : train_name <> val_name -> loss_rule.
Proof.
  intros Hne.
  assert (Hvt : String.eqb val_name train_name = false).
  { apply String.eqb_neq. congruence. }
  unfold loss_rule, batch_adds. split; [|split].
  - intros b s rl rc. cbn zeta. rewrite run_batch_spec. cbn zeta.
    rewrite String.eqb_refl, andb_true_r.
    destruct (Bool.eqb _ is_inception); [|eexists; reflexivity].
    destruct is_inception;
      (eexists _, _; split; [reflexivity|]);
      intros l' [Hl | [Hl | [Hl | [Hl | []]]]]; try discriminate;
      injection Hl as <-; reflexivity.
  - intros b s rl rc Hshape. rewrite run_batch_spec. cbn zeta.
    rewrite String.eqb_refl, andb_true_r, Hshape, Bool.eqb_reflx.
    cbn [fst]. right. right. left. destruct is_inception; reflexivity.
  - intros b s rl rc. cbn zeta. rewrite run_batch_spec. cbn zeta.
    rewrite Hvt, andb_false_r.
    destruct (Bool.eqb _ false); [|eexists; reflexivity].
    eexists _, _. split; [reflexivity|].
    intros l' [Hl | [Hl | []]]; discriminate.
Qed.

(** C1, amended: when the two phase names differ, at the end of every
    epoch the run gets through there is one recorded accuracy per epoch,
    the best accuracy is the maximum of 0.0 and the recorded accuracies, the
    best weights are the initial ones (the best accuracy still being 0.0)
    or the weights the model had at the end of an epoch whose accuracy is
    the best one, and after the last epoch [train_model] loads the best
    weights into the model it returns. *)
Theorem best_weights_invariant (m : net) (o : optim) (num_epochs : Z) :
  train_name <> val_name ->
  best_invariant m o num_epochs.
Proof.
  intros Hne k. induction k as [|k IH]; intros t s Hrun.
  - cbn in Hrun. injection Hrun as <- <-.
    split; [reflexivity|]. split; [split; [constructor | left; reflexivity]|].
    split; [left; repeat split; constructor|].
    intros Hk. unfold returns_best. rewrite train_model_unfold, <- Hk. reflexivity.
  - pose proof Hrun as Hfull.
    apply state_after_S_inv in Hrun.
    destruct Hrun as (t1 & s1 & t2 & Hk & Hepoch & ->).
    destruct (IH t1 s1 Hk) as (Hlen & (Hub & Hmem) & Hsnap & _).
    apply run_epoch_inv in Hepoch; [|exact Hne].
    destruct Hepoch as (ld & _ & _ & Hhist & Hbest & _ & _).
    set (acc := val_accuracy (wts (model s)) ld (S (passes s1))) in *.
    assert (Hret : S k = Z.to_nat num_epochs -> returns_best m o num_epochs (t1 ++ t2) s).
    { intros HSk. unfold returns_best. rewrite train_model_unfold, <- HSk, Hfull.
      reflexivity. }
    split; [rewrite Hhist, length_app; cbn; lia|].
    destruct (fgt acc (best_acc s1)) eqn:Hgt; injection Hbest as Hbw Hba.
    + (* the epoch is the best so far *)
      split; [split|split; [|exact Hret]].
      * rewrite Hhist, Hba. apply Forall_app. split.
        -- rewrite Forall_forall in Hub |- *. intros a Ha.
           destruct (fgt a acc) eqn:Haa; [|reflexivity].
           specialize (Hub a Ha). cbn beta in Hub.
           rewrite (fgt_trans _ _ _ Haa Hgt) in Hub. discriminate.
        -- constructor; [apply fgt_irrefl | constructor].
      * right. rewrite Hhist, Hba. apply in_or_app. right. left. reflexivity.
      * right. exists k, (t1 ++ t2), s.
        split; [lia|]. split; [exact Hfull|]. split; [|exact Hbw].
        rewrite Hhist, Hba. apply list_lookup_middle. symmetry. exact Hlen.
    + (* the best pair stays *)
      split; [split|split; [|exact Hret]].
      * rewrite Hhist, Hba. apply Forall_app. split; [exact Hub|].
        constructor; [exact Hgt | constructor].
      * rewrite Hhist, Hba. destruct Hmem as [H0 | Hin]; [left; exact H0|].
        right. apply in_or_app. left. exact Hin.
      * destruct Hsnap as [(H0 & Hw0 & Hall) | (j & tj & sj & Hj & Hrunj & Hlook & Hwj)].
        -- left. rewrite Hba, Hbw, Hhist. split; [exact H0|]. split; [exact Hw0|].
           apply Forall_app. split; [exact Hall|].
           constructor; [|constructor]. rewrite <- H0. exact Hgt.
        -- right. exists j, tj, sj. split; [lia|]. split; [exact Hrunj|].
           rewrite Hba, Hbw, Hhist. split; [|exact Hwj].
           apply lookup_app_l_Some. exact Hlook.
Qed.

(** Every phase keeps the best accuracy at 0.0 or above, and a phase that
    records exactly 0.0 leaves the best pair as it was. *)
Lemma run_phase_nonneg (phase : string) (s s' : state) (t : list event) :
  run_phase phase s = (t, Return s') ->
  best_nonneg s ->
  best_nonneg s'
  /\ (val_acc_history s' = val_acc_history s ++ [0%float] ->
      best_model_wts s' = best_model_wts s /\ best_acc s' = best_acc s).
Proof.
  intros Hrun Hnn. apply run_phase_record in Hrun.
  destruct Hrun as (acc & l & s1 & evs & -> & Hbk & _ & _).
  unfold bookkeeping in Hbk. injection Hbk as _ Hh Hbw Hba _.
  unfold best_nonneg, record_accuracy in *.
  destruct (String.eqb phase val_name); cbn [andb].
  - destruct (fgt acc (best_acc s1)) eqn:Hgt; cbn; rewrite ?Hh, ?Hbw, ?Hba in *.
    + assert (Hpos : fgt acc 0%float = true).
      { destruct Hnn as [H0 | Hpos]; [rewrite <- H0; exact Hgt|].
        exact (fgt_trans _ _ _ Hgt Hpos). }
      split; [right; exact Hpos|].
      intros Heq%app_inv_head. injection Heq as ->.
      rewrite fgt_irrefl in Hpos. discriminate.
    + split; [exact Hnn | intros _; split; reflexivity].
  - rewrite Hh, Hbw, Hba. split; [exact Hnn|]. intros _. split; reflexivity.
Qed.

(** Every phase keeps: the best pair is the initial one unless a recorded
    accuracy exceeds 0.0. *)
Lemma run_phase_initial (w0 : weights) (phase : string) (s s' : state)
    (t : list event) :
  run_phase phase s = (t, Return s') ->
  initial_or_exceeded w0 s ->
  initial_or_exceeded w0 s'.
Proof.
  intros Hrun Hinit. apply run_phase_record in Hrun.
  destruct Hrun as (acc & l & s1 & evs & -> & Hbk & _ & _).
  unfold bookkeeping in Hbk. injection Hbk as _ Hh Hbw Hba _.
  unfold initial_or_exceeded, record_accuracy in *.
  destruct (String.eqb phase val_name); cbn [andb].
  - destruct (fgt acc (best_acc s1)) eqn:Hgt; cbn; rewrite ?Hh, ?Hbw, ?Hba in *.
    + destruct Hinit as [[H0 _] | Hex].
      * right. apply Exists_app. right. constructor. rewrite <- H0. exact Hgt.
      * right. apply Exists_app. left. exact Hex.
    + destruct Hinit as [H0 | Hex]; [left; exact H0|].
      right. apply Exists_app. left. exact Hex.
  - rewrite Hh, Hbw, Hba. exact Hinit.
Qed.

Lemma run_epoch_initial (w0 : weights) (num_epochs : Z) (epoch : nat)
    (s s' : state) (t : list event) :
  run_epoch num_epochs epoch s = (t, Return s') ->
  initial_or_exceeded w0 s ->
  initial_or_exceeded w0 s'.
Proof.
  rewrite run_epoch_unfold. cbn zeta.
  destruct (run_phase train_name s) as [t1 [s1 | e]] eqn:Htrain; [|discriminate].
  destruct (run_phase val_name s1) as [t2 [s2 | e]] eqn:Hval; [|discriminate].
  intros [= <- <-] Hinit.
  eapply run_phase_initial; [exact Hval|].
  eapply run_phase_initial; [exact Htrain | exact Hinit].
Qed.

Lemma run_epochs_initial (w0 : weights) (num_epochs : Z) (epochs : list nat)
    (s s' : state) (t : list event) :
  run_epochs num_epochs epochs s = (t, Return s') ->
  initial_or_exceeded w0 s ->
  initial_or_exceeded w0 s'.
Proof.
  revert s t. induction epochs as [|e es IH]; intros s t.
  - intros [= <- <-]. auto.
  - unfold run_epochs. cbn [for_each].
    destruct (run_epoch num_epochs e s) as [t1 [s1 | x]] eqn:Hepoch; [|discriminate].
    rewrite wbind_return.
    destruct (for_each es _ s1) as [t2 r2] eqn:Hrest. cbn [fst snd].
    intros [= <- ->] Hinit.
    eapply IH; [exact Hrest|].
    eapply run_epoch_initial; [exact Hepoch | exact Hinit].
Qed.

(** C8: when [train_model] returns and either [num_epochs] is not positive
    or no recorded accuracy exceeds 0.0, the returned model has the initial
    weights and the best accuracy reported is 0.0; with [num_epochs] not
    positive it always returns so, with no accuracy recorded; and a phase
    that records exactly 0.0 never replaces the best pair (the best
    accuracy being 0.0 or above throughout). *)
Theorem train_model_keeps_initial (m : net) (o : optim) (num_epochs : Z)
    (t : list event) (mdl : net) (hist : list float) :
  train_model m o num_epochs = (t, Return (mdl, hist)) ->
  num_epochs <= 0 \/ Forall (fun a => fgt a 0%float = false) hist ->
  wts mdl = wts m
  /\ (exists t0, t = t0 ++ [Print MsgComplete; Print (MsgBest 0%float);
                           LoadStateDict (wts m)])
  /\ (num_epochs <= 0 ->
      train_model m o num_epochs
      = ([Print MsgComplete; Print (MsgBest 0%float); LoadStateDict (wts m)],
         Return (Net (wts m) (grad m) (training m), [])))
  /\ best_nonneg (init_state m o)
  /\ (forall phase s t1 s1,
        best_nonneg s -> run_phase phase s = (t1, Return s1) ->
        best_nonneg s1
        /\ (val_acc_history s1 = val_acc_history s ++ [0%float] ->
            best_model_wts s1 = best_model_wts s /\ best_acc s1 = best_acc s)).
Proof.
  intros Hrun Hcase.
  assert (Hzero : num_epochs <= 0 ->
            train_model m o num_epochs
            = ([Print MsgComplete; Print (MsgBest 0%float); LoadStateDict (wts m)],
               Return (Net (wts m) (grad m) (training m), []))).
  { intros Hn. rewrite train_model_unfold.
    replace (Z.to_nat num_epochs) with 0%nat by lia. reflexivity. }
  assert (Hhist : Forall (fun a => fgt a 0%float = false) hist).
  { destruct Hcase as [Hn | Hall]; [|exact Hall].
    rewrite (Hzero Hn) in Hrun. injection Hrun as _ _ <-. constructor. }
  rewrite train_model_unfold in Hrun.
  destruct (state_after m o num_epochs (Z.to_nat num_epochs)) as [t0 [s | e]]
    eqn:Hepochs; [|discriminate].
  injection Hrun as <- <- <-.
  assert (Hinit : initial_or_exceeded (wts m) s).
  { eapply run_epochs_initial; [exact Hepochs|]. left. split; reflexivity. }
  destruct Hinit as [[H0 Hw] | Hex].
  - cbn. rewrite H0, Hw. split; [reflexivity|]. split; [eauto|].
    split; [exact Hzero|]. split; [left; reflexivity|].
    intros phase s0 t1 s1 Hnn Hphase. exact (run_phase_nonneg _ _ _ _ Hphase Hnn).
  - exfalso. rewrite Exists_exists in Hex. destruct Hex as (a & Ha & Hpos).
    rewrite Forall_forall in Hhist. rewrite (Hhist a Ha) in Hpos. discriminate.
Qed.

(** ** Further properties of the loop *)

#[local] Abbreviation traversal_ready := (traversal_ready dataloaders).
#[local] Abbreviation traversal_error := (traversal_error dataloaders).
#[local] Abbreviation schedule_error := (schedule_error dataloaders train_name val_name).
#[local] Abbreviation first_error := (first_error dataloaders train_name val_name).

(** A phase that returns has done one traversal and left the model in the
    mode of the phase. *)
Lemma run_phase_after (phase : string) (s s' : state) (t : list event) :
  run_phase phase s = (t, Return s') ->
  passes s' = S (passes s)
  /\ training (model s') = String.eqb phase train_name.
Proof.
  intros Hrun. apply run_phase_record in Hrun.
  destruct Hrun as (acc & l & s1 & evs & -> & Hbk & _ & _).
  destruct (record_accuracy_frame phase acc s1) as (-> & _ & ->).
  unfold bookkeeping in Hbk. injection Hbk as -> _ _ _ ->. split; reflexivity.
Qed.

(** A phase that returns had its traversal ready. *)
Lemma run_phase_ready (phase : string) (s s' : state) (t : list event) :
  run_phase phase s = (t, Return s') -> traversal_ready phase (passes s).
Proof.
  intros Hrun. apply run_phase_inv in Hrun. cbn zeta in Hrun.
  destruct Hrun as (ld & evs & s1 & rl & n & Hld & Hlen & Hbs & _).
  exists ld. auto.
Qed.

Lemma run_epoch_after (num_epochs : Z) (epoch : nat) (s s' : state)
    (t : list event) :
  run_epoch num_epochs epoch s = (t, Return s') ->
  passes s' = S (S (passes s))
  /\ training (model s') = String.eqb val_name train_name.
Proof.
  rewrite run_epoch_unfold. cbn zeta.
  destruct (run_phase train_name s) as [t1 [s1 | e]] eqn:Htrain; [|discriminate].
  destruct (run_phase val_name s1) as [t2 [s2 | e]] eqn:Hval; [|discriminate].
  intros [= <- <-].
  destruct (run_phase_after _ _ _ _ Htrain) as (Hp1 & _).
  destruct (run_phase_after _ _ _ _ Hval) as (Hp2 & Hmode).
  rewrite Hp2, Hp1. auto.
Qed.

(** After [k] epochs, whatever the phase names: two traversals per epoch,
    and the model in the mode of the second phase. *)
Lemma state_after_passes (m : net) (o : optim) (num_epochs : Z) (k : nat)
    (t : list event) (s : state) :
  state_after m o num_epochs k = (t, Return s) ->
  passes s = (2 * k)%nat
  /\ training (model s)
     = match k with
       | O => training m
       | S _ => String.eqb val_name train_name
       end.
Proof.
  revert t s. induction k as [|k IH]; intros t s Hrun.
  - cbn in Hrun. injection Hrun as <- <-. split; reflexivity.
  - apply state_after_S_inv in Hrun.
    destruct Hrun as (t1 & s1 & t2 & Hk & Hepoch & ->).
    destruct (IH t1 s1 Hk) as (Hp & _).
    destruct (run_epoch_after _ _ _ _ _ Hepoch) as (Hp' & Hmode).
    split; [lia | exact Hmode].
Qed.

Lemma run_epoch_ready (num_epochs : Z) (epoch : nat) (s s' : state)
    (t : list event) :
  run_epoch num_epochs epoch s = (t, Return s') ->
  traversal_ready train_name (passes s)
  /\ traversal_ready val_name (S (passes s)).
Proof.
  rewrite run_epoch_unfold. cbn zeta.
  destruct (run_phase train_name s) as [t1 [s1 | e]] eqn:Htrain; [|discriminate].
  destruct (run_phase val_name s1) as [t2 [s2 | e]] eqn:Hval; [|discriminate].
  intros _. destruct (run_phase_after _ _ _ _ Htrain) as (Hp & _).
  split; [eapply run_phase_ready, Htrain|].
  rewrite <- Hp. eapply run_phase_ready, Hval.
Qed.

Lemma state_after_ready (m : net) (o : optim) (num_epochs : Z) (k : nat)
    (t : list event) (s : state) :
  state_after m o num_epochs k = (t, Return s) ->
  forall j, (j < k)%nat ->
    traversal_ready train_name (2 * j)
    /\ traversal_ready val_name (2 * j + 1).
Proof.
  revert t s. induction k as [|k IH]; intros t s Hrun j Hj; [lia|].
  apply state_after_S_inv in Hrun.
  destruct Hrun as (t1 & s1 & t2 & Hk & Hepoch & _).
  destruct (state_after_passes m o num_epochs k t1 s1 Hk) as (Hp & _).
  apply run_epoch_ready in Hepoch. rewrite Hp in Hepoch.
  destruct (decide (j = k)) as [-> | Hne].
  - replace (2 * k + 1)%nat with (S (2 * k)) by lia. exact Hepoch.
  - eapply IH; [exact Hk | lia].
Qed.

Lemma traversal_error_None (phase : string) (n : nat) :
  traversal_error phase n = None <-> traversal_ready phase n.
Proof.
  unfold traversal_error, traversal_ready.
  destruct (dataloaders !! phase) as [ld|].
  - destruct (Z.ltb_spec (dataset_len ld) 0) as [Hneg | Hnn].
    { split; [discriminate|]. intros (ld' & [= <-] & Hpos & _). lia. }
    destruct (Z.eqb_spec (dataset_len ld) 0) as [Hlen | Hlen].
    + split; [discriminate|]. intros (ld' & [= <-] & Hpos & _). lia.
    + destruct (batches ld n) as [|b bs] eqn:Hbs.
      * split; [discriminate|]. intros (ld' & [= <-] & _ & Hne). congruence.
      * split; [|reflexivity]. intros _. exists ld. rewrite Hbs.
        split; [reflexivity|]. split; [lia | discriminate].
  - split; [discriminate|]. intros (ld & Hld & _). discriminate.
Qed.

Lemma schedule_error_ready (k : nat) :
  (forall j, (j < 2 * k)%nat -> schedule_error j = None)
  <-> forall j, (j < k)%nat ->
        traversal_ready train_name (2 * j)
        /\ traversal_ready val_name (2 * j + 1).
Proof.
  unfold schedule_error. split.
  - intros Hall j Hj. split.
    + apply traversal_error_None. specialize (Hall (2 * j)%nat ltac:(lia)).
      rewrite Nat.even_even in Hall. exact Hall.
    + apply traversal_error_None. specialize (Hall (2 * j + 1)%nat ltac:(lia)).
      rewrite Nat.even_odd in Hall. exact Hall.
  - intros Hall i Hi.
    destruct (Nat.Even_or_Odd i) as [[j ->] | [j ->]].
    + rewrite Nat.even_even. apply traversal_error_None, Hall. lia.
    + rewrite Nat.even_odd. apply traversal_error_None, Hall. lia.
Qed.

(** *** With a model that returns what the loop unpacks *)

Section Matched.
Hypothesis Hmatch : outputs_match.

Lemma run_phase_returns_iff (phase : string) (s : state) :
  (exists t s', run_phase phase s = (t, Return s'))
  <-> traversal_ready phase (passes s).
Proof.
  split.
  - intros (t & s' & Hrun). eapply run_phase_ready, Hrun.
  - intros (ld & Hld & Hlen & Hbs).
    rewrite run_phase_unfold. cbn zeta. rewrite Hld.
    destruct (batches_return phase (batches ld (passes s))
                (enter_phase (String.eqb phase train_name) s) 0%float (PyInt 0)
                Hmatch eq_refl)
      as (evs & s1 & rl & rc & Hloop).
    rewrite Hloop. apply batches_inv in Hloop. destruct Hloop as (_ & Htensor & _).
    destruct (Z.ltb_spec (dataset_len ld) 0) as [|_]; [lia|].
    destruct (Z.eqb_spec (dataset_len ld) 0) as [|_]; [lia|].
    specialize (Htensor Hbs). destruct rc as [n | n]; [discriminate|].
    eauto.
Qed.

Lemma run_epoch_returns_iff (num_epochs : Z) (epoch : nat) (s : state) :
  (exists t s', run_epoch num_epochs epoch s = (t, Return s'))
  <-> traversal_ready train_name (passes s)
      /\ traversal_ready val_name (S (passes s)).
Proof.
  split.
  - intros (t & s' & Hrun). eapply run_epoch_ready, Hrun.
  - rewrite run_epoch_unfold. cbn zeta. intros (Htrain & Hval).
    apply run_phase_returns_iff in Htrain. destruct Htrain as (t1 & s1 & Htrain).
    rewrite Htrain. destruct (run_phase_after _ _ _ _ Htrain) as (Hp & _).
    rewrite <- Hp in Hval.
    apply run_phase_returns_iff in Hval. destruct Hval as (t2 & s2 & ->).
    eauto.
Qed.

Lemma state_after_returns_iff (m : net) (o : optim) (num_epochs : Z) (k : nat) :
  (exists t s, state_after m o num_epochs k = (t, Return s))
  <-> forall j, (j < k)%nat ->
        traversal_ready train_name (2 * j)
        /\ traversal_ready val_name (2 * j + 1).
Proof.
  split; [intros (t & s & Hrun); eapply state_after_ready, Hrun|].
  induction k as [|k IH]; intros Hall.
  - exists [], (init_state m o). reflexivity.
  - rewrite state_after_S.
    destruct IH as (t1 & s & Hk); [intros j Hj; apply Hall; lia|].
    rewrite Hk, wbind_return.
    destruct (state_after_passes m o num_epochs k t1 s Hk) as (Hp & _).
    destruct (proj2 (run_epoch_returns_iff num_epochs k s)) as (t2 & s2 & ->).
    { rewrite Hp. replace (S (2 * k)) with (2 * k + 1)%nat by lia.
      apply Hall. lia. }
    eauto.
Qed.

(** What a phase raises. *)
Lemma run_phase_raises_iff (phase : string) (s : state) (e : exn) :
  snd (run_phase phase s) = Raise e
  <-> traversal_error phase (passes s) = Some e.
Proof.
  rewrite run_phase_unfold. cbn zeta. unfold traversal_error.
  destruct (dataloaders !! phase) as [ld|];
    [|cbn; split; intros [= <-]; reflexivity].
  destruct (batches_return phase (batches ld (passes s))
              (enter_phase (String.eqb phase train_name) s) 0%float (PyInt 0)
              Hmatch eq_refl)
    as (evs & s1 & rl & rc & Hloop).
  rewrite Hloop.
  destruct (dataset_len ld <? 0); [cbn; split; intros [= <-]; reflexivity|].
  destruct (dataset_len ld =? 0); [cbn; split; intros [= <-]; reflexivity|].
  destruct (batches ld (passes s)) as [|b bs].
  - cbn in Hloop. injection Hloop as _ _ _ <-.
    cbn. split; intros [= <-]; reflexivity.
  - apply batches_inv in Hloop. destruct Hloop as (_ & Htensor & _).
    specialize (Htensor ltac:(discriminate)).
    destruct rc as [n | n]; [discriminate|]. cbn. split; discriminate.
Qed.

Lemma run_epoch_raises_iff (num_epochs : Z) (epoch : nat) (s : state) (e : exn) :
  snd (run_epoch num_epochs epoch s) = Raise e
  <-> traversal_error train_name (passes s) = Some e
      \/ (traversal_error train_name (passes s) = None
          /\ traversal_error val_name (S (passes s)) = Some e).
Proof.
  rewrite run_epoch_unfold. cbn zeta.
  pose proof (run_phase_raises_iff train_name s) as Htrain.
  destruct (run_phase train_name s) as [t1 [s1 | e1]] eqn:Hrun1; cbn [snd] in *.
  - assert (Hready : traversal_error train_name (passes s) = None).
    { eapply traversal_error_None, run_phase_ready, Hrun1. }
    destruct (run_phase_after _ _ _ _ Hrun1) as (Hp & _).
    pose proof (run_phase_raises_iff val_name s1) as Hval. rewrite Hp in Hval.
    destruct (run_phase val_name s1) as [t2 [s2 | e2]]; cbn [snd] in *.
    + split; [discriminate|]. intros [He | [_ He]].
      * congruence.
      * apply Hval in He. discriminate.
    + rewrite Hval. split; [auto|]. intros [He | [_ He]]; [congruence | exact He].
  - rewrite Htrain. split; [auto|]. intros [He | [Hnone He]]; [exact He|].
    specialize (proj1 (Htrain e1) eq_refl). congruence.
Qed.

Lemma state_after_raises_iff (m : net) (o : optim) (num_epochs : Z) (k : nat)
    (e : exn) :
  snd (state_after m o num_epochs k) = Raise e <-> first_error k e.
Proof.
  revert e. induction k as [|k IH]; intros e.
  - cbn. split; [discriminate|]. intros (i & Hi & _). lia.
  - rewrite state_after_S.
    destruct (state_after m o num_epochs k) as [t1 [s | e1]] eqn:Hk.
    + (* the first [k] epochs return: the error is in epoch [k] *)
      rewrite wbind_return. cbn [snd].
      destruct (state_after_passes m o num_epochs k t1 s Hk) as (Hp & _).
      assert (Hnone : forall j, (j < 2 * k)%nat -> schedule_error j = None).
      { apply schedule_error_ready.
        apply (state_after_returns_iff m o num_epochs k). eauto. }
      rewrite run_epoch_raises_iff, Hp. split.
      * intros [He | [Hnone' He]].
        -- exists (2 * k)%nat. split; [lia|]. unfold schedule_error.
           rewrite Nat.even_even. auto.
        -- exists (2 * k + 1)%nat. split; [lia|]. unfold schedule_error.
           rewrite Nat.even_odd. replace (2 * k + 1)%nat with (S (2 * k)) by lia.
           split; [exact He|]. intros j Hj.
           destruct (decide (j = 2 * k)%nat) as [-> | Hne].
           ++ fold (schedule_error (2 * k)). unfold schedule_error.
              rewrite Nat.even_even. exact Hnone'.
           ++ apply Hnone. lia.
      * intros (i & Hi & He & Hfirst).
        destruct (decide (i < 2 * k)%nat) as [Hlt | Hge].
        { rewrite (Hnone i Hlt) in He. discriminate. }
        destruct (decide (i = 2 * k)%nat) as [-> | Hne].
        -- left. unfold schedule_error in He. rewrite Nat.even_even in He. exact He.
        -- assert (i = 2 * k + 1)%nat as -> by lia. right.
           pose proof (Hfirst (2 * k)%nat ltac:(lia)) as Htrain.
           unfold schedule_error in He, Htrain.
           rewrite Nat.even_odd in He. rewrite Nat.even_even in Htrain.
           replace (S (2 * k)) with (2 * k + 1)%nat by lia. auto.
    + (* the first [k] epochs raise *)
      cbn [wbind snd] in *.
      destruct (proj1 (IH e1) eq_refl) as (i0 & Hi0 & He0 & Hfirst0).
      split.
      * intros [= <-]. exists i0. split; [lia | auto].
      * intros (i & Hi & He & Hfirst).
        destruct (Nat.lt_trichotomy i i0) as [Hlt | [-> | Hgt]].
        -- rewrite (Hfirst0 i Hlt) in He. discriminate.
        -- congruence.
        -- rewrite (Hfirst i0 Hgt) in He0. discriminate.
Qed.

End Matched.

(** X1: if [train_model] returns, every traversal it made had data: for
    each epoch [k], the loader of [train_name] is in the dictionary with a
    non-empty dataset and a batch on traversal [2k], and the loader of
    [val_name] likewise on traversal [2k + 1].  With a model that returns
    what the loop unpacks (auxiliary outputs exactly in training mode with
    [is_inception] set) the converse holds too: [train_model] returns
    exactly when every traversal has data. *)
Theorem train_model_returns_iff (m : net) (o : optim) (num_epochs : Z) :
  ((exists t r, train_model m o num_epochs = (t, Return r)) ->
   forall k, (k < Z.to_nat num_epochs)%nat ->
     traversal_ready train_name (2 * k)
     /\ traversal_ready val_name (2 * k + 1))
  /\ (outputs_match ->
      ((exists t r, train_model m o num_epochs = (t, Return r))
       <-> forall k, (k < Z.to_nat num_epochs)%nat ->
             traversal_ready train_name (2 * k)
             /\ traversal_ready val_name (2 * k + 1))).
Proof.
  assert (Hnec : (exists t r, train_model m o num_epochs = (t, Return r)) ->
                 forall k, (k < Z.to_nat num_epochs)%nat ->
                   traversal_ready train_name (2 * k)
                   /\ traversal_ready val_name (2 * k + 1)).
  { rewrite train_model_unfold.
    destruct (state_after m o num_epochs (Z.to_nat num_epochs)) as [t [s | e]]
      eqn:Hrun; [|intros (t0 & r & H); discriminate].
    intros _. eapply state_after_ready, Hrun. }
  split; [exact Hnec|]. intros Hmatch. split; [exact Hnec|].
  intros Hall.
  apply (state_after_returns_iff Hmatch m o num_epochs) in Hall.
  destruct Hall as (t & s & Hrun). rewrite train_model_unfold, Hrun. eauto.
Qed.

(** X2: with a model that returns what the loop unpacks, [train_model]
    raises [e] exactly when [e] is the error of the first of its
    traversals that lacks data, traversal [2k] being made by the training
    phase of epoch [k] and traversal [2k + 1] by its validation phase:
    [KeyError] when the loader is not in the dictionary, [ValueError] when
    the length of its dataset is negative, [ZeroDivisionError] when the
    dataset is empty, [AttributeError] when the traversal yields no
    batch. *)
Theorem train_model_raises_iff (m : net) (o : optim) (num_epochs : Z) (e : exn) :
  outputs_match ->
  snd (train_model m o num_epochs) = Raise e
  <-> first_error (Z.to_nat num_epochs) e.
Proof.
  intros Hmatch.
  rewrite <- (state_after_raises_iff Hmatch m o num_epochs), train_model_unfold.
  destruct (state_after m o num_epochs (Z.to_nat num_epochs)) as [t [s | e1]];
    cbn [snd]; [split; discriminate | split; intros [= <-]; reflexivity].
Qed.

Lemma run_batch_no_load (phase : string) (b : inputs * labels)
    (acc : state * float * count) :
  Forall (fun e => is_load e = false) (fst (run_batch phase b acc)).
Proof.
  destruct acc as [[s rl] rc]. rewrite run_batch_spec. cbn zeta.
  destruct (Bool.eqb _ _), (String.eqb phase train_name); repeat constructor.
Qed.

Lemma run_phase_no_load (phase : string) (s : state) :
  Forall (fun e => is_load e = false) (fst (run_phase phase s)).
Proof.
  rewrite run_phase_unfold. cbn zeta.
  assert (Hmode : is_load (if String.eqb phase train_name
                           then ModelTrain else ModelEval) = false).
  { destruct (String.eqb phase train_name); reflexivity. }
  destruct (dataloaders !! phase) as [ld|]; [|repeat constructor; exact Hmode].
  pose proof (for_each_trace (fun e => is_load e = false) (batches ld (passes s))
                (run_batch phase)
                (enter_phase (String.eqb phase train_name) s, 0%float, PyInt 0)
                (run_batch_no_load phase)) as Hevs.
  destruct (for_each _ _ _) as [evs [[[s1 rl] rc] | e]]; cbn [fst] in *.
  - destruct (dataset_len ld <? 0); [constructor; assumption|].
    destruct (dataset_len ld =? 0); [constructor; assumption|].
    destruct rc; cbn [fst]; constructor; try assumption.
    apply Forall_app. split; [assumption | repeat constructor].
  - constructor; assumption.
Qed.

Lemma run_epoch_no_load (num_epochs : Z) (epoch : nat) (s : state) :
  Forall (fun e => is_load e = false) (fst (run_epoch num_epochs epoch s)).
Proof.
  rewrite run_epoch_unfold. cbn zeta.
  pose proof (run_phase_no_load train_name s) as H1.
  destruct (run_phase train_name s) as [t1 [s1 | e]]; cbn [fst] in *.
  - pose proof (run_phase_no_load val_name s1) as H2.
    destruct (run_phase val_name s1) as [t2 [s2 | e]]; cbn [fst] in *;
      repeat constructor; rewrite ?Forall_app; repeat split; auto.
  - repeat constructor. exact H1.
Qed.

(** X3: [train_model] loads a state dict once, as its last action, when it
    returns, and the weights loaded are those of the model returned; when
    it raises it has loaded none: the model keeps the weights training had
    reached. *)
Theorem train_model_loads_once (m : net) (o : optim) (num_epochs : Z) :
  match train_model m o num_epochs with
  | (t, Return (mdl, _)) =>
      exists t0, t = t0 ++ [LoadStateDict (wts mdl)]
                 /\ Forall (fun e => is_load e = false) t0
  | (t, Raise _) => Forall (fun e => is_load e = false) t
  end.
Proof.
  rewrite train_model_unfold.
  pose proof (for_each_trace (fun e => is_load e = false)
                (seq 0 (Z.to_nat num_epochs)) (run_epoch num_epochs)
                (init_state m o) (run_epoch_no_load num_epochs)) as Hepochs.
  change (Forall (fun e => is_load e = false)
            (fst (state_after m o num_epochs (Z.to_nat num_epochs)))) in Hepochs.
  destruct (state_after m o num_epochs (Z.to_nat num_epochs)) as [t [s | e]];
    cbn [fst] in Hepochs; [|exact Hepochs].
  exists (t ++ [Print MsgComplete; Print (MsgBest (best_acc s))]).
  split.
  - rewrite <- app_assoc. reflexivity.
  - apply Forall_app. split; [exact Hepochs | repeat constructor].
Qed.

Lemma count_events_app (f : event -> bool) (t1 t2 : list event) :
  count_events f (t1 ++ t2) = (count_events f t1 + count_events f t2)%nat.
Proof. unfold count_events. rewrite List.filter_app, length_app. reflexivity. Qed.

(** Every batch clears the gradients once; a batch of the training phase
    runs one backward pass and one optimizer step, any other batch none. *)
Lemma batches_count (phase : string) (bs : list (inputs * labels))
    (acc acc' : state * float * count) (evs : list event) :
  for_each bs (run_batch phase) acc = (evs, Return acc') ->
  count_events is_zero_grad evs = length bs
  /\ count_events is_backward evs
     = (if String.eqb phase train_name then length bs else 0%nat)
  /\ count_events is_step evs
     = (if String.eqb phase train_name then length bs else 0%nat).
Proof.
  revert acc evs. induction bs as [|b bs IH]; intros [[s rl] rc] evs Heq.
  - cbn in Heq. injection Heq as <- _.
    destruct (String.eqb phase train_name); repeat split.
  - apply for_each_cons_inv in Heq.
    destruct Heq as (t1 & acc1 & t2 & Hbatch & Hrest & ->).
    apply run_batch_inv in Hbatch. cbn zeta in Hbatch.
    destruct Hbatch as (_ & -> & _).
    apply IH in Hrest. destruct Hrest as (Hz & Hb & Hs).
    unfold count_events in *. rewrite !List.filter_app, !length_app.
    destruct (String.eqb phase train_name); cbn; repeat split; lia.
Qed.

Lemma run_phase_count (phase : string) (s s' : state) (t : list event)
    (ld : loader) :
  dataloaders !! phase = Some ld ->
  run_phase phase s = (t, Return s') ->
  count_events is_zero_grad t = length (batches ld (passes s))
  /\ count_events is_backward t
     = (if String.eqb phase train_name
        then length (batches ld (passes s)) else 0%nat)
  /\ count_events is_step t
     = (if String.eqb phase train_name
        then length (batches ld (passes s)) else 0%nat).
Proof.
  intros Hld Hrun. apply run_phase_inv in Hrun. cbn zeta in Hrun.
  destruct Hrun as (ld' & evs & s1 & rl & n & Hld' & _ & _ & Hloop & -> & _).
  rewrite Hld in Hld'. injection Hld' as <-.
  apply batches_count in Hloop. destruct Hloop as (Hz & Hb & Hs).
  change (?e :: ?l ++ ?l') with ([e] ++ l ++ l').
  rewrite !count_events_app, Hz, Hb, Hs.
  destruct (String.eqb phase train_name); cbn; repeat split; lia.
Qed.

Lemma run_epoch_count (num_epochs : Z) (epoch : nat) (s s' : state)
    (t : list event) (tld vld : loader) :
  train_name <> val_name ->
  dataloaders !! train_name = Some tld ->
  dataloaders !! val_name = Some vld ->
  run_epoch num_epochs epoch s = (t, Return s') ->
  count_events is_zero_grad t
  = (length (batches tld (passes s)) + length (batches vld (S (passes s))))%nat
  /\ count_events is_backward t = length (batches tld (passes s))
  /\ count_events is_step t = length (batches tld (passes s)).
Proof.
  intros Hne Htld Hvld. rewrite run_epoch_unfold. cbn zeta.
  destruct (run_phase train_name s) as [t1 [s1 | e]] eqn:Htrain; [|discriminate].
  destruct (run_phase val_name s1) as [t2 [s2 | e]] eqn:Hval; [|discriminate].
  intros [= <- <-].
  destruct (run_phase_after _ _ _ _ Htrain) as (Hp & _).
  destruct (run_phase_count _ _ _ _ _ Htld Htrain) as (Hz1 & Hb1 & Hs1).
  destruct (run_phase_count _ _ _ _ _ Hvld Hval) as (Hz2 & Hb2 & Hs2).
  rewrite String.eqb_refl in Hb1, Hs1.
  assert (Hvt : String.eqb val_name train_name = false).
  { apply String.eqb_neq. congruence. }
  rewrite Hvt in Hb2, Hs2. rewrite Hp in Hz2.
  unfold count_events in *. cbn.
  rewrite !List.filter_app, !length_app. cbn. repeat split; lia.
Qed.

Lemma batches_of_S (ld : loader) (first k : nat) :
  batches_of ld first (S k)
  = (batches_of ld first k + length (batches ld (2 * k + first)))%nat.
Proof.
  unfold batches_of. rewrite seq_S, sum_list_with_app. cbn [sum_list_with].
  change (0 + k)%nat with k. lia.
Qed.

Lemma state_after_count (m : net) (o : optim) (num_epochs : Z) (k : nat)
    (t : list event) (s : state) (tld vld : loader) :
  train_name <> val_name ->
  dataloaders !! train_name = Some tld ->
  dataloaders !! val_name = Some vld ->
  state_after m o num_epochs k = (t, Return s) ->
  count_events is_zero_grad t = (batches_of tld 0 k + batches_of vld 1 k)%nat
  /\ count_events is_backward t = batches_of tld 0 k
  /\ count_events is_step t = batches_of tld 0 k.
Proof.
  intros Hne Htld Hvld. revert t s. induction k as [|k IH]; intros t s Hrun.
  - cbn in Hrun. injection Hrun as <- <-. repeat split.
  - apply state_after_S_inv in Hrun.
    destruct Hrun as (t1 & s1 & t2 & Hk & Hepoch & ->).
    destruct (IH t1 s1 Hk) as (Hz & Hb & Hs).
    destruct (state_after_passes m o num_epochs k t1 s1 Hk) as (Hp & _).
    destruct (run_epoch_count _ _ _ _ _ _ _ Hne Htld Hvld Hepoch) as (Hz' & Hb' & Hs').
    rewrite Hp in Hz', Hb', Hs'.
    rewrite !batches_of_S, !count_events_app, Hz, Hb, Hs, Hz', Hb', Hs'.
    replace (2 * k + 0)%nat with (2 * k)%nat by lia.
    replace (2 * k + 1)%nat with (S (2 * k)) by lia.
    repeat split; lia.
Qed.

(** X4: when the two phase names differ and [train_model] returns, it has
    cleared the gradients once per batch of every traversal, training and
    validation, and has run one backward pass and one optimizer step per
    batch of the training traversals and no other. *)
Theorem train_model_step_count (m : net) (o : optim) (num_epochs : Z)
    (t : list event) (r : net * list float) (tld vld : loader) :
  train_name <> val_name ->
  dataloaders !! train_name = Some tld ->
  dataloaders !! val_name = Some vld ->
  train_model m o num_epochs = (t, Return r) ->
  count_events is_zero_grad t
  = (batches_of tld 0 (Z.to_nat num_epochs)
     + batches_of vld 1 (Z.to_nat num_epochs))%nat
  /\ count_events is_backward t = batches_of tld 0 (Z.to_nat num_epochs)
  /\ count_events is_step t = batches_of tld 0 (Z.to_nat num_epochs).
Proof.
  intros Hne Htld Hvld. rewrite train_model_unfold.
  destruct (state_after m o num_epochs (Z.to_nat num_epochs)) as [t0 [s | e]]
    eqn:Hrun; [|discriminate].
  intros [= <- _].
  destruct (state_after_count _ _ _ _ _ _ _ _ Hne Htld Hvld Hrun) as (Hz & Hb & Hs).
  rewrite !count_events_app, Hz, Hb, Hs. cbn. repeat split; lia.
Qed.

(** X5: when the two phase names differ and the best accuracy exceeds 0.0,
    the best weights are the weights the model had at the end of the first
    epoch that recorded the best accuracy: a later epoch that only equals
    it does not replace them. *)
Theorem best_weights_earliest (m : net) (o : optim) (num_epochs : Z) (k : nat)
    (t : list event) (s : state) :
  train_name <> val_name ->
  state_after m o num_epochs k = (t, Return s) ->
  fgt (best_acc s) 0%float = true ->
  exists j t_j s_j,
    (j < k)%nat
    /\ state_after m o num_epochs (S j) = (t_j, Return s_j)
    /\ val_acc_history s !! j = Some (best_acc s)
    /\ best_model_wts s = wts (model s_j)
    /\ forall i a, (i < j)%nat -> val_acc_history s !! i = Some a ->
                   a <> best_acc s /\ fgt a (best_acc s) = false.
Proof.
  intros Hne Hrun Hpos.
  enough (Hinv : length (val_acc_history s) = k
                 /\ Forall (fun a => fgt a (best_acc s) = false) (val_acc_history s)
                 /\ (best_acc s = 0%float
                     \/ exists j t_j s_j,
                          (j < k)%nat
                          /\ state_after m o num_epochs (S j) = (t_j, Return s_j)
                          /\ val_acc_history s !! j = Some (best_acc s)
                          /\ best_model_wts s = wts (model s_j)
                          /\ forall i a, (i < j)%nat ->
                               val_acc_history s !! i = Some a ->
                               a <> best_acc s /\ fgt a (best_acc s) = false)).
  { destruct Hinv as (_ & _ & [H0 | Hex]); [|exact Hex].
    rewrite H0, fgt_irrefl in Hpos. discriminate. }
  clear Hpos. revert t s Hrun. induction k as [|k IH]; intros t s Hrun.
  - cbn in Hrun. injection Hrun as <- <-.
    split; [reflexivity|]. split; [constructor | left; reflexivity].
  - pose proof Hrun as Hfull.
    apply state_after_S_inv in Hrun.
    destruct Hrun as (t1 & s1 & t2 & Hk & Hepoch & ->).
    destruct (IH t1 s1 Hk) as (Hlen & Hub & Hfirst).
    apply run_epoch_inv in Hepoch; [|exact Hne].
    destruct Hepoch as (ld & _ & _ & Hhist & Hbest & _ & _).
    set (acc := val_accuracy (wts (model s)) ld (S (passes s1))) in *.
    split; [rewrite Hhist, length_app; cbn; lia|].
    destruct (fgt acc (best_acc s1)) eqn:Hgt; injection Hbest as Hbw Hba.
    + (* epoch [k] sets the best pair *)
      assert (Hbelow : forall a, a ∈ val_acc_history s1 ->
                         a <> acc /\ fgt a acc = false).
      { rewrite Forall_forall in Hub. intros a Ha. specialize (Hub a Ha).
        cbn beta in Hub. split.
        - intros ->. congruence.
        - destruct (fgt a acc) eqn:Haa; [|reflexivity].
          rewrite (fgt_trans _ _ _ Haa Hgt) in Hub. discriminate. }
      rewrite Hhist, Hba. split.
      * apply Forall_app. split.
        -- apply Forall_forall. intros a Ha. apply Hbelow, Ha.
        -- constructor; [apply fgt_irrefl | constructor].
      * right. exists k, (t1 ++ t2), s.
        split; [lia|]. split; [exact Hfull|].
        split; [apply list_lookup_middle; symmetry; exact Hlen|].
        split; [exact Hbw|].
        intros i a Hi Hlook. rewrite lookup_app_l in Hlook by lia.
        apply Hbelow. eapply list_elem_of_lookup_2, Hlook.
    + (* the best pair stays *)
      rewrite Hhist, Hba, Hbw. split.
      * apply Forall_app. split; [exact Hub|].
        constructor; [exact Hgt | constructor].
      * destruct Hfirst as [H0 | (j & tj & sj & Hj & Hrunj & Hlook & Hwj & Hmin)];
          [left; exact H0|].
        right. exists j, tj, sj. split; [lia|]. split; [exact Hrunj|].
        split; [apply lookup_app_l_Some; exact Hlook|]. split; [exact Hwj|].
        intros i a Hi Hla. rewrite lookup_app_l in Hla by lia.
        exact (Hmin i a Hi Hla).
Qed.

(** A phase extends the recorded accuracies and keeps the best pair or
    replaces it by one of a greater accuracy. *)
Lemma run_phase_grows (phase : string) (s s' : state) (t : list event) :
  run_phase phase s = (t, Return s') ->
  val_acc_history s `prefix_of` val_acc_history s'
  /\ ((best_acc s' = best_acc s /\ best_model_wts s' = best_model_wts s)
      \/ fgt (best_acc s') (best_acc s) = true).
Proof.
  intros Hrun. apply run_phase_record in Hrun.
  destruct Hrun as (acc & l & s1 & evs & -> & Hbk & _ & _).
  unfold bookkeeping in Hbk. injection Hbk as _ Hh Hbw Hba _.
  unfold record_accuracy.
  destruct (String.eqb phase val_name); cbn [andb].
  - destruct (fgt acc (best_acc s1)) eqn:Hgt; cbn; rewrite ?Hh, ?Hbw, ?Hba in *.
    + split; [apply prefix_app_r; reflexivity | right; exact Hgt].
    + split; [apply prefix_app_r; reflexivity | left; split; reflexivity].
  - rewrite Hh, Hbw, Hba. split; [reflexivity | left; split; reflexivity].
Qed.

Lemma grows_trans (h1 h2 h3 : list float) (a1 a2 a3 : float) (w1 w2 w3 : weights) :
  h1 `prefix_of` h2 /\ ((a2 = a1 /\ w2 = w1) \/ fgt a2 a1 = true) ->
  h2 `prefix_of` h3 /\ ((a3 = a2 /\ w3 = w2) \/ fgt a3 a2 = true) ->
  h1 `prefix_of` h3 /\ ((a3 = a1 /\ w3 = w1) \/ fgt a3 a1 = true).
Proof.
  intros (Hp1 & Hb1) (Hp2 & Hb2). split; [etrans; eassumption|].
  destruct Hb1 as [[-> ->] | Hgt1], Hb2 as [[-> ->] | Hgt2]; auto.
  right. exact (fgt_trans _ _ _ Hgt2 Hgt1).
Qed.

Lemma run_epoch_grows (num_epochs : Z) (epoch : nat) (s s' : state)
    (t : list event) :
  run_epoch num_epochs epoch s = (t, Return s') ->
  val_acc_history s `prefix_of` val_acc_history s'
  /\ ((best_acc s' = best_acc s /\ best_model_wts s' = best_model_wts s)
      \/ fgt (best_acc s') (best_acc s) = true).
Proof.
  rewrite run_epoch_unfold. cbn zeta.
  destruct (run_phase train_name s) as [t1 [s1 | e]] eqn:Htrain; [|discriminate].
  destruct (run_phase val_name s1) as [t2 [s2 | e]] eqn:Hval; [|discriminate].
  intros [= <- <-].
  eapply grows_trans; eapply run_phase_grows; eassumption.
Qed.

(** X6: whatever the phase names, from the end of an epoch to the end of a
    later one the recorded accuracies are only extended, and the best pair
    either stays as it is, weights included, or is replaced by a pair of a
    strictly greater accuracy: the best accuracy never decreases. *)
Theorem best_never_decreases (m : net) (o : optim) (num_epochs : Z) (j k : nat)
    (t_j t_k : list event) (s_j s_k : state) :
  (j <= k)%nat ->
  state_after m o num_epochs j = (t_j, Return s_j) ->
  state_after m o num_epochs k = (t_k, Return s_k) ->
  val_acc_history s_j `prefix_of` val_acc_history s_k
  /\ ((best_acc s_k = best_acc s_j /\ best_model_wts s_k = best_model_wts s_j)
      \/ fgt (best_acc s_k) (best_acc s_j) = true).
Proof.
  intros Hle Hj. revert t_k s_k. induction Hle as [|k Hle IH]; intros t_k s_k Hk.
  - rewrite Hj in Hk. injection Hk as _ <-.
    split; [reflexivity | left; split; reflexivity].
  - apply state_after_S_inv in Hk.
    destruct Hk as (t1 & s1 & t2 & Hk & Hepoch & _).
    eapply grows_trans; [exact (IH t1 s1 Hk)|].
    eapply run_epoch_grows. exact Hepoch.
Qed.

(** X7: the model [train_model] returns is in the mode of the last phase
    run: evaluation mode after at least one epoch when the two phase names
    differ (training mode when they are equal), and the mode it came with
    when no epoch ran. *)
Theorem train_model_leaves_mode (m : net) (o : optim) (num_epochs : Z)
    (t : list event) (mdl : net) (hist : list float) :
  train_model m o num_epochs = (t, Return (mdl, hist)) ->
  training mdl
  = if decide (0 < num_epochs)
    then negb (bool_decide (train_name <> val_name))
    else training m.
Proof.
  rewrite train_model_unfold.
  destruct (state_after m o num_epochs (Z.to_nat num_epochs)) as [t0 [s | e]]
    eqn:Hrun; [|discriminate].
  intros [= _ <- _]. cbn.
  destruct (state_after_passes m o num_epochs _ t0 s Hrun) as (_ & ->).
  destruct (decide (0 < num_epochs)) as [Hpos | Hneg].
  - destruct (Z.to_nat num_epochs) eqn:Hn; [lia|].
    case_bool_decide as Hne; cbn.
    + apply String.eqb_neq. congruence.
    + apply String.eqb_eq. destruct (decide (train_name = val_name)); congruence.
  - replace (Z.to_nat num_epochs) with 0%nat by lia. reflexivity.
Qed.

(** X13: with [num_epochs] zero or negative no epoch runs and no loader
    is looked up: [train_model] prints the two closing lines with a best
    accuracy of 0.0, loads the weights the model came with and returns the
    model as it was, with an empty history. *)
Theorem train_model_no_epochs (m : net) (o : optim) (num_epochs : Z) :
  num_epochs <= 0 ->
  train_model m o num_epochs
  = ([Print MsgComplete; Print (MsgBest 0%float); LoadStateDict (wts m)],
     Return (m, [])).
Proof.
  intros Hle. rewrite train_model_unfold.
  replace (Z.to_nat num_epochs) with 0%nat by lia.
  destruct m. reflexivity.
Qed.

(** *** What the training depends on *)

(** A training batch reads the gradients of the model only after clearing
    them. *)
Lemma train_batch_grad_blind (m1 m2 : net) (o : optim) (rl : float) (n : Z)
    (b : inputs * labels) :
  wts m1 = wts m2 -> training m1 = training m2 ->
  zero_grad (grad m1) = zero_grad (grad m2) ->
  train_batch (m1, o, rl, n) b = train_batch (m2, o, rl, n) b.
Proof.
  destruct m1 as [w1 g1 mode1], m2 as [w2 g2 mode2]. cbn.
  intros -> -> Hg. unfold train_batch, combined_loss, final_loss. cbn.
  rewrite Hg. destruct is_inception; reflexivity.
Qed.

Lemma train_pass_grad_blind (m1 m2 : net) (o : optim) (bs : list (inputs * labels)) :
  bs <> [] ->
  wts m1 = wts m2 -> training m1 = training m2 ->
  zero_grad (grad m1) = zero_grad (grad m2) ->
  train_pass m1 o bs = train_pass m2 o bs.
Proof.
  intros Hbs Hw Hm Hg. destruct bs as [|b bs]; [contradiction|].
  unfold train_pass. cbn [fold_left].
  rewrite (train_batch_grad_blind m1 m2 o _ _ b Hw Hm Hg). reflexivity.
Qed.

(** The training phase leaves the model and the optimizer state that
    [train_pass] computes from the traversal of the training loader. *)
Lemma run_phase_train_state (s s' : state) (t : list event) :
  run_phase train_name s = (t, Return s') ->
  exists ld,
    dataloaders !! train_name = Some ld
    /\ batches ld (passes s) <> []
    /\ passes s' = S (passes s)
    /\ (model s', optimizer s')
       = fst (fst (train_pass (Net (wts (model s)) (grad (model s)) true)
                              (optimizer s) (batches ld (passes s)))).
Proof.
  intros Hrun. destruct (run_phase_after _ _ _ _ Hrun) as (Hp & _).
  apply run_phase_inv in Hrun. cbn zeta in Hrun.
  rewrite String.eqb_refl in Hrun.
  destruct Hrun as (ld & evs & s1 & rl & n & Hld & _ & Hbs & Hloop & _ & ->).
  apply batches_train in Hloop. cbn in Hloop.
  exists ld. split; [exact Hld|]. split; [exact Hbs|]. split; [exact Hp|].
  destruct (record_accuracy_frame train_name (Z2f n / Z2f (dataset_len ld))%float s1)
    as (-> & -> & _).
  unfold train_pass. rewrite <- Hloop. reflexivity.
Qed.

(** Outside the training phase a batch only clears the gradients. *)
Lemma batches_eval_grad (phase : string) (bs : list (inputs * labels))
    (s s' : state) (rl rl' : float) (rc rc' : count) (evs : list event) :
  (forall g, zero_grad (zero_grad g) = zero_grad g) ->
  String.eqb phase train_name = false ->
  for_each bs (run_batch phase) (s, rl, rc) = (evs, Return (s', rl', rc')) ->
  zero_grad (grad (model s')) = zero_grad (grad (model s)).
Proof.
  intros Hzero Hphase. revert s rl rc evs.
  induction bs as [|b bs IH]; intros s rl rc evs Heq.
  - cbn in Heq. injection Heq as _ <- _ _. reflexivity.
  - apply for_each_cons_inv in Heq.
    destruct Heq as (t1 & acc1 & t2 & Hb & Hrest & _).
    apply run_batch_inv in Hb. cbn zeta in Hb. rewrite Hphase in Hb.
    destruct Hb as (_ & _ & ->).
    apply IH in Hrest. rewrite Hrest. cbn. apply Hzero.
Qed.

(** With two distinct phase names and a [zero_grad] that clears, an epoch
    that returns leaves the weights and the optimizer state of its training
    traversal, and gradients that are those of the traversal once
    cleared. *)
Lemma run_epoch_training (num_epochs : Z) (epoch : nat) (s s' : state)
    (t : list event) :
  (forall g, zero_grad (zero_grad g) = zero_grad g) ->
  train_name <> val_name ->
  run_epoch num_epochs epoch s = (t, Return s') ->
  exists ld,
    dataloaders !! train_name = Some ld
    /\ batches ld (passes s) <> []
    /\ same_training s'
         (let '(m', o', _, _) :=
            train_pass (Net (wts (model s)) (grad (model s)) true)
                       (optimizer s) (batches ld (passes s)) in
          State m' o' (S (S (passes s))) [] (wts m') 0%float).
Proof.
  intros Hzero Hne. rewrite run_epoch_unfold. cbn zeta.
  destruct (run_phase train_name s) as [t1 [s1 | e]] eqn:Htrain; [|discriminate].
  destruct (run_phase val_name s1) as [t2 [s2 | e]] eqn:Hval; [|discriminate].
  intros [= <- <-].
  assert (Hvt : String.eqb val_name train_name = false).
  { apply String.eqb_neq. congruence. }
  apply run_phase_train_state in Htrain.
  destruct Htrain as (ld & Hld & Hbs & Hp1 & Hstate).
  destruct (run_phase_after _ _ _ _ Hval) as (Hp2 & _).
  apply run_phase_inv in Hval. cbn zeta in Hval. rewrite Hvt in Hval.
  destruct Hval as (vld & evs & s0 & rl & n & _ & _ & _ & Hloop & _ & ->).
  pose proof (batches_eval_grad _ _ _ _ _ _ _ _ _ Hzero Hvt Hloop) as Hg.
  apply batches_eval in Hloop; [|exact Hvt|reflexivity].
  destruct Hloop as (_ & Hw & Ho & _). cbn in Hw, Ho, Hg.
  exists ld. split; [exact Hld|]. split; [exact Hbs|].
  destruct (train_pass _ _ _) as [[[m' o'] rl'] rc'].
  cbn in Hstate. injection Hstate as Hm1 Ho1.
  unfold same_training.
  destruct (record_accuracy_frame val_name (Z2f n / Z2f (dataset_len vld))%float s0)
    as (Hmodel & Hopt & _).
  rewrite Hmodel, Hopt, Hp2, Hp1, Hw, Ho, Hg, Hm1, Ho1. cbn. auto.
Qed.

End LoopFacts.

(** ** Two runs that share the training data *)

Section ValidationData.
Variables d1 d2 : gmap string loader.
Variable criterion : outputs -> labels -> loss.
Variable dev : device.
Variables train_name val_name : string.
Variable is_inception : bool.

(** X12: the validation data takes no part in the training.  With two
    distinct phase names and a [zero_grad] that clears (clearing twice is
    clearing once), two runs from the same model and optimizer over
    dictionaries with the same training loader reach, after any number of
    epochs both complete, the same weights and the same optimizer state,
    whatever their validation loaders hold. *)
Theorem validation_data_does_not_train (m : net) (o : optim) (num_epochs : Z)
    (k : nat) (t1 t2 : list event) (s1 s2 : state) :
  (forall g, zero_grad (zero_grad g) = zero_grad g) ->
  train_name <> val_name ->
  d1 !! train_name = d2 !! train_name ->
  state_after d1 criterion dev train_name val_name is_inception m o num_epochs k
  = (t1, Return s1) ->
  state_after d2 criterion dev train_name val_name is_inception m o num_epochs k
  = (t2, Return s2) ->
  wts (model s1) = wts (model s2) /\ optimizer s1 = optimizer s2.
Proof.
  intros Hzero Hne Hsame Hrun1 Hrun2.
  enough (Hst : same_training s1 s2) by (destruct Hst as (? & ? & _); auto).
  revert t1 t2 s1 s2 Hrun1 Hrun2.
  induction k as [|k IH]; intros t1 t2 s1 s2 Hrun1 Hrun2.
  - cbn in Hrun1, Hrun2. injection Hrun1 as _ <-. injection Hrun2 as _ <-.
    repeat split.
  - apply state_after_S_inv in Hrun1.
    destruct Hrun1 as (ta1 & sa1 & tb1 & Hk1 & Hepoch1 & _).
    apply state_after_S_inv in Hrun2.
    destruct Hrun2 as (ta2 & sa2 & tb2 & Hk2 & Hepoch2 & _).
    destruct (IH _ _ _ _ Hk1 Hk2) as (Hw & Ho & Hp & Hg).
    apply run_epoch_training in Hepoch1; [|exact Hzero|exact Hne].
    apply run_epoch_training in Hepoch2; [|exact Hzero|exact Hne].
    destruct Hepoch1 as (ld1 & Hld1 & Hbs1 & Hst1).
    destruct Hepoch2 as (ld2 & Hld2 & Hbs2 & Hst2).
    rewrite Hsame, Hld2 in Hld1. injection Hld1 as ->.
    rewrite Hp, Ho in Hst1.
    rewrite (train_pass_grad_blind criterion dev is_inception
               (Net (wts (model sa1)) (grad (model sa1)) true)
               (Net (wts (model sa2)) (grad (model sa2)) true)
               (optimizer sa2) (batches ld1 (passes sa2)) Hbs2 Hw eq_refl Hg)
      in Hst1.
    destruct (train_pass _ _ _) as [[[m' o'] rl'] rc'].
    destruct Hst1 as (Hw1 & Ho1 & Hp1 & Hg1), Hst2 as (Hw2 & Ho2 & Hp2 & Hg2).
    cbn in *. repeat split; congruence.
Qed.

End ValidationData.
End TrainFacts.

(** ** The properties on the small framework *)

Lemma small_zoo_ok : @zoo_ok SmallZoo.zoo.
Proof. intros [] [] g; reflexivity. Qed.

(** C2 on the small zoo: ["Resnet"] exits, ["resnet"] does not and, with
    two classes, returns. *)
Lemma initialize_model_exit_witness :
  @zoo_ok SmallZoo.zoo
  /\ ("Resnet" ∉ model_names)
  /\ @initialize_model SmallZoo.zoo "Resnet" 2 true true 0
     = ([invalid_model_name], Raise SystemExit, 0)
  /\ ("resnet" ∈ model_names)
  /\ 0 <= 2
  /\ fst (fst (@initialize_model SmallZoo.zoo "resnet" 2 true true 0)) = []
  /\ snd (fst (@initialize_model SmallZoo.zoo "resnet" 2 true true 0))
     <> Raise SystemExit
  /\ @exits_on_unknown SmallZoo.zoo "resnet" 2 true true 0.
Proof.
  assert (Hout : "Resnet" ∉ model_names).
  { unfold model_names. rewrite !not_elem_of_cons.
    repeat split; try discriminate. apply not_elem_of_nil. }
  assert (Hin : "resnet" ∈ model_names) by apply list_elem_of_here.
  assert (Hnc : 0 <= 2) by lia.
  split; [exact small_zoo_ok|]. split; [exact Hout|].
  split;
    [exact (proj1 (@initialize_model_exit SmallZoo.zoo small_zoo_ok
                     "Resnet" 2 true true 0) Hout)|].
  split; [exact Hin|]. split; [exact Hnc|].
  pose proof (@initialize_model_exit SmallZoo.zoo small_zoo_ok "resnet" 2 true true 0)
    as (_ & Hquiet & Hcheck).
  destruct (Hquiet Hin) as (Hprint & Hnoexit).
  split; [exact Hprint|]. split; [exact Hnoexit | exact (Hcheck Hnc)].
Defined.

Example initialize_model_exits_on_Resnet :
  @initialize_model SmallZoo.zoo "Resnet" 2 true true 0
  = (["Invalid model name, exiting..."], Raise SystemExit, 0).
Proof. reflexivity. Qed.

(** C2 as stated fails: for a recognised name and a negative
    [num_classes] the call does not return, the constructor of the new
    head raising [RuntimeError]. *)
Lemma initialize_model_exit_counterexample :
  ~ @exits_on_unknown SmallZoo.zoo "resnet" (-1) true true 0.
Proof.
  intros [_ H]. destruct H as (m & input_size & Heq); [apply list_elem_of_here|].
  vm_compute in Heq. discriminate.
Qed.

Example initialize_model_negative_classes :
  @initialize_model SmallZoo.zoo "resnet" (-1) true true 0
  = ([], Raise RuntimeError, 10)
  /\ @initialize_model SmallZoo.zoo "squeezenet" (-1) true true 0
     = ([], Raise RuntimeError, 10).
Proof. split; reflexivity. Qed.

(** C3 on the small zoo: Inception, two classes. *)
Lemma initialize_model_replaces_head_witness :
  @zoo_ok SmallZoo.zoo
  /\ @backbone_of "inception" = Some inception_v3
  /\ 0 <= 2
  /\ @replaces_head SmallZoo.zoo "inception" inception_v3 2 false true 0.
Proof.
  split; [exact small_zoo_ok|]. split; [reflexivity|]. split; [lia|].
  exact (@initialize_model_replaces_head SmallZoo.zoo small_zoo_ok
           "inception" inception_v3 2 false true 0 eq_refl ltac:(lia)).
Defined.

(** C3 as stated fails: with [num_classes] negative no model is returned,
    the constructor of the new head raising [RuntimeError]. *)
Lemma initialize_model_replaces_head_counterexample :
  ~ @replaces_head SmallZoo.zoo "resnet" resnet18 (-1) false true 0.
Proof.
  intros (m & g' & Heq & _). vm_compute in Heq. discriminate.
Qed.

(** C5 on the small zoo: SqueezeNet, two classes. *)
Lemma initialize_model_freezes_witness :
  @backbone_of "squeezenet" = Some squeezenet1_0
  /\ @freezes_backbone SmallZoo.zoo "squeezenet" squeezenet1_0 2 true 0.
Proof.
  split; [reflexivity|].
  exact (@initialize_model_freezes SmallZoo.zoo
           "squeezenet" squeezenet1_0 2 true 0 eq_refl).
Defined.

Example initialize_model_squeezenet_frozen :
  exists m,
    @initialize_model SmallZoo.zoo "squeezenet" 2 true true 0
    = ([], Return (m, 224), 12)
    /\ modules m !! "classifier.1"
       = Some (Layer (Conv2d 512 2 (1, 1) (1, 1)) [Param 10 true; Param 11 true])
    /\ modules m !! "features.0"
       = Some (Layer (Other "features") [Param 7 false; Param 8 false])
    /\ attrs m !! "num_classes" = Some 2.
Proof. eexists. split; [reflexivity|]. repeat split. Qed.

(** C7 on the small zoo: ResNet, two classes, frozen features. *)
Lemma initialize_model_use_pretrained_witness :
  @zoo_ok SmallZoo.zoo /\ @same_but_backbone SmallZoo.zoo "resnet" 2 true 0 5.
Proof.
  split; [exact small_zoo_ok|].
  exact (@initialize_model_use_pretrained SmallZoo.zoo small_zoo_ok "resnet" 2 true
           0 5).
Defined.

Example initialize_model_inception_heads :
  exists m,
    @initialize_model SmallZoo.zoo "inception" 2 true true 0
    = ([], Return (m, 299), 14)
    /\ kind <$> modules m !! "AuxLogits.fc" = Some (Linear 768 2)
    /\ kind <$> modules m !! "fc" = Some (Linear 2048 2)
    /\ params <$> modules m !! "AuxLogits.fc" = Some [Param 10 true; Param 11 true]
    /\ params <$> modules m !! "fc" = Some [Param 12 true; Param 13 true]
    /\ params <$> modules m !! "Conv2d_1a_3x3" = Some [Param 7 false; Param 8 false].
Proof. eexists. split; [reflexivity|]. repeat split. Qed.

(** X9 on the small zoo. *)
Lemma initialize_model_returns_iff_witness :
  backbone_of "resnet" = Some resnet18
  /\ fst (fst (@initialize_model SmallZoo.zoo "resnet" 2 true true 0)) = []
  /\ ((exists m, snd (fst (@initialize_model SmallZoo.zoo "resnet" 2 true true 0))
                 = Return (m, input_size_of resnet18))
      <-> head_ok resnet18 (@fetched SmallZoo.zoo resnet18 true 0) = true /\ 0 <= 2)
  /\ (forall e,
        snd (fst (@initialize_model SmallZoo.zoo "resnet" 2 true true 0)) = Raise e ->
        e = AttributeError \/ e = RuntimeError).
Proof.
  split; [reflexivity|].
  exact (@initialize_model_returns_iff SmallZoo.zoo "resnet" resnet18 2 true true 0
           eq_refl).
Defined.

(** X10 on the small zoo: SqueezeNet keeps its two paths. *)
Lemma initialize_model_keeps_paths_witness :
  exists t m input_size g',
    backbone_of "squeezenet" = Some squeezenet1_0
    /\ @initialize_model SmallZoo.zoo "squeezenet" 3 true false 0
       = (t, Return (m, input_size), g')
    /\ dom (modules m) = dom (modules (@fetched SmallZoo.zoo squeezenet1_0 false 0)).
Proof.
  eexists _, _, _, _.
  split; [reflexivity|]. split; [vm_compute; reflexivity|].
  refine (@initialize_model_keeps_paths SmallZoo.zoo "squeezenet"
            squeezenet1_0 3 true false 0 _ _ _ _ _ _);
    [reflexivity | vm_compute; reflexivity].
Defined.

(** X11 on the small zoo: the two Inception models. *)
Lemma initialize_model_feature_extract_witness :
  backbone_of "inception" = Some inception_v3
  /\ snd (@initialize_model SmallZoo.zoo "inception" 5 true true 0)
     = snd (@initialize_model SmallZoo.zoo "inception" 5 false true 0)
  /\ match snd (fst (@initialize_model SmallZoo.zoo "inception" 5 true true 0)),
           snd (fst (@initialize_model SmallZoo.zoo "inception" 5 false true 0)) with
     | Return (m1, size1), Return (m2, size2) =>
         size1 = size2
         /\ attrs m1 = attrs m2
         /\ (forall p, p ∈ head_paths inception_v3 ->
               modules m1 !! p = modules m2 !! p)
         /\ (forall p, p ∉ head_paths inception_v3 ->
               modules m1 !! p = freeze_layer <$> modules m2 !! p)
     | Raise e1, Raise e2 => e1 = e2
     | _, _ => False
     end.
Proof.
  split; [reflexivity|].
  exact (@initialize_model_feature_extract SmallZoo.zoo "inception" inception_v3
           5 true 0 eq_refl).
Defined.

Section CounterRuns.
Import Counter.

Lemma loaders_ok (phase : string) :
  phase = "train" \/ phase = "val" -> loader_ok loaders phase.
Proof.
  intros [-> | ->]; eexists; (split; [reflexivity|]); split;
    [reflexivity | discriminate | reflexivity | discriminate].
Qed.

(** The plain counter model returns its outputs alone, the Inception one
    the pair in training mode. *)
Lemma torch_outputs_match : @outputs_match torch false.
Proof. intros mode w x. reflexivity. Qed.

Lemma inception_outputs_match : @outputs_match inception true.
Proof. intros mode w x. reflexivity. Qed.

(** C4 on the counter model: two epochs over the two loaders. *)
Lemma train_model_runs_all_epochs_witness :
  (0 < 2 ->
   "train" <> "val" /\ loader_ok loaders "train" /\ loader_ok loaders "val"
   /\ @outputs_match torch false)
  /\ runs_all_epochs loaders criterion tt "train" "val" false net0 0 2.
Proof.
  assert (H : 0 < 2 ->
              "train" <> "val" /\ loader_ok loaders "train" /\ loader_ok loaders "val"
              /\ @outputs_match torch false).
  { intros _. split; [discriminate|]. split; [apply loaders_ok; auto|].
    split; [apply loaders_ok; auto | exact torch_outputs_match]. }
  split; [exact H|].
  exact (train_model_runs_all_epochs loaders criterion tt "train" "val" false net0 0 2 H).
Defined.

Example train_model_two_epochs :
  snd (train_model loaders criterion tt "train" "val" false net0 0 2)
  = Return (Net 1 0 false, [1%float; 0%float]).
Proof. vm_compute. reflexivity. Qed.

(** C4 as stated fails: with one name for both phases an epoch records two
    accuracies; with a validation loader that yields no batch, over an
    empty dataset, or missing, the first epoch raises; and so does the
    first batch when [is_inception] is set for a model that returns its
    final outputs alone. *)
Lemma train_model_runs_all_epochs_counterexample :
  ~ runs_all_epochs same_name_loaders criterion tt "val" "val" false net0 0 1
  /\ ~ runs_all_epochs no_batch_loaders criterion tt "train" "val" false net0 0 1
  /\ ~ runs_all_epochs empty_dataset_loaders criterion tt "train" "val" false net0 0 1
  /\ ~ runs_all_epochs no_val_loaders criterion tt "train" "val" false net0 0 1
  /\ ~ runs_all_epochs loaders criterion tt "train" "val" true net0 0 1.
Proof.
  repeat split; intros (t & mdl & hist & Hrun & Hlen & _);
    vm_compute in Hrun; try discriminate.
  injection Hrun as _ _ <-. discriminate.
Qed.

Example train_model_same_names :
  snd (train_model same_name_loaders criterion tt "val" "val" false net0 0 1)
  = Return (Net 1 1 true, [1%float; 0%float]).
Proof. vm_compute. reflexivity. Qed.

Example train_model_no_batch :
  snd (train_model no_batch_loaders criterion tt "train" "val" false net0 0 1)
  = Raise AttributeError.
Proof. vm_compute. reflexivity. Qed.

Example train_model_empty_dataset :
  snd (train_model empty_dataset_loaders criterion tt "train" "val" false net0 0 1)
  = Raise ZeroDivisionError.
Proof. vm_compute. reflexivity. Qed.

Example train_model_no_val_loader :
  snd (train_model no_val_loaders criterion tt "train" "val" false net0 0 1)
  = Raise KeyError.
Proof. vm_compute. reflexivity. Qed.

Example train_model_no_auxiliary_outputs :
  train_model loaders criterion tt "train" "val" true net0 0 1
  = ([Print (MsgEpoch 0 0); Print MsgRule; ModelTrain; ZeroGrad; SetGradEnabled true],
     Raise ValueError).
Proof. vm_compute. reflexivity. Qed.

Example train_model_unexpected_auxiliary_outputs :
  @train_model inception
    (<["train" := @Loader inception (fun _ => [(0, 0)]) 1]> ∅)
    criterion tt "train" "val" false (@Net inception 0 0 false) 0 1
  = ([Print (MsgEpoch 0 0); Print MsgRule; ModelTrain; ZeroGrad; SetGradEnabled true],
     Raise TypeError).
Proof. vm_compute. reflexivity. Qed.

Example train_model_negative_length :
  snd (train_model (<["train" := Loader (fun _ => [(0, 0)]) (-1)]> ∅)
         criterion tt "train" "val" false net0 0 1)
  = Raise ValueError.
Proof. vm_compute. reflexivity. Qed.

(** C1 on the counter model: two epochs over the two loaders. *)
Lemma best_weights_invariant_witness :
  "train" <> "val" /\ best_invariant loaders criterion tt "train" "val" false net0 0 2.
Proof.
  split; [discriminate|].
  apply (best_weights_invariant loaders criterion tt "train" "val" false net0 0 2).
  discriminate.
Defined.

Example best_weights_after_two_epochs :
  exists t s,
    state_after loaders criterion tt "train" "val" false net0 0 2 2 = (t, Return s)
    /\ val_acc_history s = [1%float; 0%float]
    /\ best_acc s = 1%float
    /\ best_model_wts s = 1
    /\ weights_after loaders criterion tt "train" "val" false net0 0 2 1 = 1
    /\ wts (model s) = 2.
Proof. eexists _, _. split; [vm_compute; reflexivity|]. repeat split. Qed.

(** C1 as stated fails: with one name for both phases, the first traversal
    of epoch 0 is recorded as a validation pass with accuracy 1.0 and its
    weights, 1, become the best weights; the second traversal trains on, so
    the epoch ends with weights 2: the best weights are neither the initial
    weights, 0, nor the weights at the end of an epoch. *)
Lemma best_weights_invariant_counterexample :
  ~ best_invariant same_name_loaders criterion tt "val" "val" false net0 0 1.
Proof.
  intros H.
  edestruct (H 1%nat) as (_ & _ & Hsnap & _); [vm_compute; reflexivity|].
  destruct Hsnap as [(_ & Hw & _) | (j & tj & sj & Hj & Hrun & _ & Hw)].
  - vm_compute in Hw. discriminate.
  - assert (j = 0%nat) as -> by lia.
    vm_compute in Hrun. injection Hrun as _ <-.
    vm_compute in Hw. discriminate.
Qed.

(** C6 on the counter model: epoch 0 of a run over the two loaders. *)
Lemma validation_phase_is_quiet_witness :
  "train" <> "val"
  /\ epoch_discipline loaders criterion tt "train" "val" false 2 0 (init_state net0 0).
Proof.
  split; [discriminate|].
  apply (validation_phase_is_quiet loaders criterion tt "train" "val" false 2 0
           (init_state net0 0)).
  discriminate.
Defined.

Example epoch_trace :
  fst (run_epoch loaders criterion tt "train" "val" false 2 0 (init_state net0 0))
  = [Print (MsgEpoch 0 1); Print MsgRule;
     ModelTrain; ZeroGrad; SetGradEnabled true; Backward 0%float; Step;
     Print (MsgPhase "train" 0 1);
     ModelEval; ZeroGrad; SetGradEnabled false; Print (MsgPhase "val" 0 1);
     Print MsgBlank].
Proof. vm_compute. reflexivity. Qed.

(** C6 as stated fails: with one name for both phases, the second phase of
    the epoch, whose accuracy is recorded as the validation accuracy, runs
    in training mode with gradient tracking enabled, a backward pass and an
    optimizer step. *)
Lemma validation_phase_is_quiet_counterexample :
  ~ epoch_discipline same_name_loaders criterion tt "val" "val" false 1 0
      (init_state net0 0).
Proof.
  intros (t1 & r1 & Hrun1 & _ & H).
  vm_compute in Hrun1. injection Hrun1 as <- <-.
  destruct H as (t2 & r2 & Hrun2 & Hhead & _).
  vm_compute in Hrun2. injection Hrun2 as <- <-.
  discriminate.
Qed.

Example validation_phase_same_names :
  fst (run_phase same_name_loaders criterion tt "val" "val" false "val"
         (init_state net0 0))
  = [ModelTrain; ZeroGrad; SetGradEnabled true; Backward 0%float; Step;
     Print (MsgPhase "val" 0 1)].
Proof. vm_compute. reflexivity. Qed.

(** C9 on the counter model with auxiliary outputs, an Inception model. *)
Lemma loss_rule_holds_witness :
  "train" <> "val" /\ @loss_rule inception criterion tt "train" "val" true.
Proof.
  split; [discriminate|].
  apply (@loss_rule_holds inception criterion tt "train" "val" true). discriminate.
Defined.

Example combined_loss_of_a_batch :
  snd (@run_batch inception criterion tt "train" true "train" (0, 0)
         (@State inception (@Net inception 0 0 true) 0 1 [] 0 0%float,
          0%float, PyInt 0))
  = Return (@State inception (@Net inception 1 1 true) 1 1 [] 0 0%float,
            (0 + (0 + 0.4 * 1) * 1)%float, Tensor 1).
Proof. vm_compute. reflexivity. Qed.

(** C9 as stated fails: with one name for both phases and [is_inception]
    set, a batch of the validation phase, the model being in training mode
    as the phase has put it, takes the pair of outputs and adds the
    combined loss, here 0 + 0.4 * 1, where the loss of the final outputs
    is 0. *)
Lemma loss_rule_holds_counterexample :
  ~ @loss_rule inception criterion tt "val" "val" true.
Proof.
  intros (_ & _ & H).
  specialize (H (0, 0)
                (@State inception (@Net inception 0 0 true) 0 1 [] 0 0%float)
                0%float (PyInt 0)).
  cbn zeta in H.
  change (exists e,
            @run_batch inception criterion tt "val" true "val" (0, 0)
              (@State inception (@Net inception 0 0 true) 0 1 [] 0 0%float,
               0%float, PyInt 0)
            = ([ZeroGrad; SetGradEnabled true], Raise e)) in H.
  destruct H as (e & Heq).
  apply (f_equal (fun r => match snd r with
                           | Return _ => true
                           | Raise _ => false
                           end)) in Heq.
  vm_compute in Heq. discriminate.
Qed.

Example validation_batch_same_names :
  snd (@run_batch inception criterion tt "val" true "val" (0, 0)
         (@State inception (@Net inception 0 0 true) 0 1 [] 0 0%float,
          0%float, PyInt 0))
  = Return (@State inception (@Net inception 1 1 true) 1 1 [] 0 0%float,
            (0 + (0 + 0.4 * 1) * 1)%float, Tensor 1).
Proof. vm_compute. reflexivity. Qed.

(** C8 on the counter model: one epoch in which no prediction is right. *)
Lemma train_model_keeps_initial_witness :
  exists t mdl hist,
    train_model never_right_loaders criterion tt "train" "val" false net0 0 1
    = (t, Return (mdl, hist))
    /\ (1 <= 0 \/ Forall (fun a => fgt a 0%float = false) hist)
    /\ hist = [0%float]
    /\ wts mdl = wts net0
    /\ exists t0, t = t0 ++ [Print MsgComplete; Print (MsgBest 0%float);
                             LoadStateDict (wts net0)].
Proof.
  eexists _, _, _.
  refine ((fun Hrun Hall =>
             let H := train_model_keeps_initial never_right_loaders criterion tt
                        "train" "val" false net0 0 1 _ _ _ Hrun Hall in
             conj Hrun (conj Hall (conj eq_refl
               (conj (proj1 H) (proj1 (proj2 H)))))) _ _).
  - vm_compute. reflexivity.
  - right. repeat constructor.
Defined.

(** X1 on the counter model: the two loaders have data on every
    traversal. *)
Lemma train_model_returns_iff_witness :
  @outputs_match torch false
  /\ ((exists t r,
         train_model loaders criterion tt "train" "val" false net0 0 2
         = (t, Return r))
      <-> forall k, (k < Z.to_nat 2)%nat ->
            traversal_ready loaders "train" (2 * k)
            /\ traversal_ready loaders "val" (2 * k + 1)).
Proof.
  split; [exact torch_outputs_match|].
  exact (proj2 (train_model_returns_iff loaders criterion tt "train" "val" false
                  net0 0 2) torch_outputs_match).
Defined.

(** X2 on the counter model: a validation loader without a batch. *)
Lemma train_model_raises_iff_witness :
  @outputs_match torch false
  /\ (snd (train_model no_batch_loaders criterion tt "train" "val" false net0 0 1)
      = Raise AttributeError
      <-> first_error no_batch_loaders "train" "val" (Z.to_nat 1) AttributeError).
Proof.
  split; [exact torch_outputs_match|].
  exact (train_model_raises_iff no_batch_loaders criterion tt "train" "val" false
           net0 0 1 AttributeError torch_outputs_match).
Defined.

(** X4 on the counter model: two epochs of one batch per traversal. *)
Lemma train_model_step_count_witness :
  exists t r,
    "train" <> "val"
    /\ loaders !! "train" = Some (one_batch 0)
    /\ loaders !! "val" = Some (one_batch 1)
    /\ train_model loaders criterion tt "train" "val" false net0 0 2 = (t, Return r)
    /\ count_events is_zero_grad t = 4%nat
    /\ count_events is_backward t = 2%nat
    /\ count_events is_step t = 2%nat.
Proof.
  eexists _, _.
  split; [discriminate|]. split; [reflexivity|]. split; [reflexivity|].
  split; [vm_compute; reflexivity|].
  refine (train_model_step_count loaders criterion tt "train" "val" false
            net0 0 2 _ _ (one_batch 0) (one_batch 1) _ _ _ _);
    [discriminate | reflexivity | reflexivity | vm_compute; reflexivity].
Defined.

(** X5 on the counter model: the second epoch does not reach the accuracy
    of the first. *)
Lemma best_weights_earliest_witness :
  exists t s,
    "train" <> "val"
    /\ state_after loaders criterion tt "train" "val" false net0 0 2 2
       = (t, Return s)
    /\ fgt (best_acc s) 0%float = true
    /\ exists j t_j s_j,
         (j < 2)%nat
         /\ state_after loaders criterion tt "train" "val" false net0 0 2 (S j)
            = (t_j, Return s_j)
         /\ val_acc_history s !! j = Some (best_acc s)
         /\ best_model_wts s = wts (model s_j)
         /\ forall i a, (i < j)%nat -> val_acc_history s !! i = Some a ->
                        a <> best_acc s /\ fgt a (best_acc s) = false.
Proof.
  eexists _, _.
  split; [discriminate|]. split; [vm_compute; reflexivity|].
  split; [vm_compute; reflexivity|].
  refine (best_weights_earliest loaders criterion tt "train" "val" false
            net0 0 2 2 _ _ _ _ _);
    [discriminate | vm_compute; reflexivity | vm_compute; reflexivity].
Defined.

(** X6 on the counter model: from the first epoch to the second. *)
Lemma best_never_decreases_witness :
  exists t_j s_j t_k s_k,
    (1 <= 2)%nat
    /\ state_after loaders criterion tt "train" "val" false net0 0 2 1
       = (t_j, Return s_j)
    /\ state_after loaders criterion tt "train" "val" false net0 0 2 2
       = (t_k, Return s_k)
    /\ val_acc_history s_j `prefix_of` val_acc_history s_k
    /\ ((best_acc s_k = best_acc s_j /\ best_model_wts s_k = best_model_wts s_j)
        \/ fgt (best_acc s_k) (best_acc s_j) = true).
Proof.
  eexists _, _, _, _.
  split; [lia|]. split; [vm_compute; reflexivity|].
  split; [vm_compute; reflexivity|].
  refine (best_never_decreases loaders criterion tt "train" "val" false
            net0 0 2 1 2 _ _ _ _ _ _ _);
    [lia | vm_compute; reflexivity | vm_compute; reflexivity].
Defined.

(** X7 on the counter model: the model comes back in evaluation mode. *)
Lemma train_model_leaves_mode_witness :
  exists t mdl hist,
    train_model loaders criterion tt "train" "val" false net0 0 2
    = (t, Return (mdl, hist))
    /\ training mdl
       = if decide (0 < 2)
         then negb (bool_decide ("train" <> "val"))
         else training net0.
Proof.
  eexists _, _, _.
  split; [vm_compute; reflexivity|].
  refine (train_model_leaves_mode loaders criterion tt "train" "val" false
            net0 0 2 _ _ _ _).
  vm_compute. reflexivity.
Defined.

(** X12 on the counter model: other validation labels, the same weights. *)
Lemma validation_data_does_not_train_witness :
  exists t1 s1 t2 s2,
    (forall g : Z, @zero_grad torch (@zero_grad torch g) = @zero_grad torch g)
    /\ "train" <> "val"
    /\ loaders !! "train" = (<["val" := one_batch 7]> loaders) !! "train"
    /\ state_after loaders criterion tt "train" "val" false net0 0 2 2
       = (t1, Return s1)
    /\ state_after (<["val" := one_batch 7]> loaders) criterion tt "train" "val"
         false net0 0 2 2
       = (t2, Return s2)
    /\ wts (model s1) = wts (model s2)
    /\ optimizer s1 = optimizer s2.
Proof.
  eexists _, _, _, _.
  split; [intros g; reflexivity|]. split; [discriminate|].
  split; [reflexivity|]. split; [vm_compute; reflexivity|].
  split; [vm_compute; reflexivity|].
  refine (validation_data_does_not_train loaders
            (<["val" := one_batch 7]> loaders) criterion tt "train" "val"
            false net0 0 2 2 _ _ _ _ _ _ _ _ _);
    [intros g; reflexivity | discriminate | reflexivity
    | vm_compute; reflexivity | vm_compute; reflexivity].
Defined.

Example validation_labels_change_the_history :
  exists s1 s2,
    snd (state_after loaders criterion tt "train" "val" false net0 0 2 2)
    = Return s1
    /\ snd (state_after (<["val" := one_batch 7]> loaders) criterion tt
              "train" "val" false net0 0 2 2)
       = Return s2
    /\ val_acc_history s1 <> val_acc_history s2.
Proof.
  eexists _, _. split; [vm_compute; reflexivity|].
  split; [vm_compute; reflexivity|].
  cbn [val_acc_history]. intros H.
  apply (f_equal (fun h => match h with
                           | a :: _ => PrimFloat.eqb a 1%float
                           | [] => false
                           end)) in H.
  vm_compute in H. discriminate H.
Qed.

(** X13 on the counter model: a negative number of epochs and no loader. *)
Lemma train_model_no_epochs_witness :
  -1 <= 0
  /\ train_model ∅ criterion tt "train" "val" false net0 0 (-1)
     = ([Print MsgComplete; Print (MsgBest 0%float); LoadStateDict (wts net0)],
        Return (net0, [])).
Proof.
  split; [lia|].
  exact (train_model_no_epochs ∅ criterion tt "train" "val" false net0 0 (-1)
           ltac:(lia)).
Defined.

End CounterRuns.
